(** * flax.nnx: Variables, snapshots and the graph flatten/unflatten engine

    A shallow embedding of [flax/nnx/variablelib.py] (class [Variable],
    class [VariableState]) over an explicit heap of Python objects, and of
    the graph (de)serialisation engine that is built on top of it. *)

From Stdlib Require Import ZArith.
From stdpp Require Import base option list gmap strings fin_maps fin_sets.

(** ** Python values and objects *)

(** Object identity: the address of an object on the heap ([id(x)]). *)
Abbreviation loc := nat.

(** Hook functions are first-class Python callables compared by identity;
    they are named here, their behaviour is given by an interpretation
    (see [hook_sem] below). *)
Abbreviation HookId := nat.

(** The concrete [Variable] classes declared in variablelib.py, plus user
    subclasses ([class CustomVariable(nnx.Variable)]). *)
Inductive VarType :=
| TVariable
| TParam
| TBatchStat
| TCache
| TIntermediate
| TCustom (name : string).

Global Instance VarType_eq_dec : EqDecision VarType.
Proof. solve_decision. Defined.

Inductive PyVal :=
| PyNone
| PyInt (z : Z)
| PyStr (s : string)
| PyHooks (hooks : list HookId)      (* a tuple of hook callables *)
| PyTraceState (epoch : nat)         (* a [tracers.TraceState] *)
| PyRef (l : loc).                   (* a reference to a heap object *)

Global Instance PyVal_eq_dec : EqDecision PyVal.
Proof. solve_decision. Defined.

(** [vars(obj)]: the instance dictionary. *)
Abbreviation Attrs := (gmap string PyVal).

(** A [Variable] instance: its dynamic type and its [vars]. *)
Record VarObj := MkVar {
  var_type : VarType;
  var_vars : gmap string PyVal
}.

(** A [VariableState] instance.  Its [vars] are [type], [value] and the
    metadata passed as keywords; Python's keyword binding in
    [__init__(self, type, value, **metadata)] keeps the three apart, so
    [get_metadata] (all of [vars] but [type] and [value]) is the third
    field. *)
Record VariableState := MkState {
  vs_type : VarType;
  vs_value : PyVal;
  vs_metadata : gmap string PyVal
}.

(** Keys of graph children: attribute names and sequence indices. *)
Inductive Key :=
| KStr (s : string)
| KInt (i : nat).

Global Instance Key_eq_dec : EqDecision Key.
Proof. solve_decision. Defined.

(** Heap objects.  A graph node (a list, a dict, a module) holds its
    children in the canonical order of its type: by index for a
    sequence, sorted by key for a mapping, by declared field for an
    object. *)
Inductive Obj :=
| OVariable (v : VarObj)
| OVariableState (s : VariableState)
| ONode (tag : string) (children : list (Key * PyVal)).

(** The exceptions raised.  [StructureMismatch] is the [ValueError]
    'Expected key ...' of [unflatten] (a State and a GraphDef that
    disagree at a path), [StructureCorruption] the error of a NodeRef to
    an index that was never registered. *)
Inductive Exception :=
| TraceContextError                 (* errors.TraceContextError *)
| ValueError (msg : string)
| TypeError (msg : string)
| KeyError (key : string)
| AttributeError (name : string)
| RecursionError
| HookRejected (h : HookId)         (* raised from inside a hook *)
| StructureMismatch (path : list Key)
| StructureCorruption (index : nat).

(** ** The world: heap and ambient trace *)

Record World := MkWorld {
  heap : gmap loc Obj;
  current_trace : nat
}.

Definition set_heap (f : gmap loc Obj → gmap loc Obj) (w : World) : World :=
  MkWorld (f (heap w)) (current_trace w).

(** Computations that read and write the world and may raise.  A raised
    exception keeps the world as it was when it was raised. *)
Definition M (A : Type) : Type := World → (Exception + A) * World.

Definition ret {A} (a : A) : M A := λ w, (inr a, w).
Definition raise {A} (e : Exception) : M A := λ w, (inl e, w).
Definition bind {A B} (c : M A) (k : A → M B) : M B :=
  λ w, match c w with
       | (inl e, w') => (inl e, w')
       | (inr a, w') => k a w'
       end.
Definition get_world : M World := λ w, (inr w, w).
Definition modify_heap (f : gmap loc Obj → gmap loc Obj) : M unit :=
  λ w, (inr tt, set_heap f w).
Definition lift {A} (r : Exception + A) : M A := λ w, (r, w).

Declare Scope py_scope.
Delimit Scope py_scope with py.
Notation "'let*' x ':=' c 'in' k" := (bind c (λ x, k))
  (at level 10, x pattern, c at level 100, k at level 200) : py_scope.
Notation "c ';;' k" := (bind c (λ _, k))
  (at level 100, k at level 200, right associativity) : py_scope.
Open Scope py_scope.

(** [object.__new__(cls)] followed by filling the instance: a new address. *)
Definition alloc (o : Obj) : M loc :=
  λ w, let l := fresh (dom (heap w)) in (inr l, set_heap (insert l o) w).

Definition is_Variable (w : World) (v : PyVal) : bool :=
  match v with
  | PyRef l => match heap w !! l with Some (OVariable _) => true | _ => false end
  | _ => false
  end.

Definition get_variable (self : loc) : M VarObj :=
  λ w, match heap w !! self with
       | Some (OVariable v) => (inr v, w)
       | _ => (inl (TypeError "not a Variable"), w)
       end.

(** [self.name] for a name held in [vars(self)].  For a name that is
    missing there the code goes on to [Variable.__getattr__] (lines
    431-435), which asks [self.value] for the attribute; what that gives
    depends on the class of the value, which [PyVal] does not describe.
    Here the lookup of a missing name raises [AttributeError]. *)
Definition getattr (self : loc) (name : string) : M PyVal :=
  let* v := get_variable self in
  match var_vars v !! name with
  | Some x => ret x
  | None => raise (AttributeError name)
  end.

(** [vars(self)] replaced as a whole (what [clear] + [update] amount to). *)
Definition set_vars (self : loc) (attrs : gmap string PyVal) : M unit :=
  let* v := get_variable self in
  modify_heap (insert self (OVariable (MkVar (var_type v) attrs))).

(** [vars(self)[name] = value] *)
Definition vars_setitem (self : loc) (name : string) (value : PyVal) : M unit :=
  let* v := get_variable self in
  set_vars self (<[name := value]> (var_vars v)).

(** ** tracers.TraceState *)

(** Modelled from the spec: [flax/nnx/tracers.py] is missing.  A
    [TraceState] is the epoch token stamped on a Variable when it is
    created; it is valid while the ambient trace is still the one it was
    stamped in. *)
Definition TraceState_new : M PyVal :=
  λ w, (inr (PyTraceState (current_trace w)), w).

Definition is_valid (ts : PyVal) : M bool :=
  λ w, match ts with
       | PyTraceState t => (inr (bool_decide (t = current_trace w)), w)
       | _ => (inl (AttributeError "is_valid"), w)
       end.

(** ** Dictionaries *)

(** [del d[k]] *)
Definition dict_del (k : string) (d : gmap string PyVal) : M (gmap string PyVal) :=
  match d !! k with
  | Some _ => ret (delete k d)
  | None => raise (KeyError k)
  end.

(** [d.update(other)]: the entries of [other] win. *)
Definition dict_update (d other : gmap string PyVal) : gmap string PyVal :=
  other ∪ d.

(** ** class VariableState *)

(** The names bound by [VariableState.__init__(self, type, value, **metadata)];
    passing one of them again through [**metadata] is a [TypeError]. *)
Definition VariableState_params : list string := ["self"; "type"; "value"].

Definition keyword_clash (params : list string) (kwargs : gmap string PyVal) : bool :=
  existsb (λ p, bool_decide (is_Some (kwargs !! p))) params.

Global Arguments keyword_clash : simpl never.

(** [VariableState(type, value, **metadata)] *)
Definition VariableState_init (type : VarType) (val : PyVal)
    (metadata : gmap string PyVal) : M VariableState :=
  if keyword_clash VariableState_params metadata
  then raise (TypeError "got multiple values for argument")
  else ret (MkState type val metadata).

(** [VariableState.get_metadata] *)
Definition VariableState_get_metadata (s : VariableState) : gmap string PyVal :=
  vs_metadata s.

(** [VariableState.replace] *)
Definition VariableState_replace (s : VariableState) (val : PyVal) : M VariableState :=
  VariableState_init (vs_type s) val (VariableState_get_metadata s).

(** [VariableState.to_variable] *)
Definition to_variable (s : VariableState) : M loc :=
  let metadata := VariableState_get_metadata s in
  let* ts := TraceState_new in
  alloc (OVariable (MkVar (vs_type s)
    (dict_update metadata
       (<["_trace_state" := ts]> (<["raw_value" := vs_value s]> ∅))))).

(** A [VariableState] held by reference: the call [VariableState(...)]
    makes a new instance. *)
Definition VariableState_new (type : VarType) (val : PyVal)
    (metadata : gmap string PyVal) : M loc :=
  let* s := VariableState_init type val metadata in
  alloc (OVariableState s).

(** [s1 == s2] on [VariableState] instances.  The class (lines 808-877)
    defines no [__eq__], and its bases [typing.Generic] and
    [reprlib.Representable] (a [__repr__] mix-in) define none either, so
    the comparison is [object.__eq__]: identity of the two instances. *)
Definition VariableState_eq (s1 s2 : loc) : bool := bool_decide (s1 = s2).

(** ** class Variable *)

Section Variable_class.

(** What calling a hook does: [hook(variable, value)] returns the new
    value or raises. *)
Variable hook_sem : HookId → VarObj → PyVal → Exception + PyVal.

(** [for hook in hooks: value = hook(self, value)] *)
Fixpoint run_hooks (hooks : list HookId) (self : VarObj) (val : PyVal)
    : Exception + PyVal :=
  match hooks with
  | [] => inr val
  | hook :: rest =>
      match hook_sem hook self val with
      | inl e => inl e
      | inr val' => run_hooks rest self val'
      end
  end.

Definition as_hooks (v : PyVal) : M (list HookId) :=
  match v with
  | PyHooks hs => ret hs
  | _ => raise (TypeError "object is not iterable")
  end.

(** [self.name = value] for a [name] that is not a property of the
    class: [__setattr__] calls [_setattr], which checks the trace state,
    and its [object.__setattr__] writes the entry of [vars(self)]. *)
Definition setattr_entry (self : loc) (name : string) (val : PyVal) : M unit :=
  let* ts := getattr self "_trace_state" in
  let* valid := is_valid ts in
  if negb valid then raise TraceContextError
  else vars_setitem self name val.

(** [Variable.get_metadata] *)
Definition get_metadata (self : loc) : M (gmap string PyVal) :=
  let* v := get_variable self in
  let metadata := var_vars v in
  let* metadata := dict_del "raw_value" metadata in
  let* metadata := dict_del "_trace_state" metadata in
  ret metadata.

(** [Variable.copy_from] *)
Definition copy_from (self other : loc) : M unit :=
  let* s := get_variable self in
  let* w := get_world in
  match heap w !! other with
  | Some (OVariable o) =>
      if negb (bool_decide (var_type s = var_type o))
      then raise (ValueError "Cannot copy from incompatible container")
      else if bool_decide (self = other) then ret tt
      else
        let* trace_state := getattr self "_trace_state" in
        let other_vars := var_vars o in
        let* other_vars := dict_del "_trace_state" other_vars in
        set_vars self
          (dict_update (dict_update ∅ other_vars)
                       (<["_trace_state" := trace_state]> ∅))
  | _ => raise (ValueError "Cannot copy from incompatible container")
  end.

(** [Variable.update_from_state] *)
Definition update_from_state (self : loc) (variable_state : VariableState) : M unit :=
  let* trace_state := getattr self "_trace_state" in
  set_vars self
    (dict_update
       (dict_update ∅ (VariableState_get_metadata variable_state))
       (<["_trace_state" := trace_state]>
          (<["raw_value" := vs_value variable_state]> ∅))).

(** The [value] property, getter. *)
Definition value (self : loc) : M PyVal :=
  let* val := getattr self "raw_value" in
  let* hooks := getattr self "get_value_hooks" in
  let* hooks := as_hooks hooks in
  match hooks with
  | [] => ret val
  | _ => let* v := get_variable self in lift (run_hooks hooks v val)
  end.

(** The [value] property, setter: the function [object.__setattr__]
    calls for the name [value].  Its last line, [self.raw_value = value],
    is an assignment to a name that is no property. *)
Definition value_setter (self : loc) (val : PyVal) : M unit :=
  let* w := get_world in
  if is_Variable w val
  then raise (ValueError "Cannot set value to a Variable")
  else
    let* hooks := getattr self "set_value_hooks" in
    let* hooks := as_hooks hooks in
    let* val := match hooks with
                | [] => ret val
                | _ => let* v := get_variable self in lift (run_hooks hooks v val)
                end in
    setattr_entry self "raw_value" val.

(** [object.__setattr__(self, name, value)].  [value] is a property of
    class [Variable], a data descriptor, so the name [value] goes to its
    setter; every other name is written to [vars(self)].  (The names the
    interpreter itself keeps on every object, [__dict__] and [__class__],
    are not among the names modelled.) *)
Definition object_setattr (self : loc) (name : string) (val : PyVal) : M unit :=
  if bool_decide (name = "value") then value_setter self val
  else vars_setitem self name val.

(** [Variable._setattr] *)
Definition _setattr (self : loc) (name : string) (val : PyVal) : M unit :=
  let* ts := getattr self "_trace_state" in
  let* valid := is_valid ts in
  if negb valid then raise TraceContextError
  else object_setattr self name val.

(** [Variable.__setattr__]: the assignment [self.name = value], also for
    the name [value]. *)
Definition __setattr__ (self : loc) (name : string) (val : PyVal) : M unit :=
  _setattr self name val.

(** [Variable.create_value] *)
Definition create_value (self : loc) (val : PyVal) : M PyVal :=
  let* hooks := getattr self "create_value_hooks" in
  let* hooks := as_hooks hooks in
  let* v := get_variable self in
  lift (run_hooks hooks v val).

(** [Variable.__eq__] *)
Definition Variable_eq (w : World) (self other : loc) : bool :=
  match heap w !! self, heap w !! other with
  | Some (OVariable s), Some (OVariable o) =>
      bool_decide (var_type s = var_type o) && bool_decide (var_vars o = var_vars s)
  | _, _ => false
  end.

(** A call of [self.replace], with keywords and with or without a
    positional argument, bound to the signature
    [replace(self, value=Missing, **kwargs)]; [val] is the positional
    argument, if one is given.  A keyword [self], or a keyword [value]
    next to a positional argument, is a [TypeError]; a keyword [value]
    alone is the parameter [value], so [kwargs] never holds that name. *)
Definition replace_bind (val : option PyVal) (kwargs : gmap string PyVal)
    : Exception + (option PyVal * gmap string PyVal) :=
  if bool_decide (is_Some (kwargs !! "self"))
  then inl (TypeError "got multiple values for argument")
  else
    match kwargs !! "value", val with
    | Some _, Some _ => inl (TypeError "got multiple values for argument")
    | Some x, None => inr (Some x, delete "value" kwargs)
    | None, _ => inr (val, kwargs)
    end.

(** Lines 321-326 of [Variable.replace]: the parameter [value] ends up
    under [raw_value]; the renaming of a [value] entry of [kwargs] is
    written as in the source.  [val = None] is the [Missing] sentinel. *)
Definition replace_kwargs (val : option PyVal) (kwargs : gmap string PyVal)
    : gmap string PyVal :=
  let kwargs := match val with
                | Some x => <["raw_value" := x]> kwargs
                | None => kwargs
                end in
  (* rename `value` to `raw_value` *)
  match kwargs !! "value" with
  | Some x => <["raw_value" := x]> (delete "value" kwargs)
  | None => kwargs
  end.

(** [Variable.replace], called with or without a positional argument;
    [depth] is the interpreter's recursion limit. *)
Fixpoint replace (depth : nat) (self : loc) (val : option PyVal)
    (kwargs : gmap string PyVal) : M loc :=
  match depth with
  | 0 => raise RecursionError
  | S depth =>
      let* (val, kwargs) := lift (replace_bind val kwargs) in
      let kwargs := replace_kwargs val kwargs in
      let* s := get_variable self in
      let* w := get_world in
      let fresh_instance :=
        (* get and update attributes *)
        let attributes := var_vars s in
        let attributes := dict_update attributes kwargs in
        (* return new instance with updated attributes *)
        alloc (OVariable (MkVar (var_type s) (dict_update ∅ attributes))) in
      match kwargs !! "raw_value" with
      | Some (PyRef other) =>
          match heap w !! other with
          | Some (OVariable o) =>
              (* return `value` if it is a Variable *)
              let kwargs := delete "raw_value" kwargs in
              if negb (bool_decide (var_type s = var_type o))
              then raise (ValueError "Cannot replace value from incompatible container")
              else if negb (bool_decide (kwargs = ∅))
                   then replace depth other None kwargs
                   else ret other
          | _ => fresh_instance
          end
      | _ => fresh_instance
      end
  end.

(** [Variable.from_metadata] *)
Definition from_metadata (cls : VarType) (val : PyVal)
    (attributes : gmap string PyVal) : M loc :=
  let* ts := TraceState_new in
  alloc (OVariable (MkVar cls
    (dict_update (dict_update ∅ attributes)
       (<["_trace_state" := ts]> (<["raw_value" := val]> ∅))))).

(** [Variable.copy] *)
Definition copy (self : loc) : M loc :=
  let* s := get_variable self in
  let attributes := var_vars s in
  let* ts := TraceState_new in
  let attributes := <["_trace_state" := ts]> attributes in
  alloc (OVariable (MkVar (var_type s) (dict_update ∅ attributes))).

(** [Variable.to_state] *)
Definition to_state (self : loc) : M VariableState :=
  let* metadata := get_metadata self in
  let* s := get_variable self in
  let* raw := getattr self "raw_value" in
  VariableState_init (var_type s) raw metadata.

(** The names bound by [Variable.__init__(self, value, *,
    set_value_hooks=(), get_value_hooks=(), create_value_hooks=(),
    add_axis_hooks=(), remove_axis_hooks=(), **metadata)]. *)
Definition Variable_params : list string :=
  ["self"; "value"; "set_value_hooks"; "get_value_hooks"; "create_value_hooks";
   "add_axis_hooks"; "remove_axis_hooks"].

(** The call [cls(value, set_value_hooks=..., get_value_hooks=...,
    create_value_hooks=..., add_axis_hooks=..., remove_axis_hooks=...,
    **metadata)], with the five hook keywords written out, for a plain
    value (not a [VariableMetadata]), hooks given as sequences, and a
    class that declares none of the [on_*] methods, as is the case for
    every class of variablelib.py.  A [metadata] entry named like a
    parameter is a [TypeError] when the call is bound, before the body of
    [__init__] runs. *)
Definition Variable_init (cls : VarType) (val : PyVal)
    (set_value_hooks get_value_hooks create_value_hooks
     add_axis_hooks remove_axis_hooks : list HookId)
    (metadata : gmap string PyVal) : M loc :=
  if keyword_clash Variable_params metadata
  then raise (TypeError "got multiple values for argument")
  else
  let* ts := TraceState_new in
  let* self := alloc (OVariable (MkVar cls (<["_trace_state" := ts]> ∅))) in
  _setattr self "raw_value" val ;;
  _setattr self "get_value_hooks" (PyHooks get_value_hooks) ;;
  _setattr self "set_value_hooks" (PyHooks set_value_hooks) ;;
  _setattr self "create_value_hooks" (PyHooks create_value_hooks) ;;
  _setattr self "add_axis_hooks" (PyHooks add_axis_hooks) ;;
  _setattr self "remove_axis_hooks" (PyHooks remove_axis_hooks) ;;
  let* s := get_variable self in
  set_vars self (dict_update (var_vars s) metadata) ;;
  (* run create_value hooks *)
  let* raw := getattr self "raw_value" in
  let* raw := create_value self raw in
  _setattr self "raw_value" raw ;;
  ret self.

End Variable_class.

(** The fold the specification describes for hooks [h1, ..., hn]:
    [hn(v, ... h1(v, x) ...)], the last registered hook outermost. *)
Definition apply_in_order (hook_sem : HookId → VarObj → PyVal → Exception + PyVal)
    (hooks : list HookId) (v : VarObj) (x : PyVal) : Exception + PyVal :=
  foldr (λ h inner, match inner with
                    | inl e => inl e
                    | inr y => hook_sem h v y
                    end) (inr x) (rev hooks).

(** Modelled from the spec: crossing a transformation boundary ends the
    current trace epoch and starts another. *)
Definition new_trace (w : World) : World :=
  MkWorld (heap w) (S (current_trace w)).

(** The replacement value [replace] ends up with is itself a Variable. *)
Definition replacement_is_Variable (w : World) (kwargs : gmap string PyVal) : bool :=
  match kwargs !! "raw_value" with
  | Some x => is_Variable w x
  | None => false
  end.

(** The trace state a Variable was stamped with is no longer the ambient
    one. *)
Definition stale (w : World) (v : VarObj) : Prop :=
  ∃ t, var_vars v !! "_trace_state" = Some (PyTraceState t) ∧ t ≠ current_trace w.

(** ** The graph engine: GraphDef, State, flatten, unflatten *)

Module graph.

(** A structural path: the keys from the root. *)
Abbreviation Path := (list Key).

(** Modelled from the spec: [flax/nnx/graph.py] is missing.  The static
    shape of a traversed graph.  A [NodeDef] is the first occurrence of a
    graph node, with its type tag, its identity index and its children
    in canonical order; a [NodeRef] points back to a node already
    emitted; a [Leaf] is an opaque value; a [VariableSlot] is a child
    that is a Variable, marked with the Variable's identity index. *)
#[warnings="-register-all"]
Inductive GraphDef :=
| NodeDef (type : string) (index : nat) (children : list (Key * GraphDef))
| NodeRef (index : nat)
| Leaf (x : PyVal)
| VariableSlot (index : nat).

(** Modelled from the spec: [State], the ordered mapping from structural
    paths to snapshots, in traversal order. *)
Abbreviation State := (list (Path * VariableState)).

(** Modelled from the spec: the entry of a State at a path (paths are
    unique). *)
Fixpoint lookup_state (path : Path) (state : State) : option VariableState :=
  match state with
  | [] => None
  | (p, s) :: rest => if decide (p = path) then Some s else lookup_state path rest
  end.

(** Modelled from the spec: [RefMap], identity to index; the next index
    is the number of identities recorded so far. *)
Abbreviation RefMap := (gmap loc nat).

Definition next_index (ref_index : gmap loc nat) : nat := size ref_index.

(** Modelled from the spec: the children of a node are visited in
    canonical order, threading the RefMap and the State accumulated so
    far. *)
Fixpoint flatten_children
    (visit : Path → PyVal → gmap loc nat → State → M (GraphDef * gmap loc nat * State))
    (path : Path) (children : list (Key * PyVal))
    (ref_index : gmap loc nat) (state : State)
    : M (list (Key * GraphDef) * gmap loc nat * State) :=
  match children with
  | [] => ret ([], ref_index, state)
  | (key, child) :: rest =>
      let* (def, ref_index, state) := visit (path ++ [key]) child ref_index state in
      let* (defs, ref_index, state) := flatten_children visit path rest ref_index state in
      ret ((key, def) :: defs, ref_index, state)
  end.

(** Modelled from the spec: the depth-first traversal of [flatten]
    (section 4.2).  [depth] is the interpreter's recursion limit.  Every
    container is a graph node here; the generic pytrees that the spec
    hands to an external registry are not modelled, what is neither a
    Variable nor a node is an opaque leaf. *)
Fixpoint flatten_rec (depth : nat) (path : Path) (x : PyVal)
    (ref_index : gmap loc nat) (state : State)
    : M (GraphDef * gmap loc nat * State) :=
  match depth with
  | 0 => raise RecursionError
  | S depth =>
      let* w := get_world in
      match x with
      | PyRef l =>
          match heap w !! l with
          | Some (OVariable _) =>
              match ref_index !! l with
              | Some index =>
                  (* shared Variable: nothing new in the State *)
                  ret (VariableSlot index, ref_index, state)
              | None =>
                  let index := next_index ref_index in
                  let* snapshot := to_state l in
                  ret (VariableSlot index, <[l := index]> ref_index,
                       state ++ [(path, snapshot)])
              end
          | Some (ONode type children) =>
              match ref_index !! l with
              | Some index => ret (NodeRef index, ref_index, state)
              | None =>
                  let index := next_index ref_index in
                  let* (defs, ref_index, state) :=
                    flatten_children (flatten_rec depth) path children
                      (<[l := index]> ref_index) state in
                  ret (NodeDef type index defs, ref_index, state)
              end
          | _ => ret (Leaf x, ref_index, state)
          end
      | _ => ret (Leaf x, ref_index, state)
      end
  end.

(** Modelled from the spec: [flatten(root, ref_index) -> (GraphDef, State)];
    the RefMap passed in is filled as a side effect, it is returned
    here. *)
Definition flatten (depth : nat) (root : PyVal) (ref_index : gmap loc nat)
    : M (GraphDef * State * gmap loc nat) :=
  let* (graphdef, ref_index, state) := flatten_rec depth [] root ref_index [] in
  ret (graphdef, state, ref_index).

(** Modelled from the spec: the paths of the leaf slots of a GraphDef. *)
Fixpoint slot_paths (graphdef : GraphDef) (path : Path) : list Path :=
  match graphdef with
  | NodeDef _ _ children =>
      (fix go (children : list (Key * GraphDef)) : list Path :=
         match children with
         | [] => []
         | (key, child) :: rest => slot_paths child (path ++ [key]) ++ go rest
         end) children
  | VariableSlot _ => [path]
  | NodeRef _ | Leaf _ => []
  end.

Definition slot_paths_children (path : Path) : list (Key * GraphDef) → list Path :=
  fix go (children : list (Key * GraphDef)) : list Path :=
    match children with
    | [] => []
    | (key, child) :: rest => slot_paths child (path ++ [key]) ++ go rest
    end.

(** Modelled from the spec: the object a cached index stands for, if an
    [index_ref_cache] was given. *)
Definition cached (index_ref_cache : option (gmap nat loc)) (index : nat) : option loc :=
  match index_ref_cache with
  | Some cache => cache !! index
  | None => None
  end.

(** Modelled from the spec: a cached node of the tagged type is reused
    in place; it is emptied first. *)
Definition reuse_node (l : loc) (type : string) : M loc :=
  let* w := get_world in
  match heap w !! l with
  | Some (ONode type' _) =>
      if decide (type' = type)
      then modify_heap (insert l (ONode type [])) ;; ret l
      else raise (TypeError "cached object has another type")
  | _ => raise (TypeError "cached object has another type")
  end.

(** Modelled from the spec: the reconstructed children are attached. *)
Definition init_node (l : loc) (type : string) (items : list (Key * PyVal)) : M unit :=
  modify_heap (insert l (ONode type items)).

(** Modelled from the spec: the depth-first reconstruction of
    [unflatten] (section 4.3). *)
Fixpoint unflatten_rec (graphdef : GraphDef) (path : Path) (state : State)
    (index_ref_cache : option (gmap nat loc)) (index_ref : gmap nat loc)
    : M (PyVal * gmap nat loc) :=
  match graphdef with
  | NodeRef index =>
      match index_ref !! index with
      | Some l => ret (PyRef l, index_ref)
      | None => raise (StructureCorruption index)
      end
  | Leaf x => ret (x, index_ref)
  | VariableSlot index =>
      match index_ref !! index with
      | Some l => ret (PyRef l, index_ref)
      | None =>
          match lookup_state path state with
          | None => raise (StructureMismatch path)
          | Some snapshot =>
              let* l := match cached index_ref_cache index with
                        | Some l => update_from_state l snapshot ;; ret l
                        | None => to_variable snapshot
                        end in
              ret (PyRef l, <[index := l]> index_ref)
          end
      end
  | NodeDef type index children =>
      let* l := match cached index_ref_cache index with
                | Some l => reuse_node l type
                | None => alloc (ONode type [])
                end in
      let index_ref := <[index := l]> index_ref in
      let* (items, index_ref) :=
        (fix go (children : list (Key * GraphDef)) (index_ref : gmap nat loc)
           : M (list (Key * PyVal) * gmap nat loc) :=
           match children with
           | [] => ret ([], index_ref)
           | (key, child) :: rest =>
               let* (item, index_ref) :=
                 unflatten_rec child (path ++ [key]) state index_ref_cache index_ref in
               let* (items, index_ref) := go rest index_ref in
               ret ((key, item) :: items, index_ref)
           end) children index_ref in
      init_node l type items ;;
      ret (PyRef l, index_ref)
  end.

(** Modelled from the spec:
    [unflatten(graphdef, state, index_ref?, index_ref_cache?) -> root];
    the [index_ref] map is filled as a side effect, it is returned here.
    A State path that matches no leaf slot is a StructureMismatch. *)
Definition unflatten (graphdef : GraphDef) (state : State)
    (index_ref : gmap nat loc) (index_ref_cache : option (gmap nat loc))
    : M (PyVal * gmap nat loc) :=
  match list_find (λ entry, entry.1 ∉ slot_paths graphdef []) state with
  | Some (_, (path, _)) => raise (StructureMismatch path)
  | None => unflatten_rec graphdef [] state index_ref_cache index_ref
  end.

(** The children loop of [unflatten_rec], by name. *)
Definition unflatten_children (path : Path) (state : State)
    (index_ref_cache : option (gmap nat loc))
    : list (Key * GraphDef) → gmap nat loc → M (list (Key * PyVal) * gmap nat loc) :=
  fix go (children : list (Key * GraphDef)) (index_ref : gmap nat loc)
    : M (list (Key * PyVal) * gmap nat loc) :=
    match children with
    | [] => ret ([], index_ref)
    | (key, child) :: rest =>
        let* (item, index_ref) :=
          unflatten_rec child (path ++ [key]) state index_ref_cache index_ref in
        let* (items, index_ref) := go rest index_ref in
        ret ((key, item) :: items, index_ref)
    end.

(** The paths at which [unflatten] reads the State: the first occurrence
    of every Variable index, in traversal order, given the indices
    [seen] so far.  [None] when a NodeRef points to no earlier node (the
    data-model invariant of GraphDef is broken). *)
Fixpoint expected_paths (graphdef : GraphDef) (path : Path) (seen : gset nat)
    : option (list Path * gset nat) :=
  match graphdef with
  | NodeDef _ index children =>
      (fix go (children : list (Key * GraphDef)) (seen : gset nat)
         : option (list Path * gset nat) :=
         match children with
         | [] => Some ([], seen)
         | (key, child) :: rest =>
             match expected_paths child (path ++ [key]) seen with
             | Some (ps, seen) =>
                 match go rest seen with
                 | Some (qs, seen) => Some (ps ++ qs, seen)
                 | None => None
                 end
             | None => None
             end
         end) children ({[index]} ∪ seen)
  | NodeRef index => if decide (index ∈ seen) then Some ([], seen) else None
  | Leaf _ => Some ([], seen)
  | VariableSlot index =>
      if decide (index ∈ seen) then Some ([], seen)
      else Some ([path], {[index]} ∪ seen)
  end.

Definition expected_paths_children (path : Path)
    : list (Key * GraphDef) → gset nat → option (list Path * gset nat) :=
  fix go (children : list (Key * GraphDef)) (seen : gset nat)
    : option (list Path * gset nat) :=
    match children with
    | [] => Some ([], seen)
    | (key, child) :: rest =>
        match expected_paths child (path ++ [key]) seen with
        | Some (ps, seen) =>
            match go rest seen with
            | Some (qs, seen) => Some (ps ++ qs, seen)
            | None => None
            end
        | None => None
        end
    end.

(** Modelled from the spec: [split] and [merge] as the tests use them,
    flatten with a new RefMap, unflatten with a new index map and no
    cache. *)
Definition split (depth : nat) (root : PyVal) : M (GraphDef * State) :=
  let* (graphdef, state, _) := flatten depth root ∅ in
  ret (graphdef, state).

Definition merge (graphdef : GraphDef) (state : State) : M PyVal :=
  let* (root, _) := unflatten graphdef state ∅ None in
  ret root.

(** The child stored under [key]. *)
Fixpoint get_child (key : Key) (children : list (Key * PyVal)) : option PyVal :=
  match children with
  | [] => None
  | (k, x) :: rest => if decide (k = key) then Some x else get_child key rest
  end.

(** What a structural path leads to, from [x], through the graph nodes
    of heap [h]. *)
Fixpoint resolve (h : gmap loc Obj) (x : PyVal) (path : Path) : option PyVal :=
  match path with
  | [] => Some x
  | key :: rest =>
      match x with
      | PyRef l =>
          match h !! l with
          | Some (ONode _ children) =>
              match get_child key children with
              | Some child => resolve h child rest
              | None => None
              end
          | _ => None
          end
      | _ => None
      end
  end.

(** The keys of every node are distinct. *)
Definition distinct_keys (h : gmap loc Obj) : Prop :=
  map_Forall (λ _ o, match o with
                     | ONode _ children => NoDup children.*1
                     | _ => True
                     end) h.

(** Every Variable can be snapshot. *)
Definition snapshotable (w : World) : Prop :=
  map_Forall (λ l o, match o with
                     | OVariable _ => ∃ s, to_state l w = (inr s, w)
                     | _ => True
                     end) (heap w).

(** A value that is neither a Variable nor a graph node is an opaque
    leaf. *)
Definition is_leaf (h : gmap loc Obj) (x : PyVal) : Prop :=
  match x with
  | PyRef l =>
      match h !! l with
      | Some (OVariable _) | Some (ONode _ _) => False
      | _ => True
      end
  | _ => True
  end.

(** The input-output relation of [flatten_rec] in world [w]: from the
    RefMap [rm], the value [x] at [path] flattens to a GraphDef, a larger
    RefMap and new State entries, each listed with the Variable it is
    the snapshot of. *)
Inductive Flat (w : World)
  : Path → PyVal → gmap loc nat → GraphDef → gmap loc nat
    → list (loc * (Path * VariableState)) → Prop :=
| Flat_leaf path x rm :
    is_leaf (heap w) x →
    Flat w path x rm (Leaf x) rm []
| Flat_shared_variable path l v rm index :
    heap w !! l = Some (OVariable v) →
    rm !! l = Some index →
    Flat w path (PyRef l) rm (VariableSlot index) rm []
| Flat_variable path l v rm snapshot :
    heap w !! l = Some (OVariable v) →
    rm !! l = None →
    to_state l w = (inr snapshot, w) →
    Flat w path (PyRef l) rm (VariableSlot (next_index rm))
         (<[l := next_index rm]> rm) [(l, (path, snapshot))]
| Flat_node_ref path l type children rm index :
    heap w !! l = Some (ONode type children) →
    rm !! l = Some index →
    Flat w path (PyRef l) rm (NodeRef index) rm []
| Flat_node path l type children rm defs rm' entries :
    heap w !! l = Some (ONode type children) →
    rm !! l = None →
    FlatChildren w path children (<[l := next_index rm]> rm) defs rm' entries →
    Flat w path (PyRef l) rm (NodeDef type (next_index rm) defs) rm' entries
with FlatChildren (w : World)
  : Path → list (Key * PyVal) → gmap loc nat → list (Key * GraphDef)
    → gmap loc nat → list (loc * (Path * VariableState)) → Prop :=
| FlatChildren_nil path rm :
    FlatChildren w path [] rm [] rm []
| FlatChildren_cons path key child rest rm def rm1 entries1 defs rm2 entries2 :
    Flat w (path ++ [key]) child rm def rm1 entries1 →
    FlatChildren w path rest rm1 defs rm2 entries2 →
    FlatChildren w path ((key, child) :: rest) rm ((key, def) :: defs) rm2
                 (entries1 ++ entries2).

Scheme Flat_mut := Minimality for Flat Sort Prop
  with FlatChildren_mut := Minimality for FlatChildren Sort Prop.
Combined Scheme Flat_mutind from Flat_mut, FlatChildren_mut.

(** A RefMap numbers the identities it holds [0 .. size-1], each once. *)
Definition refmap_ok (rm : gmap loc nat) : Prop :=
  (∀ l i, rm !! l = Some i → i < size rm) ∧
  (∀ l1 l2 i, rm !! l1 = Some i → rm !! l2 = Some i → l1 = l2).

(** How a rebuilt graph relates to the flattened one.  [maps_to]: the
    object at [l] was given an index, and the index was resolved to the
    object at [l'].  Values correspond when leaves are equal and
    references go to corresponding objects. *)
Definition maps_to (rm : gmap loc nat) (ir : gmap nat loc) (l l' : loc) : Prop :=
  ∃ i, rm !! l = Some i ∧ ir !! i = Some l'.

Definition val_rel (h0 : gmap loc Obj) (rm : gmap loc nat) (ir : gmap nat loc)
    (x x' : PyVal) : Prop :=
  match x with
  | PyRef l =>
      match h0 !! l with
      | Some (OVariable _) | Some (ONode _ _) =>
          ∃ l', x' = PyRef l' ∧ maps_to rm ir l l'
      | _ => x' = x
      end
  | _ => x' = x
  end.

Definition children_rel (h0 : gmap loc Obj) (rm : gmap loc nat) (ir : gmap nat loc)
    (children items : list (Key * PyVal)) : Prop :=
  Forall2 (λ c c', c.1 = c'.1 ∧ val_rel h0 rm ir c.2 c'.2) children items.

(** The object at [l'] of heap [hc] is the rebuilt form of the object at
    [l] of heap [h0]: a Variable of the same type with the same
    attributes but for the trace state, or a node of the same type with
    corresponding children. *)
Definition obj_rel (h0 : gmap loc Obj) (rm : gmap loc nat) (ir : gmap nat loc)
    (hc : gmap loc Obj) (l l' : loc) : Prop :=
  match h0 !! l with
  | Some (OVariable v) =>
      ∃ ts, hc !! l' = Some (OVariable
              (MkVar (var_type v) (<["_trace_state" := ts]> (var_vars v))))
  | Some (ONode type children) =>
      ∃ items, hc !! l' = Some (ONode type items) ∧
               children_rel h0 rm ir children items
  | _ => True
  end.

(** The invariant of [unflatten] run on the output of [flatten]: [rm]
    is the RefMap [flatten] had reached at this point of the traversal,
    [ir] the index map and [hc] the heap [unflatten] has reached, [done]
    the objects whose reconstruction is complete.  With a cache every
    object is rebuilt in itself, and is, once complete, what it was. *)
Record rebuilding (h0 : gmap loc Obj) (cache : option (gmap nat loc))
    (rm : gmap loc nat) (ir : gmap nat loc) (hc : gmap loc Obj)
    (done : gset loc) : Prop := {
  rb_refmap : refmap_ok rm;
  rb_indexed : ∀ l i, rm !! l = Some i → is_Some (ir !! i);
  rb_known : ∀ i l', ir !! i = Some l' → ∃ l, rm !! l = Some i;
  rb_inj : ∀ i j l', ir !! i = Some l' → ir !! j = Some l' → i = j;
  rb_alive : ∀ i l', ir !! i = Some l' → l' ∈ dom hc;
  rb_untouched : ∀ l, l ∈ dom h0 → (∀ i, ir !! i ≠ Some l) → hc !! l = h0 !! l;
  rb_cached : cache ≠ None → ∀ i l', ir !! i = Some l' → rm !! l' = Some i;
  rb_done : ∀ l l', l ∈ done → maps_to rm ir l l' → obj_rel h0 rm ir hc l l';
  rb_done_dom : done ⊆ dom rm;
  rb_restored : cache ≠ None → ∀ l, l ∈ done → hc !! l = h0 !! l;
  rb_nothing_new : cache ≠ None → ∀ l, l ∉ dom h0 → hc !! l = None
}.

(** A cache that maps the index of every flattened object back to it. *)
Definition cache_ok (cache : option (gmap nat loc)) (rm : gmap loc nat) : Prop :=
  ∀ C, cache = Some C → ∀ l i, rm !! l = Some i → C !! i = Some l.

(** The index-to-object table a RefMap induces. *)
Definition invert (rm : gmap loc nat) : gmap nat loc :=
  list_to_map ((λ e, (e.2, e.1)) <$> map_to_list rm).

End graph.

(** ** Small scenarios, evaluated *)

Definition no_hooks : HookId → VarObj → PyVal → Exception + PyVal :=
  λ _ _ v, inr v.

Definition world0 : World := MkWorld ∅ 0.

(** [Param(1)] *)
Definition Param (val : PyVal) : M loc :=
  Variable_init no_hooks TParam val [] [] [] [] [] ∅.

(** [BatchStat(2)] *)
Definition BatchStat (val : PyVal) : M loc :=
  Variable_init no_hooks TBatchStat val [] [] [] [] [] ∅.

(** [v = Param(1); b = BatchStat(2)] *)
Definition two_variables : World :=
  snd ((Param (PyInt 1) ;; BatchStat (PyInt 2)) world0).

(** [v = Param(1); p = Param(2)] *)
Definition two_params : World :=
  snd ((Param (PyInt 1) ;; Param (PyInt 2)) world0).

(** The attributes [Param(val)] ends up with when created in trace [t]. *)
Definition plain_vars (val : PyVal) (t : nat) : gmap string PyVal :=
  <["raw_value" := val]> (<["get_value_hooks" := PyHooks []]>
  (<["set_value_hooks" := PyHooks []]> (<["create_value_hooks" := PyHooks []]>
  (<["add_axis_hooks" := PyHooks []]> (<["remove_axis_hooks" := PyHooks []]>
  (<["_trace_state" := PyTraceState t]> ∅)))))).

(** [Param(1, type='x')] *)
Definition Param_with_type_metadata : World :=
  snd (Variable_init no_hooks TParam (PyInt 1) [] [] [] [] []
         (<["type" := PyStr "x"]> ∅) world0).

(** [s1 = VariableState(Param, 1); s2 = VariableState(Param, 1)] *)
Definition two_snapshots : (Exception + loc * loc) * World :=
  (let* s1 := VariableState_new TParam (PyInt 1) ∅ in
   let* s2 := VariableState_new TParam (PyInt 1) ∅ in
   ret (s1, s2)) world0.

(** The Variable held at [l], for reading scenarios. *)
Definition var_at (w : World) (l : loc) : VarObj :=
  match heap w !! l with
  | Some (OVariable v) => v
  | _ => MkVar TVariable ∅
  end.

(** [v = Param(1); p = Param(2)], then a transformation boundary is
    crossed: both Variables now carry an expired trace state. *)
Definition stale_world : World := new_trace two_params.

(** Three hooks: [0] adds one, [1] doubles, any other rejects. *)
Definition sample_hooks (h : HookId) (v : VarObj) (x : PyVal) : Exception + PyVal :=
  match h, x with
  | 0, PyInt z => inr (PyInt (z + 1))
  | 1, PyInt z => inr (PyInt (2 * z))
  | _, _ => inl (HookRejected h)
  end.

(** [Variable(3, get_value_hooks=(h0, h1), set_value_hooks=(h1, h0))] *)
Definition hooked_world : World :=
  snd (Variable_init sample_hooks TVariable (PyInt 3) [1; 0] [0; 1] [] [] [] ∅ world0).

(** A list object: a graph node with children [0 .. n-1]. *)
Definition new_list (items : list PyVal) : M loc :=
  alloc (ONode "list" (imap (λ i x, (KInt i, x)) items)).

(** [node[key]] *)
Definition getitem (node : PyVal) (key : Key) : M PyVal :=
  let* w := get_world in
  match node with
  | PyRef l =>
      match heap w !! l with
      | Some (ONode _ children) =>
          match graph.get_child key children with
          | Some x => ret x
          | None => raise (KeyError "no such child")
          end
      | _ => raise (TypeError "not a node")
      end
  | _ => raise (TypeError "not a node")
  end.

(** test_shared_variables: [v = Param(1); g = [v, v]; split; merge] *)
Definition shared_variables : M (graph.State * PyVal * PyVal * PyVal) :=
  let* v := Param (PyInt 1) in
  let* g := new_list [PyRef v; PyRef v] in
  let* (graphdef, state) := graph.split 100 (PyRef g) in
  let* g2 := graph.merge graphdef state in
  let* a := getitem g2 (KInt 0) in
  let* b := getitem g2 (KInt 1) in
  let* x := match a with PyRef l => value no_hooks l | _ => raise (TypeError "not a Variable") end in
  ret (state, a, b, x).

(** test_unflatten_empty:
    [a = Dict({'a': 1, 'b': Param(2)}); g = List([a, 3, a, Param(4)])];
    the graph is split and then unflattened with [State({})]. *)
Definition unflatten_empty : M (PyVal * gmap nat loc) :=
  let* p2 := Param (PyInt 2) in
  let* a := alloc (ONode "Dict" [(KStr "a", PyInt 1); (KStr "b", PyRef p2)]) in
  let* p4 := Param (PyInt 4) in
  let* g := new_list [PyRef a; PyInt 3; PyRef a; PyRef p4] in
  let* (graphdef, state) := graph.split 100 (PyRef g) in
  graph.unflatten graphdef [] ∅ None.

(** Modelled from the spec: the identity-correlation tables of a
    transformation boundary, as test_cached_unflatten builds them.
    [compose_mapping] sends an outer index to the inner index of the
    same object; [compose_mapping_reversed] sends an inner index to the
    outer object it stands for. *)
Definition compose_mapping (idx_ref : gmap nat loc) (ref_idx : gmap loc nat)
    : gmap nat nat :=
  omap (λ l, ref_idx !! l) idx_ref.

Definition compose_mapping_reversed (ref_idx : gmap loc nat) (idx_idx : gmap nat nat)
    : gmap nat loc :=
  list_to_map (omap (λ entry, (λ j, (j, entry.1)) <$> idx_idx !! entry.2)
                    (map_to_list ref_idx)).

(** [m.a, m.b = m.b, m.a] on a node with exactly the fields [a] and [b]. *)
Definition swap_fields (m : PyVal) : M unit :=
  let* a := getitem m (KStr "a") in
  let* b := getitem m (KStr "b") in
  match m with
  | PyRef l => modify_heap (insert l (ONode "Foo" [(KStr "a", b); (KStr "b", a)]))
  | _ => raise (TypeError "not a node")
  end.

(** test_cached_unflatten_swap_variables: [m = Foo(a=Param(1), b=Param(2))]
    is flattened, rebuilt and swapped behind the boundary, flattened
    again, and unflattened outside against the cache of the original
    objects.  Returns [(m, a, b, m2, m2.a, m2.b)] and the raw values of
    [m2.a] and [m2.b]. *)
Definition cached_unflatten_swap
    : M (PyVal * PyVal * PyVal * (PyVal * PyVal * PyVal) * (PyVal * PyVal)) :=
  let* a := Param (PyInt 1) in
  let* b := Param (PyInt 2) in
  let* m := alloc (ONode "Foo" [(KStr "a", PyRef a); (KStr "b", PyRef b)]) in
  let* (graphdef, state, ref_out_idx_out) := graph.flatten 100 (PyRef m) ∅ in
  (* f_pure *)
  let* (m_in, idx_out_ref_in) := graph.unflatten graphdef state ∅ None in
  swap_fields m_in ;;
  let* (graphdef, state, ref_in_idx_in) := graph.flatten 100 m_in ∅ in
  let idx_out_idx_in := compose_mapping idx_out_ref_in ref_in_idx_in in
  (* back outside *)
  let idx_in_ref_out := compose_mapping_reversed ref_out_idx_out idx_out_idx_in in
  let* (m2, _) := graph.unflatten graphdef state ∅ (Some idx_in_ref_out) in
  let* m2a := getitem m2 (KStr "a") in
  let* m2b := getitem m2 (KStr "b") in
  let* va := match m2a with PyRef l => getattr l "raw_value" | _ => ret PyNone end in
  let* vb := match m2b with PyRef l => getattr l "raw_value" | _ => ret PyNone end in
  ret (PyRef m, PyRef a, PyRef b, (m2, m2a, m2b), (va, vb)).

(** A node that contains itself, [o.ref = o], split and merged; then
    unflattened against the cache of the original.  Returns
    [(o, o2, o2.ref, o3, o3.ref)]. *)
Definition self_reference : M (PyVal * PyVal * PyVal * PyVal * PyVal) :=
  let* o := alloc (ONode "Foo" [(KStr "ref", PyNone)]) in
  modify_heap (insert o (ONode "Foo" [(KStr "ref", PyRef o)])) ;;
  let* (graphdef, state, ref_index) := graph.flatten 100 (PyRef o) ∅ in
  let* (o2, _) := graph.unflatten graphdef state ∅ None in
  let* o2_ref := getitem o2 (KStr "ref") in
  let* (o3, _) := graph.unflatten graphdef state ∅ (Some (graph.invert ref_index)) in
  let* o3_ref := getitem o3 (KStr "ref") in
  ret (PyRef o, o2, o2_ref, o3, o3_ref).

(** [v = Param(1); g = [v, v]]: the world, and the list [g]. *)
Definition shared_world : World :=
  snd ((let* v := Param (PyInt 1) in new_list [PyRef v; PyRef v]) world0).

Definition shared_list : PyVal := PyRef 1.

(** The graph of test_unflatten_empty, split. *)
Definition nested_graph : M (graph.GraphDef * graph.State) :=
  let* p2 := Param (PyInt 2) in
  let* a := alloc (ONode "Dict" [(KStr "a", PyInt 1); (KStr "b", PyRef p2)]) in
  let* p4 := Param (PyInt 4) in
  let* g := new_list [PyRef a; PyInt 3; PyRef a; PyRef p4] in
  graph.split 100 (PyRef g).

Definition nested_graphdef : graph.GraphDef :=
  Eval vm_compute in
    match fst (nested_graph world0) with
    | inr (graphdef, _) => graphdef
    | inl _ => graph.Leaf PyNone
    end.

Definition nested_world : World := snd (nested_graph world0).

(** test_cached_unflatten_swap_variables up to the last call: the
    GraphDef and State that come back through the boundary, and the
    cache of the original objects. *)
Definition swap_boundary : M (graph.GraphDef * graph.State * gmap nat loc) :=
  let* a := Param (PyInt 1) in
  let* b := Param (PyInt 2) in
  let* m := alloc (ONode "Foo" [(KStr "a", PyRef a); (KStr "b", PyRef b)]) in
  let* (graphdef, state, ref_out_idx_out) := graph.flatten 100 (PyRef m) ∅ in
  let* (m_in, idx_out_ref_in) := graph.unflatten graphdef state ∅ None in
  swap_fields m_in ;;
  let* (graphdef, state, ref_in_idx_in) := graph.flatten 100 m_in ∅ in
  let idx_out_idx_in := compose_mapping idx_out_ref_in ref_in_idx_in in
  let idx_in_ref_out := compose_mapping_reversed ref_out_idx_out idx_out_idx_in in
  ret (graphdef, state, idx_in_ref_out).

Definition swap_children : list (Key * graph.GraphDef) :=
  Eval vm_compute in
    match fst (swap_boundary world0) with
    | inr (graph.NodeDef _ _ children, _, _) => children
    | _ => []
    end.

Definition swap_state : graph.State :=
  match fst (swap_boundary world0) with
  | inr (_, state, _) => state
  | inl _ => []
  end.

Definition swap_cache : gmap nat loc :=
  match fst (swap_boundary world0) with
  | inr (_, _, cache) => cache
  | inl _ => ∅
  end.

Definition swap_world : World := snd (swap_boundary world0).

(** A State for the same GraphDef with other contents: the values [7]
    and [9], and an attribute [k] for the first Variable. *)
Definition swap_new_state : graph.State :=
  [([KStr "a"], MkState TParam (PyInt 7) (<["k" := PyInt 1]> ∅));
   ([KStr "b"], MkState TParam (PyInt 9) ∅)].

Import graph.

(** Computations that leave the world as it is. *)
Definition readonly {A} (c : M A) : Prop := ∀ w, (c w).2 = w.

(** Each new State entry is the snapshot of a Variable that was not in
    the RefMap before and is afterwards; no Variable gives two entries;
    and everything that entered the RefMap without giving an entry is a
    node. *)
Definition entries_ok (w : World) (rm rm' : gmap loc nat)
    (entries : list (loc * (Path * VariableState))) : Prop :=
  NoDup entries.*1 ∧
  (∀ e, e ∈ entries →
     rm !! e.1 = None ∧ is_Some (rm' !! e.1) ∧
     (∃ v, heap w !! e.1 = Some (OVariable v)) ∧
     to_state e.1 w = (inr e.2.2, w)) ∧
  (∀ l v, heap w !! l = Some (OVariable v) → rm !! l = None → is_Some (rm' !! l) →
     l ∈ entries.*1).

(** Induction over a GraphDef and the children of its nodes. *)
Section GraphDef_induction.
Variable P : GraphDef → Prop.
Hypothesis P_NodeDef : ∀ type index children,
  Forall (λ kc, P kc.2) children → P (NodeDef type index children).
Hypothesis P_NodeRef : ∀ index, P (NodeRef index).
Hypothesis P_Leaf : ∀ x, P (Leaf x).
Hypothesis P_VariableSlot : ∀ index, P (VariableSlot index).

Fixpoint GraphDef_induction (g : GraphDef) : P g :=
  match g with
  | NodeDef type index children =>
      P_NodeDef type index children
        ((fix go (cs : list (Key * GraphDef)) : Forall (λ kc, P kc.2) cs :=
            match cs with
            | [] => List.Forall_nil _
            | (k, c) :: rest =>
                List.Forall_cons _ (k, c) rest (GraphDef_induction c) (go rest)
            end) children)
  | NodeRef index => P_NodeRef index
  | Leaf x => P_Leaf x
  | VariableSlot index => P_VariableSlot index
  end.
End GraphDef_induction.

(** The State has an entry at each of the paths, or lacks one. *)
Definition present (state : State) (ps : list Path) : Prop :=
  Forall (λ p, is_Some (lookup_state p state)) ps.

Definition missing (state : State) (ps : list Path) : Prop :=
  Exists (λ p, lookup_state p state = None) ps.

(** What [unflatten_rec] does, without a cache, when every NodeRef
    resolves: it succeeds if the State has every expected path and raises
    StructureMismatch otherwise. *)
Definition unflatten_expected (state : State) (g : GraphDef) : Prop :=
  ∀ path index_ref w ps seen,
    expected_paths g path (dom index_ref) = Some (ps, seen) →
    (present state ps → ∃ v index_ref' w',
        unflatten_rec g path state None index_ref w = (inr (v, index_ref'), w') ∧
        dom index_ref' = seen) ∧
    (missing state ps → ∃ p w',
        unflatten_rec g path state None index_ref w = (inl (StructureMismatch p), w')).

(** ** [unflatten] against a cache *)

(** Every occurrence of a VariableSlot in a GraphDef, with its path and
    its index, in traversal order. *)
Fixpoint slots (graphdef : GraphDef) (path : Path) : list (Path * nat) :=
  match graphdef with
  | NodeDef _ _ children =>
      (fix go (children : list (Key * GraphDef)) : list (Path * nat) :=
         match children with
         | [] => []
         | (key, child) :: rest => slots child (path ++ [key]) ++ go rest
         end) children
  | VariableSlot index => [(path, index)]
  | NodeRef _ | Leaf _ => []
  end.

Definition slots_children (path : Path) : list (Key * GraphDef) → list (Path * nat) :=
  fix go (children : list (Key * GraphDef)) : list (Path * nat) :=
    match children with
    | [] => []
    | (key, child) :: rest => slots child (path ++ [key]) ++ go rest
    end.

(** Every NodeDef of a GraphDef, with its index, its type tag and its
    children, in traversal order. *)
Fixpoint node_defs (graphdef : GraphDef)
    : list (nat * string * list (Key * GraphDef)) :=
  match graphdef with
  | NodeDef type index children =>
      (index, type, children) ::
      (fix go (children : list (Key * GraphDef))
         : list (nat * string * list (Key * GraphDef)) :=
         match children with
         | [] => []
         | (_, child) :: rest => node_defs child ++ go rest
         end) children
  | NodeRef _ | Leaf _ | VariableSlot _ => []
  end.

Definition node_defs_children
    : list (Key * GraphDef) → list (nat * string * list (Key * GraphDef)) :=
  fix go (children : list (Key * GraphDef))
    : list (nat * string * list (Key * GraphDef)) :=
    match children with
    | [] => []
    | (_, child) :: rest => node_defs child ++ go rest
    end.

(** The indices of the NodeDefs, and of the VariableSlots. *)
Definition node_indices (graphdef : GraphDef) : list nat :=
  (node_defs graphdef).*1.*1.

Definition slot_indices (graphdef : GraphDef) : list nat :=
  (slots graphdef []).*2.

(** The data-model invariant of identity indices: an index stands for
    one object, so no two NodeDefs carry the same index, and no
    VariableSlot carries the index of a node. *)
Definition distinct_indices (graphdef : GraphDef) : bool :=
  bool_decide (NoDup (node_indices graphdef)) &&
  forallb (λ index, bool_decide (index ∉ (slot_indices graphdef)))
          (node_indices graphdef).

(** A cache that holds an object under one index only. *)
Definition cache_injective (cache : gmap nat loc) : bool :=
  bool_decide (NoDup (map_to_list cache).*2).

(** The cache maps the index of a NodeDef to an existing node of the
    tagged type, and the index of a VariableSlot to an existing Variable
    (one that has a trace state). *)
Definition fits_node (w : World) (cache : gmap nat loc)
    (n : nat * string * list (Key * GraphDef)) : bool :=
  match cache !! n.1.1 with
  | Some l =>
      match heap w !! l with
      | Some (ONode type _) => bool_decide (type = n.1.2)
      | _ => false
      end
  | None => false
  end.

Definition fits_slot (w : World) (cache : gmap nat loc) (e : Path * nat) : bool :=
  match cache !! e.2 with
  | Some l =>
      match heap w !! l with
      | Some (OVariable v) => bool_decide (is_Some (var_vars v !! "_trace_state"))
      | _ => false
      end
  | None => false
  end.

Definition cache_fits (w : World) (cache : gmap nat loc) (graphdef : GraphDef) : bool :=
  forallb (fits_node w cache) (node_defs graphdef) &&
  forallb (fits_slot w cache) (slots graphdef []).

(** What a fitting cache makes of a GraphDef: a leaf is itself, and
    everything else is the object the cache holds for its index. *)
Definition cached_value (cache : gmap nat loc) (graphdef : GraphDef) : PyVal :=
  match graphdef with
  | Leaf x => x
  | NodeDef _ index _ | NodeRef index | VariableSlot index =>
      match cache !! index with
      | Some l => PyRef l
      | None => PyNone
      end
  end.

Definition cached_items (cache : gmap nat loc) (children : list (Key * GraphDef))
    : list (Key * PyVal) :=
  (λ kc, (kc.1, cached_value cache kc.2)) <$> children.

(** What [update_from_state] makes of a Variable. *)
Definition updated_from (v : VarObj) (ts : PyVal) (s : VariableState) : Obj :=
  OVariable (MkVar (var_type v)
    (<["_trace_state" := ts]> (<["raw_value" := vs_value s]> (vs_metadata s)))).

(** A VariableSlot that [unflatten_rec] can serve from the index map
    [ir], or else from a cache that fits it. *)
Definition slot_ready (w : World) (cache : gmap nat loc) (ir : gmap nat loc)
    (e : Path * nat) : Prop :=
  e.2 ∈ dom ir ∨ fits_slot w cache e = true.

(** What a run of [unflatten_rec] against a cache has done when it
    returns the index map [ir'] and the world [w'], started from [ir]
    and [w] on NodeDefs [nodes] and VariableSlots [slots]: the index map
    has grown by their indices and agrees with the cache, nothing was
    allocated, each Variable met for the first time was written from the
    State entry at that path, each node holds the cached objects of its
    children, and no other object was touched. *)
Record cached_run (state : State) (cache : gmap nat loc)
    (nodes : list (nat * string * list (Key * GraphDef)))
    (slots : list (Path * nat))
    (ir : gmap nat loc) (w : World) (seen : gset nat)
    (ir' : gmap nat loc) (w' : World) : Prop := {
  cr_grows : ir ⊆ ir';
  cr_cached : ir' ⊆ cache;
  cr_seen : dom ir' = seen;
  cr_dom : ∀ i, i ∈ dom ir' ↔ i ∈ dom ir ∨ i ∈ nodes.*1.*1 ∨ i ∈ slots.*2;
  cr_no_alloc : dom (heap w') = dom (heap w);
  cr_frame : ∀ l,
    (∀ i, cache !! i = Some l →
          i ∈ dom ir ∨ ((i ∉ nodes.*1.*1) ∧ (i ∉ slots.*2))) →
    heap w' !! l = heap w !! l;
  cr_variables : ∀ i k p,
    i ∉ dom ir → list_find (λ e, e.2 = i) slots = Some (k, (p, i)) →
    ∃ l v ts s,
      cache !! i = Some l ∧ heap w !! l = Some (OVariable v) ∧
      var_vars v !! "_trace_state" = Some ts ∧ lookup_state p state = Some s ∧
      heap w' !! l = Some (updated_from v ts s);
  cr_nodes : ∀ n, n ∈ nodes →
    ∃ l, cache !! n.1.1 = Some l ∧
         heap w' !! l = Some (ONode n.1.2 (cached_items cache n.2))
}.

(** What such a run starts from: an index map that agrees with the
    cache, NodeDefs with indices of their own that are new to the index
    map, and a cache that fits every index still to be served. *)
Definition cached_ready (cache : gmap nat loc)
    (nodes : list (nat * string * list (Key * GraphDef)))
    (slots : list (Path * nat)) (ir : gmap nat loc) (w : World) : Prop :=
  ir ⊆ cache ∧
  NoDup nodes.*1.*1 ∧
  Forall (λ i, (i ∉ dom ir) ∧ (i ∉ slots.*2)) nodes.*1.*1 ∧
  Forall (λ n, fits_node w cache n = true) nodes ∧
  Forall (slot_ready w cache ir) slots.

(** [unflatten_rec] against a cache, for a GraphDef whose NodeRefs
    resolve and a State that has the entries it asks for: it returns the
    cached object and has done what [cached_run] says. *)
Definition unflatten_cached (state : State) (cache : gmap nat loc) (g : GraphDef)
    : Prop :=
  ∀ path ir w ps seen,
    cached_ready cache (node_defs g) (slots g path) ir w →
    expected_paths g path (dom ir) = Some (ps, seen) →
    present state ps →
    ∃ ir' w',
      unflatten_rec g path state (Some cache) ir w =
        (inr (cached_value cache g, ir'), w') ∧
      cached_run state cache (node_defs g) (slots g path) ir w seen ir' w'.

(** ** [Variable.__init__] in full, [VariableMetadata], [with_metadata] *)

(** [@dataclasses.dataclass class VariableMetadata] *)
Record VariableMetadata := MkMetadata {
  vm_raw_value : PyVal;
  vm_set_value_hooks : list HookId;
  vm_get_value_hooks : list HookId;
  vm_create_value_hooks : list HookId;
  vm_add_axis_hooks : list HookId;
  vm_remove_axis_hooks : list HookId;
  vm_metadata : gmap string PyVal
}.

(** A hooks argument: a single callable, or a sequence of callables. *)
Inductive HooksArg :=
| Callable (hook : HookId)
| Sequence (hooks : list HookId).

(** [if callable(hooks): hooks = (hooks,) else: hooks = tuple(hooks)] *)
Definition hooks_tuple (hooks : HooksArg) : list HookId :=
  match hooks with
  | Callable hook => [hook]
  | Sequence hooks => hooks
  end.

(** [if value.x_hooks: x_hooks = x_hooks + value.x_hooks] *)
Definition add_value_hooks (hooks from_value : list HookId) : list HookId :=
  match from_value with
  | [] => hooks
  | _ :: _ => hooks ++ from_value
  end.

(** What a constructor argument brings along besides the value: the
    field of a [VariableMetadata], nothing for a plain value. *)
Definition from_value {A} (proj : VariableMetadata → A) (none : A)
    (value : PyVal + VariableMetadata) : A :=
  match value with
  | inr value => proj value
  | inl _ => none
  end.

Section Variable__init__.

Variable hook_sem : HookId → VarObj → PyVal → Exception + PyVal.

(** [vars(type(self))]: the [on_*] methods a Variable class declares in
    its own body.  The classes of variablelib.py declare none (the stubs
    of lines 400-414 exist under [TYPE_CHECKING] only). *)
Variable class_vars : VarType → string → option HookId.

(** [if 'on_x' in vars(type(self)):
       on_x = getattr(type(self), 'on_x')
       if on_x not in x_hooks: x_hooks = (on_x, *x_hooks)] *)
Definition with_class_hook (cls : VarType) (name : string) (hooks : list HookId)
    : list HookId :=
  match class_vars cls name with
  | Some on_hook => if bool_decide (on_hook ∈ hooks) then hooks else on_hook :: hooks
  | None => hooks
  end.

(** [cls(value, set_value_hooks=..., get_value_hooks=...,
    create_value_hooks=..., add_axis_hooks=..., remove_axis_hooks=...,
    **metadata)], the five hook keywords written out: [object.__new__]
    and [Variable.__init__], for a value or a [VariableMetadata].  A
    [metadata] entry named like a parameter ([Variable_params]) is a
    [TypeError] when the call is bound; nothing has run by then and the
    instance is not kept. *)
Definition Variable__init__ (cls : VarType) (value : PyVal + VariableMetadata)
    (set_value_hooks get_value_hooks create_value_hooks
     add_axis_hooks remove_axis_hooks : HooksArg)
    (metadata : gmap string PyVal) : M loc :=
  if keyword_clash Variable_params metadata
  then raise (TypeError "got multiple values for argument")
  else
  let* ts := TraceState_new in
  let* self := alloc (OVariable (MkVar cls (<["_trace_state" := ts]> ∅))) in
  let set_value_hooks := hooks_tuple set_value_hooks in
  let get_value_hooks := hooks_tuple get_value_hooks in
  let create_value_hooks := hooks_tuple create_value_hooks in
  let add_axis_hooks := hooks_tuple add_axis_hooks in
  let remove_axis_hooks := hooks_tuple remove_axis_hooks in
  let set_value_hooks :=
    match value with
    | inr value => add_value_hooks set_value_hooks (vm_set_value_hooks value)
    | inl _ => set_value_hooks
    end in
  let get_value_hooks :=
    match value with
    | inr value => add_value_hooks get_value_hooks (vm_get_value_hooks value)
    | inl _ => get_value_hooks
    end in
  let create_value_hooks :=
    match value with
    | inr value => add_value_hooks create_value_hooks (vm_create_value_hooks value)
    | inl _ => create_value_hooks
    end in
  let add_axis_hooks :=
    match value with
    | inr value => add_value_hooks add_axis_hooks (vm_add_axis_hooks value)
    | inl _ => add_axis_hooks
    end in
  let remove_axis_hooks :=
    match value with
    | inr value => add_value_hooks remove_axis_hooks (vm_remove_axis_hooks value)
    | inl _ => remove_axis_hooks
    end in
  let metadata :=
    match value with
    | inr value => dict_update metadata (vm_metadata value)
    | inl _ => metadata
    end in
  let value :=
    match value with
    | inr value => vm_raw_value value
    | inl value => value
    end in
  _setattr hook_sem self "raw_value" value ;;
  let get_value_hooks := with_class_hook cls "on_get_value" get_value_hooks in
  let set_value_hooks := with_class_hook cls "on_set_value" set_value_hooks in
  let create_value_hooks := with_class_hook cls "on_create_value" create_value_hooks in
  let add_axis_hooks := with_class_hook cls "on_add_axis" add_axis_hooks in
  let remove_axis_hooks := with_class_hook cls "on_remove_axis" remove_axis_hooks in
  _setattr hook_sem self "get_value_hooks" (PyHooks get_value_hooks) ;;
  _setattr hook_sem self "set_value_hooks" (PyHooks set_value_hooks) ;;
  _setattr hook_sem self "create_value_hooks" (PyHooks create_value_hooks) ;;
  _setattr hook_sem self "add_axis_hooks" (PyHooks add_axis_hooks) ;;
  _setattr hook_sem self "remove_axis_hooks" (PyHooks remove_axis_hooks) ;;
  let* s := get_variable self in
  set_vars self (dict_update (var_vars s) metadata) ;;
  (* run create_value hooks *)
  let* raw := getattr self "raw_value" in
  let* raw := create_value hook_sem self raw in
  _setattr hook_sem self "raw_value" raw ;;
  ret self.

(** The names bound by the classmethod [state(cls, value, **metadata)]. *)
Definition state_params : list string := ["cls"; "value"].

(** [Variable.state], a classmethod: [cls(value, **metadata).to_state()].
    The hook keywords are part of its [**metadata] and reach the
    constructor through it; they are written out here as they are for
    the constructor. *)
Definition Variable_state (cls : VarType) (value : PyVal + VariableMetadata)
    (set_value_hooks get_value_hooks create_value_hooks
     add_axis_hooks remove_axis_hooks : HooksArg)
    (metadata : gmap string PyVal) : M VariableState :=
  if keyword_clash state_params metadata
  then raise (TypeError "got multiple values for argument")
  else
  let* v := Variable__init__ cls value set_value_hooks get_value_hooks
              create_value_hooks add_axis_hooks remove_axis_hooks metadata in
  to_state v.

End Variable__init__.

(** The truth value of a hooks argument: a callable is true, a sequence
    is true unless it is empty. *)
Definition truthy (hooks : HooksArg) : bool :=
  match hooks with
  | Callable _ => true
  | Sequence hooks => negb (bool_decide (hooks = []))
  end.

(** The names bound by [with_metadata(initializer, set_value_hooks=(),
    get_value_hooks=(), create_value_hooks=(), add_axis_hooks=(),
    remove_axis_hooks=(), **metadata)]. *)
Definition with_metadata_params : list string :=
  ["initializer"; "set_value_hooks"; "get_value_hooks"; "create_value_hooks";
   "add_axis_hooks"; "remove_axis_hooks"].

(** [with_metadata(initializer, set_value_hooks=..., ..., **metadata)]
    and the call of what it returns:
    the call that makes the wrapper, the five hook keywords written out,
    and the wrapper applied to [args].  A [metadata] entry named like a
    parameter is a [TypeError] when [with_metadata] is bound, before the
    initializer runs. *)
Definition with_metadata {Args : Type} (initializer : Args → M PyVal)
    (set_value_hooks get_value_hooks create_value_hooks
     add_axis_hooks remove_axis_hooks : HooksArg)
    (metadata : gmap string PyVal) : Args → M VariableMetadata :=
  if keyword_clash with_metadata_params metadata
  then λ _, raise (TypeError "got multiple values for argument")
  else
  let set_value_hooks :=
    if truthy set_value_hooks then hooks_tuple set_value_hooks else [] in
  let get_value_hooks :=
    if truthy get_value_hooks then hooks_tuple get_value_hooks else [] in
  let create_value_hooks :=
    if truthy create_value_hooks then hooks_tuple create_value_hooks else [] in
  let add_axis_hooks :=
    if truthy add_axis_hooks then hooks_tuple add_axis_hooks else [] in
  let remove_axis_hooks :=
    if truthy remove_axis_hooks then hooks_tuple remove_axis_hooks else [] in
  λ args,
    let* raw := initializer args in
    ret (MkMetadata raw set_value_hooks get_value_hooks create_value_hooks
           add_axis_hooks remove_axis_hooks metadata).

(** The names bound by [with_partitioning(initializer, sharding,
    mesh=None, **metadata)]. *)
Definition with_partitioning_params : list string :=
  ["initializer"; "sharding"; "mesh"].

(** [flax/nnx/spmd.py], [with_partitioning(initializer, sharding, mesh, **metadata)]
    and the call of what it returns:
    [with_metadata(initializer, sharding=sharding, mesh=mesh, **metadata)].
    The hook keywords are part of its [**metadata] and bind to the
    parameters of [with_metadata]; they are written out here.  A
    [metadata] entry named like a parameter of [with_partitioning] is a
    [TypeError] when it is bound, so the remaining [metadata] holds
    neither [sharding] nor [mesh]. *)
Definition with_partitioning {Args : Type} (initializer : Args → M PyVal)
    (sharding mesh : PyVal)
    (set_value_hooks get_value_hooks create_value_hooks
     add_axis_hooks remove_axis_hooks : HooksArg)
    (metadata : gmap string PyVal) : Args → M VariableMetadata :=
  if keyword_clash with_partitioning_params metadata
  then λ _, raise (TypeError "got multiple values for argument")
  else
  with_metadata initializer set_value_hooks get_value_hooks create_value_hooks
    add_axis_hooks remove_axis_hooks
    (<["sharding" := sharding]> (<["mesh" := mesh]> metadata)).

(** The attribute names [Variable.__init__] fills by itself. *)
Definition init_names : list string :=
  ["_trace_state"; "raw_value"; "get_value_hooks"; "set_value_hooks";
   "create_value_hooks"; "add_axis_hooks"; "remove_axis_hooks"].

(** [vars(self)] at the end of [__init__], before the create hooks run. *)
Definition init_vars (ts raw : PyVal)
    (get_value_hooks set_value_hooks create_value_hooks
     add_axis_hooks remove_axis_hooks : list HookId)
    (metadata : gmap string PyVal) : gmap string PyVal :=
  dict_update
    (<["remove_axis_hooks" := PyHooks remove_axis_hooks]>
    (<["add_axis_hooks" := PyHooks add_axis_hooks]>
    (<["create_value_hooks" := PyHooks create_value_hooks]>
    (<["set_value_hooks" := PyHooks set_value_hooks]>
    (<["get_value_hooks" := PyHooks get_value_hooks]>
    (<["raw_value" := raw]>
    (<["_trace_state" := ts]> ∅)))))))
    metadata.

(** ** Pickle support *)

(** [object.__new__(cls)] for a Variable class: an instance whose
    [vars] are still empty. *)
Definition object_new (cls : VarType) : M loc :=
  alloc (OVariable (MkVar cls ∅)).

(** [Variable.__getstate__] *)
Definition __getstate__ (self : loc) : M (gmap string PyVal) :=
  let* v := get_variable self in
  ret (var_vars v).

(** [Variable.__setstate__] *)
Definition __setstate__ (self : loc) (state : gmap string PyVal) : M unit :=
  let* v := get_variable self in
  set_vars self (dict_update (var_vars v) state).

(** ** [VariableState] as a pytree *)

(** A child handed to [jax.tree_util]: with its key, or bare. *)
Inductive TreeChild :=
| Keyed (name : string) (x : PyVal)     (* [(jtu.GetAttrKey(name), x)] *)
| Unkeyed (x : PyVal).

(** [dict(items)]: later items win. *)
Definition py_dict (items : list (string * PyVal)) : gmap string PyVal :=
  foldl (λ d item, <[item.1 := item.2]> d) ∅ items.

(** [_variable_state_flatten(x, with_keys=...)].  The metadata items
    are listed in the order of the map; the code lists them in the order
    in which they were inserted, which [vs_metadata] does not record. *)
Definition _variable_state_flatten (x : VariableState) (with_keys : bool)
    : list TreeChild * (VarType * list (string * PyVal)) :=
  let metadata := map_to_list (VariableState_get_metadata x) in
  let node := if with_keys then Keyed "value" (vs_value x)
              else Unkeyed (vs_value x) in
  ([node], (vs_type x, metadata)).

(** [_variable_state_unflatten(static, children)], for the non-empty
    [children] its signature asks for ([tuple[A]]): [children[0]] is the
    first component. *)
Definition _variable_state_unflatten (static : VarType * list (string * PyVal))
    (children : PyVal * list PyVal) : M VariableState :=
  VariableState_init static.1 children.1 (py_dict static.2).

(** ** [split_flat_state] *)

Section split_flat_state.

(** Paths and the values at them ([Variable | VariableState]). *)
Context {P V : Type}.

(** [for i, predicate in enumerate(predicates):
       if predicate(path, value): ...; break
     else: ...]: the index of the first predicate that accepts, counted
    from [i], or [None] when the loop runs into its [else]. *)
Fixpoint first_match (predicates : list (P → V → bool)) (i : nat)
    (path : P) (value : V) : option nat :=
  match predicates with
  | [] => None
  | predicate :: rest =>
      if predicate path value then Some i
      else first_match rest (S i) path value
  end.

(** [for path, value in flat_state: ...], filling [flat_states]. *)
Fixpoint split_loop (predicates : list (P → V → bool))
    (flat_state : list (P * V)) (flat_states : list (list (P * V)))
    : Exception + list (list (P * V)) :=
  match flat_state with
  | [] => inr flat_states
  | (path, value) :: rest =>
      match first_match predicates 0 path value with
      | Some i =>
          (* flat_states[i].append((path, value)) *)
          split_loop predicates rest
            (alter (λ l, l ++ [(path, value)]) i flat_states)
      | None =>
          inl (ValueError "Non-exhaustive filters, got a non-empty remainder")
      end
  end.

(** [split_flat_state(flat_state, filters)], given the predicates
    [filterlib.filters_to_predicates(filters)] (filterlib is not among
    the sources; its predicates are functions of path and value). *)
Definition split_flat_state (flat_state : list (P * V))
    (predicates : list (P → V → bool)) : Exception + list (list (P * V)) :=
  let flat_states := replicate (length predicates) [] in
  split_loop predicates flat_state flat_states.

(** Predicate [i] is the first one that accepts the entry. *)
Definition first_accepting (predicates : list (P → V → bool)) (i : nat)
    (entry : P * V) : Prop :=
  ∃ predicate, predicates !! i = Some predicate ∧
    predicate entry.1 entry.2 = true ∧
    ∀ j earlier, j < i → predicates !! j = Some earlier →
      earlier entry.1 entry.2 = false.

End split_flat_state.

(** ** Programs over the Variable API *)

(** One call of the API of variablelib.py, its result dropped. *)
Inductive Call :=
| CallInit (cls : VarType) (value : PyVal + VariableMetadata)
    (set_value_hooks get_value_hooks create_value_hooks
     add_axis_hooks remove_axis_hooks : HooksArg) (metadata : gmap string PyVal)
| CallSetattr (self : loc) (name : string) (val : PyVal)
| CallValue (self : loc)
| CallSetValue (self : loc) (val : PyVal)
| CallCreateValue (self : loc) (val : PyVal)
| CallGetMetadata (self : loc)
| CallCopyFrom (self other : loc)
| CallUpdateFromState (self : loc) (variable_state : VariableState)
| CallReplace (depth : nat) (self : loc) (val : option PyVal) (kwargs : gmap string PyVal)
| CallFromMetadata (cls : VarType) (val : PyVal) (attributes : gmap string PyVal)
| CallCopy (self : loc)
| CallToState (self : loc)
| CallState (cls : VarType) (value : PyVal + VariableMetadata)
    (set_value_hooks get_value_hooks create_value_hooks
     add_axis_hooks remove_axis_hooks : HooksArg) (metadata : gmap string PyVal)
| CallToVariable (variable_state : VariableState)
| CallGetstate (self : loc).

Section programs.

Variable hook_sem : HookId → VarObj → PyVal → Exception + PyVal.
Variable class_vars : VarType → string → option HookId.

Definition discard {A} (c : M A) : M unit := let* _ := c in ret tt.

Definition run_call (c : Call) : M unit :=
  match c with
  | CallInit cls value s g c a r metadata =>
      discard (Variable__init__ hook_sem class_vars cls value s g c a r metadata)
  | CallSetattr self name val => __setattr__ hook_sem self name val
  | CallValue self => discard (value hook_sem self)
  | CallSetValue self val => __setattr__ hook_sem self "value" val
  | CallCreateValue self val => discard (create_value hook_sem self val)
  | CallGetMetadata self => discard (get_metadata self)
  | CallCopyFrom self other => copy_from self other
  | CallUpdateFromState self variable_state => update_from_state self variable_state
  | CallReplace depth self val kwargs => discard (replace depth self val kwargs)
  | CallFromMetadata cls val attributes => discard (from_metadata cls val attributes)
  | CallCopy self => discard (copy self)
  | CallToState self => discard (to_state self)
  | CallState cls value s g c a r metadata =>
      discard (Variable_state hook_sem class_vars cls value s g c a r metadata)
  | CallToVariable variable_state => discard (to_variable variable_state)
  | CallGetstate self => discard (__getstate__ self)
  end.

(** A program: the calls one after the other, each in a [try] that
    swallows what it raises. *)
Definition run_calls (calls : list Call) (w : World) : World :=
  foldl (λ w c, (run_call c w).2) w calls.

End programs.

(** A Variable with its [raw_value] and its [_trace_state]; a heap all
    of whose Variables have both. *)
Definition complete_var (v : VarObj) : Prop :=
  is_Some (var_vars v !! "raw_value") ∧ is_Some (var_vars v !! "_trace_state").

Definition complete (w : World) : Prop :=
  ∀ l v, heap w !! l = Some (OVariable v) → complete_var v.

(** What one call may do to the world: nothing; create one Variable at
    a new address; or update one Variable in place, keeping its type,
    and keeping its trace state unless that trace state is the current
    one. *)
Inductive effect (w w' : World) : Prop :=
| unchanged :
    w' = w → effect w w'
| created l v' :
    l ∉ dom (heap w) →
    w' = set_heap (insert l (OVariable v')) w →
    (complete w → complete_var v') →
    effect w w'
| updated l v v' :
    heap w !! l = Some (OVariable v) →
    w' = set_heap (insert l (OVariable v')) w →
    var_type v' = var_type v →
    var_vars v' !! "_trace_state" = var_vars v !! "_trace_state" ∨
      var_vars v !! "_trace_state" = Some (PyTraceState (current_trace w)) →
    (complete w → complete_var v') →
    effect w w'.


(** * flax/nnx/spmd.py: axes of sharded snapshots *)

Module spmd.

(** What the functions of spmd.py raise: the errors of their own, and
    what the code of variablelib.py raises underneath. *)
Inductive Error :=
| AxisNameMissingError (sharding : PyVal)   (* errors.AxisNameMissingError *)
| AssertionError
| IndexError (msg : string)
| Raised (e : Exception).

(** Computations over the world that may raise one of these. *)
Definition Spmd (A : Type) : Type := World → (Error + A) * World.

Definition Sret {A} (a : A) : Spmd A := λ w, (inr a, w).
Definition Sraise {A} (e : Error) : Spmd A := λ w, (inl e, w).
Definition Sbind {A B} (c : Spmd A) (k : A → Spmd B) : Spmd B :=
  λ w, match c w with
       | (inl e, w') => (inl e, w')
       | (inr a, w') => k a w'
       end.

(** A computation of variablelib.py, run here. *)
Definition run {A} (c : M A) : Spmd A :=
  λ w, match c w with
       | (inl e, w') => (inl (Raised e), w')
       | (inr a, w') => (inr a, w')
       end.

Declare Scope spmd_scope.
Delimit Scope spmd_scope with spmd.
Notation "'let*' x ':=' c 'in' k" := (Sbind c (λ x, k))
  (at level 10, x pattern, c at level 100, k at level 200) : spmd_scope.
Notation "c ';;' k" := (Sbind c (λ _, k))
  (at level 100, k at level 200, right associativity) : spmd_scope.

(** ** Python sequences *)

(** [l.insert(index, x)]: a negative index counts from the end, an index
    out of range is clipped. *)
Definition list_insert {A} (index : Z) (x : A) (l : list A) : list A :=
  let n := Z.of_nat (length l) in
  let i := if (index <? 0)%Z then (index + n)%Z else index in
  let i := if (i <? 0)%Z then 0%Z else if (n <? i)%Z then n else i in
  take (Z.to_nat i) l ++ x :: drop (Z.to_nat i) l.

(** [l.pop(index)]: the element and the rest; [None] stands for its
    [IndexError]. *)
Definition list_pop {A} (index : Z) (l : list A) : option (A * list A) :=
  let n := Z.of_nat (length l) in
  let i := if (index <? 0)%Z then (index + n)%Z else index in
  if ((i <? 0) || (n <=? i))%Z then None
  else match l !! Z.to_nat i with
       | Some x => Some (x, delete (Z.to_nat i) l)
       | None => None
       end.

(** The message of the [IndexError] of [l.pop(index)]. *)
Definition pop_error {A} (l : list A) : string :=
  match l with
  | [] => "pop from empty list"
  | _ :: _ => "pop index out of range"
  end.

(** [while len(sharding) < index: sharding.append(None)] *)
Definition pad (index : Z) (sharding : list PyVal) : list PyVal :=
  Nat.iter (Z.to_nat (index - Z.of_nat (length sharding)))
    (λ sharding, sharding ++ [PyNone]) sharding.

(** The characters of a string, each a string. *)
Fixpoint characters (s : string) : list PyVal :=
  match s with
  | EmptyString => []
  | String c rest => PyStr (String c EmptyString) :: characters rest
  end.

Definition key_value (key : Key) : PyVal :=
  match key with
  | KStr s => PyStr s
  | KInt i => PyInt (Z.of_nat i)
  end.

(** [tuple(items)]: a new tuple object. *)
Definition new_tuple (items : list PyVal) : M PyVal :=
  let* l := alloc (ONode "tuple" (imap (λ i x, (KInt i, x)) items)) in
  ret (PyRef l).

(** [PARTITION_NAME] *)
Definition PARTITION_NAME : string := "partition_name".

(** [_get_partition_name(params)] *)
Definition _get_partition_name (params : gmap string PyVal) : PyVal :=
  match params !! PARTITION_NAME with
  | None => PyNone
  | Some name => name
  end.

(** [x.name] on a VariableState, for a name other than [type] and
    [value]: the metadata entry, or [None] when [hasattr(x, name)] is
    false. *)
Definition state_attr (s : VariableState) (name : string) : option PyVal :=
  vs_metadata s !! name.

(** [x.name = val] on a VariableState, for such a name. *)
Definition state_setattr (self : loc) (name : string) (val : PyVal) : M unit :=
  let* w := get_world in
  match heap w !! self with
  | Some (OVariableState s) =>
      modify_heap (insert self (OVariableState
        (MkState (vs_type s) (vs_value s) (<[name := val]> (vs_metadata s)))))
  | _ => raise (TypeError "not a VariableState")
  end.

Section axes.

Variable hook_sem : HookId → VarObj → PyVal → Exception + PyVal.

(** What calling an axis hook does: [hook(self, axis_index, axis_name)]
    may change the world and raise; what it returns is dropped. *)
Variable axis_hook_sem : HookId → loc → Z → PyVal → Spmd unit.

(** [list(x)] for the iterables among the values: a tuple or a list
    object gives its items, a dict its keys, a str its characters, a
    Variable what its value gives ([Variable.__iter__]); [depth] is the
    recursion limit.  (A tuple of hooks is iterable as well, but a
    single hook is not a value of this universe; sharding
    specifications hold axis names.) *)
Fixpoint py_list (depth : nat) (x : PyVal) : M (list PyVal) :=
  match depth with
  | 0 => raise RecursionError
  | S depth =>
      let* w := get_world in
      match x with
      | PyStr s => ret (characters s)
      | PyRef l =>
          match heap w !! l with
          | Some (ONode tag children) =>
              if bool_decide (tag = "tuple" ∨ tag = "list")
              then ret (children.*2)
              else if bool_decide (tag = "dict")
              then ret (key_value <$> children.*1)
              else raise (TypeError "object is not iterable")
          | Some (OVariable _) =>
              let* val := value hook_sem l in
              py_list depth val
          | _ => raise (TypeError "object is not iterable")
          end
      | _ => raise (TypeError "object is not iterable")
      end
  end.

Local Open Scope spmd_scope.

(** [for hook in hooks: hook(self, axis_index, axis_name)] *)
Fixpoint run_axis_hooks (hooks : list HookId) (self : loc)
    (axis_index : Z) (axis_name : PyVal) : Spmd unit :=
  match hooks with
  | [] => Sret tt
  | hook :: rest =>
      axis_hook_sem hook self axis_index axis_name ;;
      run_axis_hooks rest self axis_index axis_name
  end.

(** The hooks of a VariableState held at [self]: [self.add_axis_hooks],
    [self.remove_axis_hooks]. *)
Definition state_hooks (self : loc) (name : string) : Spmd (list HookId) :=
  run (let* w := get_world in
       match heap w !! self with
       | Some (OVariableState s) =>
           match state_attr s name with
           | Some hooks => as_hooks hooks
           | None => raise (AttributeError name)
           end
       | _ => raise (TypeError "not a VariableState")
       end)%py.

(** [VariableState.add_axis] *)
Definition VariableState_add_axis (self : loc) (axis_index : Z) (axis_name : PyVal)
    : Spmd unit :=
  let* hooks := state_hooks self "add_axis_hooks" in
  run_axis_hooks hooks self axis_index axis_name.

(** [VariableState.remove_axis] *)
Definition VariableState_remove_axis (self : loc) (axis_index : Z) (axis_name : PyVal)
    : Spmd unit :=
  let* hooks := state_hooks self "remove_axis_hooks" in
  run_axis_hooks hooks self axis_index axis_name.



(** The leaf function [_add_axis] of [add_axis]. *)
Definition _add_axis (depth : nat) (axis_name : PyVal) (index : Z) (x : PyVal)
    : Spmd PyVal :=
  let* w := run get_world in
  match x with
  | PyRef l =>
      match heap w !! l with
      | Some (OVariableState s) =>
          match state_attr s "sharding" with
          | Some sharding =>
              if bool_decide (sharding = PyNone) then Sret tt
              else if bool_decide (axis_name = PyNone)
              then Sraise (AxisNameMissingError sharding)
              else
                let* sharding := run (py_list depth sharding) in
                let sharding := pad index sharding in
                let sharding := list_insert index axis_name sharding in
                let* sharding := run (new_tuple sharding) in
                run (state_setattr l "sharding" sharding)
          | None => Sret tt
          end ;;
          VariableState_add_axis l index axis_name ;;
          Sret x
      | _ => Sret x
      end
  | _ => Sret x
  end.

(** The leaf function [_remove_axis] of [remove_axis]. *)
Definition _remove_axis (depth : nat) (axis_name : PyVal) (index : Z) (x : PyVal)
    : Spmd PyVal :=
  let* w := run get_world in
  match x with
  | PyRef l =>
      match heap w !! l with
      | Some (OVariableState s) =>
          match state_attr s "sharding" with
          | Some sharding =>
              if bool_decide (sharding = PyNone) then Sret tt
              else if bool_decide (axis_name = PyNone)
              then Sraise (AxisNameMissingError sharding)
              else
                let* sharding := run (py_list depth sharding) in
                match list_pop index sharding with
                | None => Sraise (IndexError (pop_error sharding))
                | Some (name, sharding) =>
                    (* assert sharding.pop(index) == axis_name *)
                    if bool_decide (name = axis_name)
                    then
                      let* sharding := run (new_tuple sharding) in
                      run (state_setattr l "sharding" sharding)
                    else Sraise AssertionError
                end
          | None => Sret tt
          end ;;
          VariableState_remove_axis l index axis_name ;;
          Sret x
      | _ => Sret x
      end
  | _ => Sret x
  end.

(** [jax.tree.map(f, tree, is_leaf=...)], the tree given by its leaves
    in traversal order: [f] is applied to one leaf after the other. *)
Fixpoint tree_map (f : PyVal → Spmd PyVal) (tree : list PyVal) : Spmd (list PyVal) :=
  match tree with
  | [] => Sret []
  | x :: rest =>
      let* y := f x in
      let* ys := tree_map f rest in
      Sret (y :: ys)
  end.

(** [add_axis(tree, index, params)] *)
Definition add_axis (depth : nat) (tree : list PyVal) (index : Z)
    (params : gmap string PyVal) : Spmd (list PyVal) :=
  let axis_name := _get_partition_name params in
  tree_map (_add_axis depth axis_name index) tree.

(** [remove_axis(tree, index, params)] *)
Definition remove_axis (depth : nat) (tree : list PyVal) (index : Z)
    (params : gmap string PyVal) : Spmd (list PyVal) :=
  let axis_name := _get_partition_name params in
  tree_map (_remove_axis depth axis_name index) tree.

End axes.

(** The items of the tuple or list object a value refers to. *)
Definition items_of (w : World) (x : PyVal) : option (list PyVal) :=
  match x with
  | PyRef l =>
      match heap w !! l with
      | Some (ONode tag children) =>
          if bool_decide (tag = "tuple" ∨ tag = "list") then Some (children.*2)
          else None
      | _ => None
      end
  | _ => None
  end.

(** The sharding of the VariableState a leaf refers to. *)
Definition sharding_of (w : World) (x : PyVal) : option (list PyVal) :=
  match x with
  | PyRef l =>
      match heap w !! l with
      | Some (OVariableState s) =>
          match state_attr s "sharding" with
          | Some sharding => items_of w sharding
          | None => None
          end
      | _ => None
      end
  | _ => None
  end.

End spmd.

(** The world after the sharding of the VariableState at [l] has been
    replaced by a new tuple of [items]. *)
Definition resharded (w : World) (l : loc) (s : VariableState)
    (items : list PyVal) : World :=
  let t := fresh (dom (heap w)) in
  set_heap (insert l (OVariableState
     (MkState (vs_type s) (vs_value s) (<["sharding" := PyRef t]> (vs_metadata s)))))
    (set_heap (insert t (ONode "tuple" (imap (λ i x, (KInt i, x)) items))) w).

(** The value refers to a VariableState: [isinstance(x, VariableState)]. *)
Definition is_VariableState (w : World) (x : PyVal) : bool :=
  match x with
  | PyRef l => match heap w !! l with Some (OVariableState _) => true | _ => false end
  | _ => false
  end.

(** ** Scenarios for the code above *)

(** [class Doubled(Variable)] declares [on_create_value], hook [1] of
    [sample_hooks]; no other class declares a hook method. *)
Definition TDoubled : VarType := TCustom "Doubled".

Definition doubled_class (cls : VarType) (name : string) : option HookId :=
  if bool_decide (cls = TDoubled ∧ name = "on_create_value") then Some 1 else None.

Definition no_class_hooks : VarType → string → option HookId := λ _ _, None.

(** [Doubled(3, create_value_hooks=h0)] *)
Definition doubled_variable : M loc :=
  Variable__init__ sample_hooks doubled_class TDoubled (inl (PyInt 3))
    (Sequence []) (Sequence []) (Callable 0) (Sequence []) (Sequence []) ∅.

(** [Doubled.state(3, create_value_hooks=h0)] *)
Definition doubled_state : M VariableState :=
  Variable_state sample_hooks doubled_class TDoubled (inl (PyInt 3))
    (Sequence []) (Sequence []) (Callable 0) (Sequence []) (Sequence []) ∅.

(** [lambda: 0], an initializer. *)
Definition zeros (_ : unit) : M PyVal := ret (PyInt 0).

(** [Param(with_metadata(zeros, get_value_hooks=[h1], k=2)(),
           get_value_hooks=h0, k=1, j=3)] *)
Definition annotated_variable : M loc :=
  let* value := with_metadata zeros (Sequence []) (Sequence [1]) (Sequence [])
                  (Sequence []) (Sequence []) (<["k" := PyInt 2]> ∅) tt in
  Variable__init__ sample_hooks no_class_hooks TParam (inr value)
    (Sequence []) (Callable 0) (Sequence []) (Sequence []) (Sequence [])
    (<["k" := PyInt 1]> (<["j" := PyInt 3]> ∅)).

(** [Param(with_partitioning(zeros, 'data')())] *)
Definition partitioned_variable : M loc :=
  let* value := with_partitioning zeros (PyStr "data") PyNone (Sequence [])
                  (Sequence []) (Sequence []) (Sequence []) (Sequence []) ∅ tt in
  Variable__init__ no_hooks no_class_hooks TParam (inr value)
    (Sequence []) (Sequence []) (Sequence []) (Sequence []) (Sequence []) ∅.

(** Three entries split by two predicates: an even path, anything. *)
Definition sample_flat_state : list (nat * nat) := [(0, 10); (1, 11); (2, 12)].

Definition sample_predicates : list (nat → nat → bool) :=
  [λ path _, Nat.even path; λ _ _, true].

(** On the two stale Params: an attribute assignment, a [copy_from], an
    [update_from_state], a value assignment, a [copy], a [replace]. *)
Definition sample_calls : list Call :=
  [CallSetattr 0 "raw_value" (PyInt 5);
   CallCopyFrom 0 1;
   CallUpdateFromState 0 (MkState TParam (PyInt 9) ∅);
   CallSetValue 0 (PyInt 3);
   CallCopy 0;
   CallReplace 2 0 (Some (PyInt 4)) ∅].


(** Axis hooks that do nothing. *)
Definition no_axis_hooks : HookId → loc → Z → PyVal → spmd.Spmd unit :=
  λ _ _ _ _, spmd.Sret tt.

(** The snapshot [x] of the scenario below: a [Param] of value [1] whose
    [sharding] is the tuple held by object [0], with no axis hook. *)
Definition sharded_state : VariableState :=
  MkState TParam (PyInt 1)
    (<["sharding" := PyRef 0]> (<["add_axis_hooks" := PyHooks []]>
    (<["remove_axis_hooks" := PyHooks []]> ∅))).

(** [x = VariableState(Param, 1, sharding=('a', 'b'), add_axis_hooks=(),
    remove_axis_hooks=())]: the tuple is object [0], [x] is object [1]. *)
Definition sharded_world : World :=
  snd ((let* sharding := spmd.new_tuple [PyStr "a"; PyStr "b"] in
        alloc (OVariableState sharded_state)) world0).

(** [{'partition_name': 'layers'}] *)
Definition layers : gmap string PyVal := <["partition_name" := PyStr "layers"]> ∅.

(** * Properties of [Variable] and [VariableState] *)

Example two_variables_heap :
  heap two_variables = <[0 := OVariable (MkVar TParam (plain_vars (PyInt 1) 0))]>
                      (<[1 := OVariable (MkVar TBatchStat (plain_vars (PyInt 2) 0))]> ∅).
Proof. vm_compute. reflexivity. Qed.

Ltac unfold_py :=
  unfold setattr_entry, get_metadata, copy_from, update_from_state, value,
    value_setter, create_value, to_state, to_variable, from_metadata, copy,
    VariableState_new, VariableState_init, VariableState_get_metadata,
    vars_setitem, set_vars, getattr, get_variable, is_valid,
    TraceState_new, dict_del, as_hooks, alloc, modify_heap, get_world,
    lift, bind, ret, raise in *.

Ltac py_run :=
  do 2 unfold_py;
  repeat first
    [ progress simpl
    | match goal with H : _ !! _ = Some _ |- _ => rewrite H end
    | match goal with H : _ !! _ = None |- _ => rewrite H end ].

Lemma dict_update_empty (d : gmap string PyVal) : dict_update ∅ d = d.
Proof. unfold dict_update. by rewrite (right_id_L ∅ (∪)). Qed.

Lemma dict_update_insert (d e : gmap string PyVal) k x :
  dict_update d (<[k := x]> e) = <[k := x]> (dict_update d e).
Proof. unfold dict_update. by rewrite insert_union_l. Qed.

Lemma dict_update_nothing (d : gmap string PyVal) : dict_update d ∅ = d.
Proof. unfold dict_update. by rewrite (left_id_L ∅ (∪)). Qed.

Section Variable_properties.

Variable hook_sem : HookId → VarObj → PyVal → Exception + PyVal.

Lemma setattr_entry_stale w self v name val :
  heap w !! self = Some (OVariable v) → stale w v →
  setattr_entry self name val w = (inl TraceContextError, w).
Proof.
  intros Hv (t & Ht & Hne). py_run.
  by rewrite bool_decide_eq_false_2.
Qed.

Lemma setattr_entry_valid w self v name val :
  heap w !! self = Some (OVariable v) →
  var_vars v !! "_trace_state" = Some (PyTraceState (current_trace w)) →
  setattr_entry self name val w =
    (inr tt, set_heap (insert self
       (OVariable (MkVar (var_type v) (<[name := val]> (var_vars v))))) w).
Proof.
  intros Hv Ht. py_run.
  rewrite bool_decide_eq_true_2 by done. by py_run.
Qed.

(** [_setattr] with a name that is no property is the assignment the
    [value] setter ends with. *)
Lemma _setattr_entry self name val :
  name ≠ "value" → _setattr hook_sem self name val = setattr_entry self name val.
Proof.
  intros Hname. unfold _setattr, setattr_entry, object_setattr.
  by rewrite bool_decide_eq_false_2.
Qed.

Lemma _setattr_stale w self v name val :
  heap w !! self = Some (OVariable v) → stale w v →
  _setattr hook_sem self name val w = (inl TraceContextError, w).
Proof.
  intros Hv (t & Ht & Hne). unfold _setattr.
  unfold bind at 1. unfold getattr, bind at 1, get_variable at 1. rewrite Hv, Ht.
  unfold ret at 1. unfold bind at 1. unfold is_valid.
  by rewrite bool_decide_eq_false_2.
Qed.

Lemma _setattr_valid w self v name val :
  heap w !! self = Some (OVariable v) →
  var_vars v !! "_trace_state" = Some (PyTraceState (current_trace w)) →
  name ≠ "value" →
  _setattr hook_sem self name val w =
    (inr tt, set_heap (insert self
       (OVariable (MkVar (var_type v) (<[name := val]> (var_vars v))))) w).
Proof.
  intros Hv Ht Hname. rewrite _setattr_entry by done.
  by apply setattr_entry_valid.
Qed.

(** In a valid trace, assigning [.value] is the call of the setter. *)
Lemma _setattr_value w self v val :
  heap w !! self = Some (OVariable v) →
  var_vars v !! "_trace_state" = Some (PyTraceState (current_trace w)) →
  _setattr hook_sem self "value" val w = value_setter hook_sem self val w.
Proof.
  intros Hv Ht. unfold _setattr.
  unfold bind at 1. unfold getattr, bind at 1, get_variable at 1. rewrite Hv, Ht.
  unfold ret at 1. unfold bind at 1. unfold is_valid.
  rewrite bool_decide_eq_true_2 by done. reflexivity.
Qed.

Lemma run_hooks_app hs1 hs2 v x :
  run_hooks hook_sem (hs1 ++ hs2) v x =
    match run_hooks hook_sem hs1 v x with
    | inl e => inl e
    | inr y => run_hooks hook_sem hs2 v y
    end.
Proof.
  revert x. induction hs1 as [|h hs1 IH]; intros x; simpl; [done|].
  destruct (hook_sem h v x); [done|]. apply IH.
Qed.

Lemma run_hooks_in_order hs v x :
  run_hooks hook_sem hs v x = apply_in_order hook_sem hs v x.
Proof.
  unfold apply_in_order.
  induction hs as [|h hs IH] using rev_ind; [done|].
  rewrite run_hooks_app, rev_unit, IH. simpl.
  destruct (foldr _ _ _) as [e|y]; [done|]. by destruct (hook_sem h v y).
Qed.

(** What the [value] setter does in a valid trace. *)
Lemma value_setter_run w self v hs val :
  heap w !! self = Some (OVariable v) →
  var_vars v !! "set_value_hooks" = Some (PyHooks hs) →
  var_vars v !! "_trace_state" = Some (PyTraceState (current_trace w)) →
  is_Variable w val = false →
  value_setter hook_sem self val w =
    match run_hooks hook_sem hs v val with
    | inr val' =>
        (inr tt, set_heap (insert self (OVariable
           (MkVar (var_type v) (<["raw_value" := val']> (var_vars v))))) w)
    | inl e => (inl e, w)
    end.
Proof.
  intros Hv Hh Hts Hnv. unfold value_setter.
  unfold bind at 1. unfold get_world at 1. rewrite Hnv.
  unfold bind at 1. unfold getattr, bind at 1, get_variable at 1.
  rewrite Hv, Hh. unfold ret at 1. unfold bind at 1.
  unfold as_hooks, ret at 1. unfold bind at 1.
  assert (match hs with
          | [] => ret val
          | _ :: _ => let* v0 := get_variable self in
                      lift (run_hooks hook_sem hs v0 val)
          end w = (run_hooks hook_sem hs v val, w)) as ->.
  { destruct hs; [done|]. unfold bind, get_variable, lift. by rewrite Hv. }
  destruct (run_hooks hook_sem hs v val) as [e|val']; [done|].
  by apply setattr_entry_valid.
Qed.

(** C4: on a Variable whose trace epoch has expired, every assignment
    of an attribute raises [TraceContextError], the assignment of
    [.value] among them: [__setattr__] goes to [_setattr], whose check
    of the trace state comes before [object.__setattr__] hands the name
    [value] to the property setter, so neither the [isinstance] guard
    nor a set hook is reached.  The world, hence every attribute of the
    Variable, is left as it was. *)
Theorem stale_mutation_fails_fast w self v :
  heap w !! self = Some (OVariable v) → stale w v →
  (∀ name val, __setattr__ hook_sem self name val w = (inl TraceContextError, w)) ∧
  (∀ val, __setattr__ hook_sem self "value" val w = (inl TraceContextError, w)) ∧
  (∀ name val, _setattr hook_sem self name val w = (inl TraceContextError, w)).
Proof.
  intros Hv Hst. repeat split; intros; by apply (_setattr_stale _ _ v).
Qed.

(** C7: reading [.value] returns [hn(v, ... h1(v, raw_value) ...)] for
    the get hooks [h1, ..., hn] in registration order; assigning
    [.value] (a value that is not a Variable, in a valid trace) stores
    as [raw_value] the same fold of the set hooks over the incoming
    value, and raises what a rejecting hook raises, storing nothing.
    This holds of the setter and of the assignment [self.value = val]
    that reaches it through [__setattr__]. *)
Theorem hooks_apply_in_registration_order w self v raw :
  heap w !! self = Some (OVariable v) →
  var_vars v !! "raw_value" = Some raw →
  (∀ hs, var_vars v !! "get_value_hooks" = Some (PyHooks hs) →
     value hook_sem self w = (apply_in_order hook_sem hs v raw, w)) ∧
  (∀ hs val,
     var_vars v !! "set_value_hooks" = Some (PyHooks hs) →
     var_vars v !! "_trace_state" = Some (PyTraceState (current_trace w)) →
     is_Variable w val = false →
     value_setter hook_sem self val w =
       match apply_in_order hook_sem hs v val with
       | inr val' =>
           (inr tt, set_heap (insert self (OVariable
              (MkVar (var_type v) (<["raw_value" := val']> (var_vars v))))) w)
       | inl e => (inl e, w)
       end) ∧
  (∀ hs val,
     var_vars v !! "set_value_hooks" = Some (PyHooks hs) →
     var_vars v !! "_trace_state" = Some (PyTraceState (current_trace w)) →
     is_Variable w val = false →
     __setattr__ hook_sem self "value" val w =
       match apply_in_order hook_sem hs v val with
       | inr val' =>
           (inr tt, set_heap (insert self (OVariable
              (MkVar (var_type v) (<["raw_value" := val']> (var_vars v))))) w)
       | inl e => (inl e, w)
       end).
Proof.
  intros Hv Hraw. split; [|split].
  - intros hs Hh. rewrite <- run_hooks_in_order.
    py_run. destruct hs; [done|]. by py_run.
  - intros hs val Hh Hts Hnv. rewrite <- run_hooks_in_order.
    by apply value_setter_run.
  - intros hs val Hh Hts Hnv. rewrite <- run_hooks_in_order.
    unfold __setattr__. rewrite (_setattr_value w self v) by done.
    by apply value_setter_run.
Qed.

(** C8: [a.copy_from(b)] between Variables of different concrete types
    raises the incompatible-container [ValueError] and leaves the world
    (so all of [a]'s attributes) untouched.  When the types agree it
    succeeds, and the copy is made: afterwards [a] holds every attribute
    of [b] ([raw_value], hooks, metadata) under its own trace state, and
    [b] is as it was. *)
Theorem copy_from_type_compatibility w a b va vb ta :
  heap w !! a = Some (OVariable va) →
  heap w !! b = Some (OVariable vb) →
  var_vars va !! "_trace_state" = Some ta →
  is_Some (var_vars vb !! "_trace_state") →
  (var_type va ≠ var_type vb →
     copy_from a b w =
       (inl (ValueError "Cannot copy from incompatible container"), w)) ∧
  (var_type va = var_type vb →
     let va' := MkVar (var_type va) (<["_trace_state" := ta]> (var_vars vb)) in
     let w' := set_heap (insert a (OVariable va')) w in
     copy_from a b w = (inr tt, w') ∧
     heap w' !! a = Some (OVariable va') ∧
     (∀ name, name ≠ "_trace_state" → var_vars va' !! name = var_vars vb !! name) ∧
     var_vars va' !! "_trace_state" = Some ta ∧
     (a ≠ b → heap w' !! b = Some (OVariable vb)) ∧
     (∀ l, l ≠ a → heap w' !! l = heap w !! l)).
Proof.
  intros Ha Hb Hta [tb Htb]. split; intros Hty.
  - py_run. by rewrite bool_decide_eq_false_2.
  - intros va' w'. split; [|split; [|split; [|split; [|split]]]].
    + py_run. rewrite bool_decide_eq_true_2 by done. simpl.
      case_bool_decide as Hab.
      * subst b. assert (vb = va) as -> by congruence.
        unfold w', va', ret. rewrite (insert_id (var_vars va)) by done.
        replace (MkVar (var_type va) (var_vars va)) with va by (by destruct va).
        unfold set_heap. rewrite insert_id by done. by destruct w.
      * py_run. rewrite dict_update_insert, dict_update_empty, dict_update_nothing.
        by rewrite insert_delete_eq.
    + simpl. apply lookup_insert_eq.
    + intros name Hname. simpl. by rewrite lookup_insert_ne.
    + simpl. apply lookup_insert_eq.
    + intros Hab. simpl. by rewrite lookup_insert_ne.
    + intros l Hl. simpl. by rewrite lookup_insert_ne.
Qed.

(** C10: [copy_from] (compatible types, a different source) and
    [update_from_state] overwrite every attribute of the target with the
    source's (the snapshot's value and metadata), except [_trace_state],
    which stays the target's own; [copy_from] from the same instance
    changes nothing. *)
Theorem trace_state_survives_overwrite w a va ts :
  heap w !! a = Some (OVariable va) →
  var_vars va !! "_trace_state" = Some ts →
  (∀ b vb, heap w !! b = Some (OVariable vb) → a ≠ b →
     var_type va = var_type vb →
     is_Some (var_vars vb !! "_trace_state") →
     ∃ attrs,
       copy_from a b w =
         (inr tt, set_heap (insert a (OVariable (MkVar (var_type va) attrs))) w) ∧
       attrs !! "_trace_state" = Some ts ∧
       (∀ name, name ≠ "_trace_state" → attrs !! name = var_vars vb !! name)) ∧
  copy_from a a w = (inr tt, w) ∧
  (∀ s, ∃ attrs,
     update_from_state a s w =
       (inr tt, set_heap (insert a (OVariable (MkVar (var_type va) attrs))) w) ∧
     attrs !! "_trace_state" = Some ts ∧
     attrs !! "raw_value" = Some (vs_value s) ∧
     (∀ name, name ≠ "_trace_state" → name ≠ "raw_value" →
        attrs !! name = vs_metadata s !! name)).
Proof.
  intros Ha Hts. split; [|split].
  - intros b vb Hb Hab Hty [tb Htb].
    exists (<["_trace_state" := ts]> (var_vars vb)). split; [|split].
    + py_run. rewrite bool_decide_eq_true_2 by done. simpl.
      rewrite bool_decide_eq_false_2 by done. py_run.
      rewrite dict_update_insert, dict_update_empty, dict_update_nothing.
      by rewrite insert_delete_eq.
    + by rewrite lookup_insert_eq.
    + intros name Hn. by rewrite lookup_insert_ne.
  - py_run. rewrite bool_decide_eq_true_2 by done. simpl.
    by rewrite bool_decide_eq_true_2.
  - intros s.
    exists (<["_trace_state" := ts]> (<["raw_value" := vs_value s]> (vs_metadata s))).
    split; [|split; [|split]].
    + py_run. by rewrite !dict_update_insert, dict_update_empty, dict_update_nothing.
    + by rewrite lookup_insert_eq.
    + rewrite lookup_insert_ne by done. by rewrite lookup_insert_eq.
    + intros name H1 H2. by rewrite !lookup_insert_ne.
Qed.

End Variable_properties.

Lemma alloc_fresh o w :
  ∃ l, alloc o w = (inr l, set_heap (insert l o) w) ∧ (l ∉ dom (heap w)).
Proof. eexists. split; [reflexivity|]. apply is_fresh. Qed.

Lemma keyword_clash_delete params k (d : gmap string PyVal) :
  k ∉ params →
  keyword_clash params (delete k d) = keyword_clash params d.
Proof.
  intros Hk. unfold keyword_clash. induction params as [|p ps IH]; [done|].
  apply not_elem_of_cons in Hk as [Hne Hk].
  simpl. rewrite IH by done. f_equal.
  by rewrite lookup_delete_ne.
Qed.

(** C9, amended: for a Variable none of whose attributes is named like a
    parameter of [VariableState.__init__], [to_state] yields the snapshot
    (type, raw value, the remaining attributes) without touching the
    world, and [to_variable] of it allocates a new Variable (not [v]) of
    the same type whose attributes are [v]'s with a newly made trace
    state. *)
Theorem snapshot_round_trip w self v raw ts :
  heap w !! self = Some (OVariable v) →
  var_vars v !! "raw_value" = Some raw →
  var_vars v !! "_trace_state" = Some ts →
  keyword_clash VariableState_params (var_vars v) = false →
  let s := MkState (var_type v) raw
             (delete "_trace_state" (delete "raw_value" (var_vars v))) in
  to_state self w = (inr s, w) ∧
  ∃ l, to_variable s w =
         (inr l, set_heap (insert l (OVariable (MkVar (var_type v)
            (<["_trace_state" := PyTraceState (current_trace w)]> (var_vars v))))) w) ∧
       (l ∉ dom (heap w)) ∧ l ≠ self.
Proof.
  intros Hv Hraw Hts Hclash s. split.
  - py_run. rewrite lookup_delete_ne by done. py_run.
    rewrite !keyword_clash_delete
      by (unfold VariableState_params; rewrite !not_elem_of_cons;
          repeat split; try done; apply not_elem_of_nil).
    by rewrite Hclash.
  - destruct (alloc_fresh (OVariable (MkVar (var_type v)
        (<["_trace_state" := PyTraceState (current_trace w)]> (var_vars v)))) w)
      as (l & Hl & Hfresh).
    exists l. split; [|split; [done|]].
    + unfold to_variable, TraceState_new, bind. rewrite <- Hl. do 4 f_equal.
      unfold VariableState_get_metadata. simpl.
      rewrite !dict_update_insert, dict_update_nothing.
      apply map_eq. intros k.
      destruct (decide (k = "_trace_state")) as [->|Hk1].
      { by rewrite !lookup_insert_eq. }
      rewrite !(lookup_insert_ne _ "_trace_state") by done.
      destruct (decide (k = "raw_value")) as [->|Hk2].
      { by rewrite lookup_insert_eq. }
      rewrite lookup_insert_ne by done. by rewrite !lookup_delete_ne.
    + intros ->. apply Hfresh, elem_of_dom. eauto.
Qed.

(** ** [Variable.replace] *)

Lemma replace_bind_ok val kwargs :
  kwargs !! "self" = None → val = None ∨ kwargs !! "value" = None →
  replace_bind val kwargs =
    inr (from_option Some (kwargs !! "value") val, delete "value" kwargs).
Proof.
  intros Hself Hone. unfold replace_bind. rewrite Hself.
  rewrite bool_decide_eq_false_2 by (by intros [? ?]).
  destruct (kwargs !! "value") as [x|] eqn:Hx.
  - by destruct Hone as [->|?].
  - rewrite delete_id by done. by destruct val.
Qed.

Lemma replace_bind_fails val kwargs :
  is_Some (kwargs !! "self") ∨ (is_Some val ∧ is_Some (kwargs !! "value")) →
  replace_bind val kwargs = inl (TypeError "got multiple values for argument").
Proof.
  intros Hbad. unfold replace_bind. case_bool_decide as Hself; [done|].
  destruct Hbad as [?|[[x ->] [y ->]]]; done.
Qed.

(** After the binding, lines 325-326 have nothing to rename. *)
Lemma replace_kwargs_bound value (kwargs : gmap string PyVal) :
  kwargs !! "value" = None →
  replace_kwargs value kwargs =
    match value with
    | Some x => <["raw_value" := x]> kwargs
    | None => kwargs
    end.
Proof.
  intros Hnone. unfold replace_kwargs. destruct value as [x|].
  - rewrite lookup_insert_ne by done. by rewrite Hnone.
  - by rewrite Hnone.
Qed.

Lemma replace_S depth self val kwargs value kwargs' w :
  replace_bind val kwargs = inr (value, kwargs') →
  replace (S depth) self val kwargs w =
    (let kwargs := replace_kwargs value kwargs' in
     let* s := get_variable self in
     let* w := get_world in
     let fresh_instance :=
       alloc (OVariable (MkVar (var_type s)
                (dict_update ∅ (dict_update (var_vars s) kwargs)))) in
     match kwargs !! "raw_value" with
     | Some (PyRef other) =>
         match heap w !! other with
         | Some (OVariable o) =>
             let kwargs := delete "raw_value" kwargs in
             if negb (bool_decide (var_type s = var_type o))
             then raise (ValueError "Cannot replace value from incompatible container")
             else if negb (bool_decide (kwargs = ∅))
                  then replace depth other None kwargs
                  else ret other
         | _ => fresh_instance
         end
     | _ => fresh_instance
     end) w.
Proof.
  intros Hbind. cbn [replace]. unfold bind at 1. unfold lift. by rewrite Hbind.
Qed.

Lemma replace_fresh_instance w depth self v val kwargs value kwargs' :
  heap w !! self = Some (OVariable v) →
  replace_bind val kwargs = inr (value, kwargs') →
  replacement_is_Variable w (replace_kwargs value kwargs') = false →
  ∃ l, replace (S depth) self val kwargs w =
         (inr l, set_heap (insert l (OVariable (MkVar (var_type v)
            (dict_update (var_vars v) (replace_kwargs value kwargs'))))) w) ∧
       (l ∉ dom (heap w)) ∧ l ≠ self.
Proof.
  intros Hv Hbind Hnv.
  destruct (alloc_fresh (OVariable (MkVar (var_type v)
      (dict_update (var_vars v) (replace_kwargs value kwargs')))) w)
    as (l & Hl & Hfresh).
  exists l. split; [|split; [done|]].
  - rewrite <- Hl, (replace_S _ _ _ _ _ _ _ Hbind). cbv zeta.
    unfold bind, get_variable, get_world. rewrite Hv.
    rewrite dict_update_empty.
    unfold replacement_is_Variable, is_Variable in Hnv.
    destruct (replace_kwargs value kwargs' !! "raw_value") as [[| | | | |other]|]; try done.
    destruct (heap w !! other) as [[]|]; done.
  - intros ->. apply Hfresh, elem_of_dom. eauto.
Qed.

(** C6, amended: a call that does not bind (a keyword [self], or a
    keyword [value] next to a positional value) raises [TypeError].  A
    call that binds, with a replacement value that is not itself a
    Variable, allocates a new instance of [v]'s dynamic type whose
    attributes are [v]'s overridden by the keywords (so every hook tuple
    the keywords do not name is [v]'s), and [v] is untouched.  When the
    replacement value is a Variable of another type, [replace] raises;
    of the same type, it returns that very Variable if no other keyword
    was given, and otherwise a new instance derived from it. *)
Theorem replace_new_instance_unless_Variable w depth self v val kwargs :
  heap w !! self = Some (OVariable v) →
  (is_Some (kwargs !! "self") ∨ (is_Some val ∧ is_Some (kwargs !! "value")) →
     replace (S depth) self val kwargs w =
       (inl (TypeError "got multiple values for argument"), w)) ∧
  (kwargs !! "self" = None → val = None ∨ kwargs !! "value" = None →
   let value := from_option Some (kwargs !! "value") val in
   let kw := match value with
             | Some x => <["raw_value" := x]> (delete "value" kwargs)
             | None => delete "value" kwargs
             end in
   (replacement_is_Variable w kw = false →
      ∃ l, replace (S depth) self val kwargs w =
             (inr l, set_heap (insert l (OVariable (MkVar (var_type v)
                (dict_update (var_vars v) kw)))) w) ∧
           (l ∉ dom (heap w)) ∧ l ≠ self ∧
           (∀ name, kw !! name = None →
              dict_update (var_vars v) kw !! name = var_vars v !! name) ∧
           (∀ name x, kw !! name = Some x →
              dict_update (var_vars v) kw !! name = Some x)) ∧
   (∀ other o,
      kw !! "raw_value" = Some (PyRef other) →
      heap w !! other = Some (OVariable o) →
      (var_type v ≠ var_type o →
         replace (S depth) self val kwargs w =
           (inl (ValueError "Cannot replace value from incompatible container"), w)) ∧
      (var_type v = var_type o → delete "raw_value" kw = ∅ →
         replace (S depth) self val kwargs w = (inr other, w)) ∧
      (var_type v = var_type o → delete "raw_value" kw ≠ ∅ →
         ∃ l, replace (S (S depth)) self val kwargs w =
                (inr l, set_heap (insert l (OVariable (MkVar (var_type o)
                   (dict_update (var_vars o) (delete "raw_value" kw))))) w) ∧
              (l ∉ dom (heap w))))).
Proof.
  intros Hv. split.
  { intros Hbad. cbn [replace]. unfold bind at 1. unfold lift.
    by rewrite replace_bind_fails. }
  intros Hself Hone value kw.
  pose proof (replace_bind_ok val kwargs Hself Hone) as Hbind. fold value in Hbind.
  assert (replace_kwargs value (delete "value" kwargs) = kw) as Hkw.
  { rewrite replace_kwargs_bound by apply lookup_delete_eq. done. }
  split.
  - intros Hnv.
    destruct (replace_fresh_instance w depth self v val kwargs _ _ Hv Hbind)
      as (l & Hrep & Hfresh & Hne); [by rewrite Hkw|].
    rewrite Hkw in Hrep.
    exists l. repeat split; try done.
    + intros name Hn. unfold dict_update. rewrite lookup_union_r; done.
    + intros name x Hn. unfold dict_update. by apply lookup_union_Some_l.
  - intros other o Hraw Ho. repeat split.
    + intros Hty. rewrite (replace_S _ _ _ _ _ _ _ Hbind). cbv zeta. rewrite Hkw.
      unfold bind, get_variable, get_world. rewrite Hv.
      rewrite Hraw, Ho. by rewrite bool_decide_eq_false_2.
    + intros Hty He. rewrite (replace_S _ _ _ _ _ _ _ Hbind). cbv zeta. rewrite Hkw.
      unfold bind, get_variable, get_world. rewrite Hv.
      rewrite Hraw, Ho. rewrite bool_decide_eq_true_2 by done.
      simpl. by rewrite bool_decide_eq_true_2.
    + intros Hty He.
      assert (kw !! "self" = None) as Hkwself.
      { unfold kw. destruct value; rewrite ?lookup_insert_ne by done;
          by rewrite lookup_delete_ne. }
      assert (kw !! "value" = None) as Hkwvalue.
      { unfold kw. destruct value; rewrite ?lookup_insert_ne by done;
          apply lookup_delete_eq. }
      assert (replace_bind None (delete "raw_value" kw) =
                inr (None, delete "raw_value" kw)) as Hbind'.
      { rewrite replace_bind_ok.
        - rewrite lookup_delete_ne by done. rewrite Hkwvalue. simpl.
          rewrite delete_id; [done|]. by rewrite lookup_delete_ne.
        - by rewrite lookup_delete_ne.
        - by left. }
      assert (replace_kwargs None (delete "raw_value" kw) = delete "raw_value" kw) as Hid.
      { apply replace_kwargs_bound. by rewrite lookup_delete_ne. }
      destruct (replace_fresh_instance w depth other o None (delete "raw_value" kw)
                  _ _ Ho Hbind') as (l & Hrep & Hfresh & _).
      { rewrite Hid. unfold replacement_is_Variable. by rewrite lookup_delete_eq. }
      exists l. split; [|done]. rewrite Hid in Hrep. rewrite <- Hrep.
      rewrite (replace_S _ _ _ _ _ _ _ Hbind). cbv zeta. rewrite Hkw.
      unfold bind at 1. unfold get_variable at 1. rewrite Hv.
      unfold bind at 1. unfold get_world at 1.
      rewrite Hraw, Ho. rewrite bool_decide_eq_true_2 by done.
      cbn [negb]. by rewrite bool_decide_eq_false_2.
Qed.

(** ** [VariableState] equality *)

(** C5, amended: [s1 == s2] on VariableState instances holds exactly when
    [s1] and [s2] are the same instance; it therefore implies that type
    tag, value and metadata match, but two instances built one after the
    other from the same type, value and metadata are distinct objects
    with equal contents, and do not compare equal. *)
Theorem VariableState_eq_is_identity :
  (∀ s1 s2, VariableState_eq s1 s2 = true ↔ s1 = s2) ∧
  (∀ (w : World) s1 s2 o1 o2,
     heap w !! s1 = Some (OVariableState o1) →
     heap w !! s2 = Some (OVariableState o2) →
     VariableState_eq s1 s2 = true →
     vs_type o1 = vs_type o2 ∧ vs_value o1 = vs_value o2 ∧
     vs_metadata o1 = vs_metadata o2) ∧
  (∀ (w : World) type val metadata,
     keyword_clash VariableState_params metadata = false →
     ∃ s1 s2 w',
       (let* s1 := VariableState_new type val metadata in
        let* s2 := VariableState_new type val metadata in
        ret (s1, s2)) w = (inr (s1, s2), w') ∧
       heap w' !! s1 = Some (OVariableState (MkState type val metadata)) ∧
       heap w' !! s2 = Some (OVariableState (MkState type val metadata)) ∧
       VariableState_eq s1 s2 = false).
Proof.
  split; [|split].
  - intros s1 s2. apply bool_decide_eq_true.
  - intros w s1 s2 o1 o2 H1 H2 ->%bool_decide_eq_true. by simplify_eq.
  - intros w type val metadata Hclash.
    destruct (alloc_fresh (OVariableState (MkState type val metadata)) w)
      as (s1 & Hrun1 & Hfresh1).
    destruct (alloc_fresh (OVariableState (MkState type val metadata))
                (set_heap (insert s1 (OVariableState (MkState type val metadata))) w))
      as (s2 & Hrun2 & Hfresh2).
    assert (s1 ≠ s2) as Hne.
    { intros <-. apply Hfresh2. simpl. rewrite dom_insert_L.
      apply elem_of_union. left. by apply elem_of_singleton. }
    eexists s1, s2, _. split; [|split; [|split]].
    + unfold VariableState_new, VariableState_init. rewrite Hclash.
      unfold bind at 1. unfold bind at 1. unfold ret at 1. rewrite Hrun1.
      unfold bind at 1. unfold bind at 1. unfold ret at 1. rewrite Hrun2.
      reflexivity.
    + simpl. rewrite lookup_insert_ne by done. apply lookup_insert_eq.
    + simpl. apply lookup_insert_eq.
    + unfold VariableState_eq. by apply bool_decide_eq_false.
Qed.

(** ** Scenarios *)

Lemma stale_mutation_fails_fast_witness :
  (∀ name val,
     __setattr__ no_hooks 0 name val stale_world = (inl TraceContextError, stale_world)) ∧
  (∀ val,
     __setattr__ no_hooks 0 "value" val stale_world = (inl TraceContextError, stale_world)) ∧
  (∀ name val,
     _setattr no_hooks 0 name val stale_world = (inl TraceContextError, stale_world)).
Proof.
  apply (stale_mutation_fails_fast no_hooks stale_world 0 (var_at stale_world 0)).
  - vm_compute. reflexivity.
  - exists 0. split; [vm_compute; reflexivity | vm_compute; discriminate].
Defined.

(** [v.value = p], a Variable, and [v.value = 5] on the stale [v]: both
    stop at the trace check. *)
Example stale_value_assignment :
  __setattr__ no_hooks 0 "value" (PyRef 1) stale_world =
    (inl TraceContextError, stale_world) ∧
  __setattr__ no_hooks 0 "value" (PyInt 5) stale_world =
    (inl TraceContextError, stale_world).
Proof. split; vm_compute; reflexivity. Qed.

Lemma VariableState_eq_is_identity_witness :
  (vs_type (MkState TParam (PyInt 1) ∅) = vs_type (MkState TParam (PyInt 1) ∅) ∧
   vs_value (MkState TParam (PyInt 1) ∅) = vs_value (MkState TParam (PyInt 1) ∅) ∧
   vs_metadata (MkState TParam (PyInt 1) ∅) = vs_metadata (MkState TParam (PyInt 1) ∅)) ∧
  ∃ s1 s2 w',
    (let* s1 := VariableState_new TParam (PyInt 1) ∅ in
     let* s2 := VariableState_new TParam (PyInt 1) ∅ in
     ret (s1, s2)) world0 = (inr (s1, s2), w') ∧
    heap w' !! s1 = Some (OVariableState (MkState TParam (PyInt 1) ∅)) ∧
    heap w' !! s2 = Some (OVariableState (MkState TParam (PyInt 1) ∅)) ∧
    VariableState_eq s1 s2 = false.
Proof.
  destruct VariableState_eq_is_identity as (_ & Hsame & Hnew). split.
  - apply (Hsame (snd two_snapshots) 0 0).
    + vm_compute. reflexivity.
    + vm_compute. reflexivity.
    + vm_compute. reflexivity.
  - apply (Hnew world0 TParam (PyInt 1) ∅). vm_compute. reflexivity.
Defined.

(** C5, as stated, fails: two instances built from the same type, value
    and metadata are different objects and do not compare equal. *)
Lemma equal_snapshots_compare_unequal :
  fst two_snapshots = inr (0, 1) ∧
  heap (snd two_snapshots) !! 0 = Some (OVariableState (MkState TParam (PyInt 1) ∅)) ∧
  heap (snd two_snapshots) !! 1 = Some (OVariableState (MkState TParam (PyInt 1) ∅)) ∧
  VariableState_eq 0 1 = false.
Proof. repeat split; vm_compute; reflexivity. Defined.

Lemma replace_new_instance_unless_Variable_witness :
  ∃ l, replace 1 0 (Some (PyInt 5)) ∅ two_params =
         (inr l, set_heap (insert l (OVariable (MkVar (var_type (var_at two_params 0))
            (dict_update (var_vars (var_at two_params 0))
                         (<["raw_value" := PyInt 5]> (delete "value" ∅)))))) two_params) ∧
       (l ∉ dom (heap two_params)) ∧ l ≠ 0.
Proof.
  destruct (replace_new_instance_unless_Variable two_params 0 0
              (var_at two_params 0) (Some (PyInt 5)) ∅) as [_ Hbound].
  - vm_compute. reflexivity.
  - destruct Hbound as [Hnew _].
    + reflexivity.
    + by right.
    + destruct Hnew as (l & H1 & H2 & H3 & _).
      * vm_compute. reflexivity.
      * exists l. repeat split; assumption.
Defined.

(** [v.replace(5, value=6)] does not bind. *)
Example replace_value_twice :
  replace 1 0 (Some (PyInt 5)) (<["value" := PyInt 6]> ∅) two_params =
    (inl (TypeError "got multiple values for argument"), two_params).
Proof. vm_compute. reflexivity. Qed.

(** C6, as stated, fails: replacing with a Variable of the same type
    returns that Variable, an object that existed before the call. *)
Lemma replace_by_Variable_returns_it :
  heap two_params !! 0 = Some (OVariable (MkVar TParam (plain_vars (PyInt 1) 0))) ∧
  heap two_params !! 1 = Some (OVariable (MkVar TParam (plain_vars (PyInt 2) 0))) ∧
  replace 2 0 (Some (PyRef 1)) ∅ two_params = (inr 1, two_params) ∧
  1 ∈ dom (heap two_params).
Proof.
  split; [|split; [|split]].
  1-3: vm_compute; reflexivity.
  apply elem_of_dom. eexists. vm_compute. reflexivity.
Defined.

Lemma hooks_apply_in_registration_order_witness :
  (∀ hs, var_vars (var_at hooked_world 0) !! "get_value_hooks" = Some (PyHooks hs) →
     value sample_hooks 0 hooked_world =
       (apply_in_order sample_hooks hs (var_at hooked_world 0) (PyInt 3), hooked_world)) ∧
  (∀ hs val,
     var_vars (var_at hooked_world 0) !! "set_value_hooks" = Some (PyHooks hs) →
     var_vars (var_at hooked_world 0) !! "_trace_state" =
       Some (PyTraceState (current_trace hooked_world)) →
     is_Variable hooked_world val = false →
     value_setter sample_hooks 0 val hooked_world =
       match apply_in_order sample_hooks hs (var_at hooked_world 0) val with
       | inr val' =>
           (inr tt, set_heap (insert 0 (OVariable
              (MkVar (var_type (var_at hooked_world 0))
                 (<["raw_value" := val']> (var_vars (var_at hooked_world 0)))))) hooked_world)
       | inl e => (inl e, hooked_world)
       end) ∧
  (∀ hs val,
     var_vars (var_at hooked_world 0) !! "set_value_hooks" = Some (PyHooks hs) →
     var_vars (var_at hooked_world 0) !! "_trace_state" =
       Some (PyTraceState (current_trace hooked_world)) →
     is_Variable hooked_world val = false →
     __setattr__ sample_hooks 0 "value" val hooked_world =
       match apply_in_order sample_hooks hs (var_at hooked_world 0) val with
       | inr val' =>
           (inr tt, set_heap (insert 0 (OVariable
              (MkVar (var_type (var_at hooked_world 0))
                 (<["raw_value" := val']> (var_vars (var_at hooked_world 0)))))) hooked_world)
       | inl e => (inl e, hooked_world)
       end).
Proof.
  apply (hooks_apply_in_registration_order sample_hooks hooked_world 0
           (var_at hooked_world 0) (PyInt 3)).
  - vm_compute. reflexivity.
  - vm_compute. reflexivity.
Defined.

Example hooked_value_read :
  fst (value sample_hooks 0 hooked_world) = inr (PyInt 8).
Proof. vm_compute. reflexivity. Qed.

Example hooked_value_written :
  fst ((__setattr__ sample_hooks 0 "value" (PyInt 5) ;; getattr 0 "raw_value")
         hooked_world)
    = inr (PyInt 11).
Proof. vm_compute. reflexivity. Qed.

Lemma copy_from_type_compatibility_witness :
  copy_from 0 1 two_variables =
    (inl (ValueError "Cannot copy from incompatible container"), two_variables) ∧
  copy_from 0 1 two_params =
    (inr tt, set_heap (insert 0 (OVariable (MkVar (var_type (var_at two_params 0))
       (<["_trace_state" := PyTraceState 0]> (var_vars (var_at two_params 1)))))) two_params) ∧
  var_vars (MkVar (var_type (var_at two_params 0))
       (<["_trace_state" := PyTraceState 0]> (var_vars (var_at two_params 1))))
    !! "raw_value" = var_vars (var_at two_params 1) !! "raw_value".
Proof.
  split; [|split].
  - apply (copy_from_type_compatibility two_variables 0 1
             (var_at two_variables 0) (var_at two_variables 1) (PyTraceState 0)).
    + vm_compute. reflexivity.
    + vm_compute. reflexivity.
    + vm_compute. reflexivity.
    + exists (PyTraceState 0). vm_compute. reflexivity.
    + vm_compute. discriminate.
  - apply (copy_from_type_compatibility two_params 0 1
             (var_at two_params 0) (var_at two_params 1) (PyTraceState 0)).
    + vm_compute. reflexivity.
    + vm_compute. reflexivity.
    + vm_compute. reflexivity.
    + exists (PyTraceState 0). vm_compute. reflexivity.
    + vm_compute. reflexivity.
  - apply (copy_from_type_compatibility two_params 0 1
             (var_at two_params 0) (var_at two_params 1) (PyTraceState 0)).
    + vm_compute. reflexivity.
    + vm_compute. reflexivity.
    + vm_compute. reflexivity.
    + exists (PyTraceState 0). vm_compute. reflexivity.
    + vm_compute. reflexivity.
    + done.
Defined.

Example copy_from_other_type :
  copy_from 0 1 two_variables =
    (inl (ValueError "Cannot copy from incompatible container"), two_variables).
Proof. vm_compute. reflexivity. Qed.

Example copy_from_same_type :
  fst ((copy_from 0 1 ;; getattr 0 "raw_value") two_params) = inr (PyInt 2).
Proof. vm_compute. reflexivity. Qed.

Lemma snapshot_round_trip_witness :
  to_state 0 two_params =
    (inr (MkState (var_type (var_at two_params 0)) (PyInt 1)
            (delete "_trace_state" (delete "raw_value" (var_vars (var_at two_params 0))))),
     two_params) ∧
  ∃ l, to_variable (MkState (var_type (var_at two_params 0)) (PyInt 1)
            (delete "_trace_state" (delete "raw_value" (var_vars (var_at two_params 0)))))
         two_params =
         (inr l, set_heap (insert l (OVariable (MkVar (var_type (var_at two_params 0))
            (<["_trace_state" := PyTraceState (current_trace two_params)]>
               (var_vars (var_at two_params 0)))))) two_params) ∧
       (l ∉ dom (heap two_params)) ∧ l ≠ 0.
Proof.
  apply (snapshot_round_trip two_params 0 (var_at two_params 0) (PyInt 1) (PyTraceState 0)).
  all: vm_compute; reflexivity.
Defined.

(** C9, as stated, fails: a Variable created with a metadata entry named
    [type] cannot be snapshot, the keyword collides with the parameter of
    [VariableState.__init__]. *)
Lemma to_state_rejects_metadata_named_type :
  heap Param_with_type_metadata !! 0 =
    Some (OVariable (MkVar TParam (<["type" := PyStr "x"]> (plain_vars (PyInt 1) 0)))) ∧
  to_state 0 Param_with_type_metadata =
    (inl (TypeError "got multiple values for argument"), Param_with_type_metadata).
Proof. split; vm_compute; reflexivity. Defined.

Lemma trace_state_survives_overwrite_witness :
  (∀ b vb, heap stale_world !! b = Some (OVariable vb) → 0 ≠ b →
     var_type (var_at stale_world 0) = var_type vb →
     is_Some (var_vars vb !! "_trace_state") →
     ∃ attrs,
       copy_from 0 b stale_world =
         (inr tt, set_heap (insert 0 (OVariable
            (MkVar (var_type (var_at stale_world 0)) attrs))) stale_world) ∧
       attrs !! "_trace_state" = Some (PyTraceState 0) ∧
       (∀ name, name ≠ "_trace_state" → attrs !! name = var_vars vb !! name)) ∧
  copy_from 0 0 stale_world = (inr tt, stale_world) ∧
  (∀ s, ∃ attrs,
     update_from_state 0 s stale_world =
       (inr tt, set_heap (insert 0 (OVariable
          (MkVar (var_type (var_at stale_world 0)) attrs))) stale_world) ∧
     attrs !! "_trace_state" = Some (PyTraceState 0) ∧
     attrs !! "raw_value" = Some (vs_value s) ∧
     (∀ name, name ≠ "_trace_state" → name ≠ "raw_value" →
        attrs !! name = vs_metadata s !! name)).
Proof.
  apply (trace_state_survives_overwrite stale_world 0 (var_at stale_world 0)
           (PyTraceState 0)).
  - vm_compute. reflexivity.
  - vm_compute. reflexivity.
Defined.

(** * The graph engine *)


Lemma unflatten_rec_NodeDef type index children path state cache index_ref :
  unflatten_rec (NodeDef type index children) path state cache index_ref =
    (let* l := match cached cache index with
               | Some l => reuse_node l type
               | None => alloc (ONode type [])
               end in
     let index_ref := <[index := l]> index_ref in
     let* (items, index_ref) :=
       unflatten_children path state cache children index_ref in
     init_node l type items ;;
     ret (PyRef l, index_ref)).
Proof. reflexivity. Qed.

Lemma unflatten_children_cons path state cache key child rest index_ref :
  unflatten_children path state cache ((key, child) :: rest) index_ref =
    (let* (item, index_ref) :=
       unflatten_rec child (path ++ [key]) state cache index_ref in
     let* (items, index_ref) :=
       unflatten_children path state cache rest index_ref in
     ret ((key, item) :: items, index_ref)).
Proof. reflexivity. Qed.

Lemma expected_paths_children_cons path key child rest seen :
  expected_paths_children path ((key, child) :: rest) seen =
    match expected_paths child (path ++ [key]) seen with
    | Some (ps, seen) =>
        match expected_paths_children path rest seen with
        | Some (qs, seen) => Some (ps ++ qs, seen)
        | None => None
        end
    | None => None
    end.
Proof. reflexivity. Qed.

Lemma expected_paths_NodeDef type index children path seen :
  expected_paths (NodeDef type index children) path seen =
    expected_paths_children path children ({[index]} ∪ seen).
Proof. reflexivity. Qed.

Lemma present_or_missing (state : State) (ps : list Path) :
  Forall (λ p, is_Some (lookup_state p state)) ps ∨
  Exists (λ p, lookup_state p state = None) ps.
Proof.
  induction ps as [|p ps [IH|IH]].
  - left. constructor.
  - destruct (lookup_state p state) eqn:E.
    + left. constructor; [by rewrite E|done].
    + right. by constructor.
  - right. by constructor 2.
Qed.

Section missing_state.
Variable state : State.

Lemma unflatten_children_expected children :
  Forall (λ kc, unflatten_expected state kc.2) children →
  ∀ path index_ref w ps seen,
    expected_paths_children path children (dom index_ref) = Some (ps, seen) →
    (present state ps → ∃ items index_ref' w',
        unflatten_children path state None children index_ref w =
          (inr (items, index_ref'), w') ∧
        dom index_ref' = seen) ∧
    (missing state ps → ∃ p w',
        unflatten_children path state None children index_ref w =
          (inl (StructureMismatch p), w')).
Proof.
  unfold present, missing.
  induction 1 as [|[key child] rest Hchild _ IH]; intros path index_ref w ps seen Hexp.
  - simpl in Hexp. injection Hexp as <- <-. split.
    + intros _. by eexists _, _, _.
    + intros Hm. by apply Exists_nil in Hm.
  - rewrite expected_paths_children_cons in Hexp. simpl in Hchild.
    unfold unflatten_expected, present, missing in Hchild.
    destruct (expected_paths child (path ++ [key]) (dom index_ref))
      as [[ps1 seen1]|] eqn:E1; [|done].
    destruct (expected_paths_children path rest seen1) as [[ps2 seen2]|] eqn:E2; [|done].
    injection Hexp as <- <-.
    destruct (Hchild (path ++ [key]) index_ref w ps1 seen1 E1) as [Hok1 Hbad1].
    destruct (present_or_missing state ps1) as [Hp1|Hm1].
    + destruct (Hok1 Hp1) as (v & ir1 & w1 & Hrun1 & Hdom1).
      rewrite <- Hdom1 in E2.
      destruct (IH path ir1 w1 ps2 seen2 E2) as [Hok2 Hbad2].
      split.
      * intros [_ Hp2]%Forall_app.
        destruct (Hok2 Hp2) as (items & ir2 & w2 & Hrun2 & Hdom2).
        exists ((key, v) :: items), ir2, w2. split; [|done].
        rewrite unflatten_children_cons. unfold bind at 1. rewrite Hrun1.
        unfold bind at 1. rewrite Hrun2. done.
      * intros [Hm|Hm]%Exists_app.
        { exfalso. apply Exists_exists in Hm as (p & Hin & Hnone).
          eapply Forall_forall in Hp1; [|done]. rewrite Hnone in Hp1.
          by destruct Hp1. }
        destruct (Hbad2 Hm) as (p & w2 & Hrun2).
        exists p, w2. rewrite unflatten_children_cons. unfold bind at 1.
        rewrite Hrun1. unfold bind at 1. by rewrite Hrun2.
    + split.
      * intros [Hp _]%Forall_app.
        exfalso. apply Exists_exists in Hm1 as (p & Hin & Hnone).
        eapply Forall_forall in Hp; [|done]. rewrite Hnone in Hp.
        by destruct Hp.
      * intros _. destruct (Hbad1 Hm1) as (p & w1 & Hrun1).
        exists p, w1. rewrite unflatten_children_cons. unfold bind at 1.
        by rewrite Hrun1.
Qed.

Lemma unflatten_rec_expected g : unflatten_expected state g.
Proof.
  induction g as [type index children IH|index|x|index] using GraphDef_induction;
    intros path index_ref w ps seen Hexp; unfold present, missing.
  - rewrite expected_paths_NodeDef in Hexp.
    destruct (alloc_fresh (ONode type []) w) as (l & Hl & _).
    assert ({[index]} ∪ dom index_ref = dom (<[index := l]> index_ref)) as Hd.
    { by rewrite dom_insert_L. }
    rewrite Hd in Hexp.
    destruct (unflatten_children_expected children IH path _
                (set_heap (insert l (ONode type [])) w) ps seen Hexp) as [Hok Hbad].
    split.
    + intros Hp. destruct (Hok Hp) as (items & ir & w' & Hrun & Hdom).
      eexists _, ir, _. split; [|done].
      rewrite unflatten_rec_NodeDef. unfold cached.
      unfold bind at 1. rewrite Hl. unfold bind at 1. rewrite Hrun.
      reflexivity.
    + intros Hm. destruct (Hbad Hm) as (p & w' & Hrun).
      exists p, w'. rewrite unflatten_rec_NodeDef. unfold cached.
      unfold bind at 1. rewrite Hl. unfold bind at 1. by rewrite Hrun.
  - simpl in Hexp. case_decide as Hin; [|done]. injection Hexp as <- <-.
    apply elem_of_dom in Hin as [l Hl]. split.
    + intros _. exists (PyRef l), index_ref, w. simpl. by rewrite Hl.
    + intros Hm. by apply Exists_nil in Hm.
  - simpl in Hexp. injection Hexp as <- <-. split.
    + intros _. by exists x, index_ref, w.
    + intros Hm. by apply Exists_nil in Hm.
  - simpl in Hexp. case_decide as Hin.
    + injection Hexp as <- <-. apply elem_of_dom in Hin as [l Hl]. split.
      * intros _. exists (PyRef l), index_ref, w. simpl. by rewrite Hl.
      * intros Hm. by apply Exists_nil in Hm.
    + injection Hexp as <- <-. apply not_elem_of_dom in Hin. split.
      * intros Hp. apply Forall_cons in Hp as [[s Hs] _].
        destruct (alloc_fresh (OVariable (MkVar (vs_type s)
          (dict_update (VariableState_get_metadata s)
            (<["_trace_state" := PyTraceState (current_trace w)]>
               (<["raw_value" := vs_value s]> ∅))))) w) as (l & Hl & _).
        eexists (PyRef l), (<[index := l]> index_ref), _. split.
        { simpl. rewrite Hin, Hs. unfold bind at 1, to_variable.
          unfold bind at 1, TraceState_new. rewrite Hl. reflexivity. }
        by rewrite dom_insert_L.
      * intros Hm. apply Exists_cons in Hm as [Hm|Hm]; [|by apply Exists_nil in Hm].
        exists path, w. simpl. by rewrite Hin, Hm.
Qed.

End missing_state.

(** ** [flatten] computes the relation [Flat] *)

Lemma readonly_bind {A B} (c : M A) (k : A → M B) :
  readonly c → (∀ a, readonly (k a)) → readonly (bind c k).
Proof.
  intros Hc Hk w. unfold bind. specialize (Hc w).
  destruct (c w) as [[e|a] w1]; simpl in *; subst; [done|]. apply Hk.
Qed.

Lemma readonly_ret {A} (a : A) : readonly (ret a).
Proof. done. Qed.

Lemma readonly_raise {A} e : readonly (raise e : M A).
Proof. done. Qed.

Lemma readonly_get_variable l : readonly (get_variable l).
Proof. intros w. unfold get_variable. by repeat case_match. Qed.

Lemma readonly_getattr l name : readonly (getattr l name).
Proof.
  apply readonly_bind; [apply readonly_get_variable|].
  intros v. by case_match.
Qed.

Lemma readonly_dict_del k d : readonly (dict_del k d).
Proof. unfold dict_del. by case_match. Qed.

Lemma readonly_to_state l : readonly (to_state l).
Proof.
  unfold to_state, get_metadata.
  repeat first
    [ apply readonly_get_variable
    | apply readonly_getattr
    | apply readonly_dict_del
    | apply readonly_ret
    | apply readonly_bind; [|intros ?] ].
  unfold VariableState_init. by case_match.
Qed.

Lemma to_state_pure l w : (to_state l w).2 = w.
Proof. apply readonly_to_state. Qed.

Lemma flatten_children_Flat visit w :
  (∀ path x rm st r w',
     visit path x rm st w = (inr r, w') →
     w' = w ∧ ∃ entries, r.2 = st ++ entries.*2 ∧ Flat w path x rm r.1.1 r.1.2 entries) →
  ∀ children path rm st r w',
    flatten_children visit path children rm st w = (inr r, w') →
    w' = w ∧ ∃ entries, r.2 = st ++ entries.*2 ∧
      FlatChildren w path children rm r.1.1 r.1.2 entries.
Proof.
  intros Hvisit children.
  induction children as [|[key child] rest IH]; intros path rm st r w' Hrun.
  - simpl in Hrun. injection Hrun as <- <-. split; [done|].
    exists []. simpl. rewrite app_nil_r. split; [done|]. constructor.
  - simpl in Hrun. unfold bind at 1 in Hrun.
    destruct (visit (path ++ [key]) child rm st w) as [[e|[[def rm1] st1]] w1] eqn:E1;
      [done|].
    destruct (Hvisit _ _ _ _ _ _ E1) as (-> & entries1 & Hst1 & Hflat1).
    simpl in *. unfold bind at 1 in Hrun.
    destruct (flatten_children visit path rest rm1 st1 w) as [[e|[[defs rm2] st2]] w2] eqn:E2;
      [done|].
    destruct (IH _ _ _ _ _ E2) as (-> & entries2 & Hst2 & Hflat2).
    simpl in *. injection Hrun as <- <-. split; [done|].
    exists (entries1 ++ entries2). simpl. split.
    + rewrite Hst2, Hst1, fmap_app. by rewrite (assoc_L (++)).
    + by econstructor.
Qed.

Lemma flatten_rec_Flat depth w : ∀ path x rm st r w',
  flatten_rec depth path x rm st w = (inr r, w') →
  w' = w ∧ ∃ entries, r.2 = st ++ entries.*2 ∧ Flat w path x rm r.1.1 r.1.2 entries.
Proof.
  induction depth as [|depth IH]; intros path x rm st r w' Hrun; [done|].
  simpl in Hrun. unfold bind at 1, get_world at 1 in Hrun.
  assert (∀ x', is_leaf (heap w) x' →
    (ret (Leaf x', rm, st) : M _) w = (inr r, w') →
    w' = w ∧ ∃ entries, r.2 = st ++ entries.*2 ∧ Flat w path x' rm r.1.1 r.1.2 entries)
    as Hleaf.
  { intros x' Hx' [= <- <-]. split; [done|]. exists []. simpl.
    rewrite app_nil_r. split; [done|]. by constructor. }
  destruct x as [| | | | |l]; try (by apply Hleaf).
  destruct (heap w !! l) as [[v|s|type children]|] eqn:Hl;
    try (apply Hleaf; [|done]; simpl; by rewrite Hl).
  - destruct (rm !! l) as [index|] eqn:Hrm.
    + injection Hrun as <- <-. split; [done|]. exists []. simpl.
      rewrite app_nil_r. split; [done|]. by econstructor.
    + unfold bind at 1 in Hrun.
      pose proof (to_state_pure l w) as Hpure.
      destruct (to_state l w) as [[e|snapshot] w1] eqn:Hsnap; [done|].
      simpl in Hpure. subst w1. injection Hrun as <- <-. split; [done|].
      exists [(l, (path, snapshot))]. split; [done|]. simpl. by econstructor.
  - destruct (rm !! l) as [index|] eqn:Hrm.
    + injection Hrun as <- <-. split; [done|]. exists []. simpl.
      rewrite app_nil_r. split; [done|]. by econstructor.
    + unfold bind at 1 in Hrun.
      destruct (flatten_children (flatten_rec depth) path children
                  (<[l := next_index rm]> rm) st w) as [[e|[[defs rm'] st']] w1] eqn:E;
        [done|].
      destruct (flatten_children_Flat _ w (λ p y m t, IH p y m t) _ _ _ _ _ _ E)
        as (-> & entries & Hst & Hflat).
      injection Hrun as <- <-. split; [done|].
      exists entries. split; [done|]. simpl in *. by econstructor.
Qed.

(** ** What [Flat] guarantees *)

Lemma refmap_ok_empty : refmap_ok ∅.
Proof. split; intros *; by rewrite lookup_empty. Qed.

Lemma refmap_ok_insert rm l :
  refmap_ok rm → rm !! l = None → refmap_ok (<[l := next_index rm]> rm).
Proof.
  intros [Hb Hi] Hl. unfold next_index. split.
  - intros l' i. rewrite map_size_insert_None by done.
    rewrite lookup_insert. case_decide as Hd; [intros [= <-]; lia|].
    intros Hlt%Hb. lia.
  - intros l1 l2 i. rewrite !lookup_insert.
    case_decide as Hd1; case_decide as Hd2; subst; try done.
    + intros [= <-] Hlt%Hb. lia.
    + intros Hlt%Hb [= <-]. lia.
    + apply Hi.
Qed.

Lemma Flat_grows w :
  (∀ path x rm gd rm' entries, Flat w path x rm gd rm' entries → rm ⊆ rm') ∧
  (∀ path children rm defs rm' entries,
     FlatChildren w path children rm defs rm' entries → rm ⊆ rm').
Proof.
  apply Flat_mutind; intros; try done.
  - by apply insert_subseteq.
  - etrans; [|done]. by apply insert_subseteq.
  - by etrans.
Qed.

Lemma Flat_subseteq w path x rm gd rm' entries :
  Flat w path x rm gd rm' entries → rm ⊆ rm'.
Proof. apply Flat_grows. Qed.

Lemma FlatChildren_subseteq w path children rm defs rm' entries :
  FlatChildren w path children rm defs rm' entries → rm ⊆ rm'.
Proof. apply Flat_grows. Qed.

Lemma Flat_refmap_ok w :
  (∀ path x rm gd rm' entries, Flat w path x rm gd rm' entries →
     refmap_ok rm → refmap_ok rm') ∧
  (∀ path children rm defs rm' entries,
     FlatChildren w path children rm defs rm' entries →
     refmap_ok rm → refmap_ok rm').
Proof.
  apply Flat_mutind; intros; try done.
  - by apply refmap_ok_insert.
  - auto using refmap_ok_insert.
  - auto.
Qed.

Lemma entries_ok_nil w rm : entries_ok w rm rm [].
Proof.
  split; [constructor|]. split.
  - intros e He. by apply elem_of_nil in He.
  - intros l v _ Hn Hs. rewrite Hn in Hs. by destruct Hs.
Qed.

Lemma entries_ok_app w rm rm1 rm2 entries1 entries2 :
  rm ⊆ rm1 → rm1 ⊆ rm2 →
  entries_ok w rm rm1 entries1 → entries_ok w rm1 rm2 entries2 →
  entries_ok w rm rm2 (entries1 ++ entries2).
Proof.
  intros H01 H12 (Hnd1 & Hin1 & Hall1) (Hnd2 & Hin2 & Hall2).
  split; [|split].
  - rewrite fmap_app. apply NoDup_app. split; [done|]. split; [|done].
    intros l (e1 & -> & He1)%list_elem_of_fmap (e2 & Heq & He2)%list_elem_of_fmap.
    destruct (Hin1 _ He1) as (_ & [i Hi] & _).
    destruct (Hin2 _ He2) as (Hnone & _). rewrite <- Heq in Hnone.
    congruence.
  - intros e [He|He]%elem_of_app.
    + destruct (Hin1 _ He) as (? & [i Hi] & ? & ?).
      repeat split; try done. exists i. by eapply (lookup_weaken rm1 rm2).
    + destruct (Hin2 _ He) as (Hnone & ? & ? & ?).
      repeat split; try done.
      destruct (rm !! e.1) eqn:E; [|done].
      eapply (lookup_weaken rm rm1) in E; [|done]. congruence.
  - intros l v Hv Hnone Hsome. rewrite fmap_app, elem_of_app.
    destruct (rm1 !! l) as [i|] eqn:E.
    + left. eapply Hall1; eauto.
    + right. eapply Hall2; eauto.
Qed.

Lemma Flat_entries_ok w :
  (∀ path x rm gd rm' entries, Flat w path x rm gd rm' entries →
     entries_ok w rm rm' entries) ∧
  (∀ path children rm defs rm' entries,
     FlatChildren w path children rm defs rm' entries →
     entries_ok w rm rm' entries).
Proof.
  apply Flat_mutind; intros; try apply entries_ok_nil.
  - (* a new Variable *)
    split; [|split].
    + simpl. apply NoDup_singleton.
    + intros e ->%list_elem_of_singleton. simpl.
      repeat split; try done; [|by eexists].
      rewrite lookup_insert_eq. by eexists.
    + intros l' v' Hv' Hn [i Hi]. simpl. apply list_elem_of_singleton.
      rewrite lookup_insert in Hi. case_decide; [done|congruence].
  - (* a new node *)
    match goal with H : entries_ok _ _ _ _ |- _ => destruct H as (Hnd & Hin & Hall) end.
    split; [done|]. split.
    + intros e He. destruct (Hin _ He) as (Hnone & ? & ? & ?).
      repeat split; try done.
      rewrite lookup_insert in Hnone. by case_decide.
    + intros l' v' Hv' Hn Hs. eapply Hall; eauto.
      rewrite lookup_insert. case_decide; [|done]. subst. congruence.
  - (* children *)
    match goal with
    | H1 : Flat _ _ _ _ _ ?rm1 _, H2 : FlatChildren _ _ _ _ _ _ _ |- _ =>
        apply (entries_ok_app w _ rm1); try done;
          [by eapply Flat_subseteq | by eapply FlatChildren_subseteq]
    end.
Qed.

Lemma slot_paths_NodeDef type index children path :
  slot_paths (NodeDef type index children) path = slot_paths_children path children.
Proof. reflexivity. Qed.

Lemma slot_paths_children_cons path key child rest :
  slot_paths_children path ((key, child) :: rest) =
    slot_paths child (path ++ [key]) ++ slot_paths_children path rest.
Proof. reflexivity. Qed.

Lemma Flat_paths w :
  distinct_keys (heap w) →
  (∀ path x rm gd rm' entries, Flat w path x rm gd rm' entries →
     (∀ e, e ∈ entries → ∃ q, e.2.1 = path ++ q) ∧
     NoDup entries.*2.*1 ∧
     (∀ e, e ∈ entries → e.2.1 ∈ slot_paths gd path)) ∧
  (∀ path children rm defs rm' entries,
     FlatChildren w path children rm defs rm' entries →
     NoDup children.*1 →
     (∀ e, e ∈ entries → ∃ k q, k ∈ children.*1 ∧ e.2.1 = path ++ k :: q) ∧
     NoDup entries.*2.*1 ∧
     (∀ e, e ∈ entries → e.2.1 ∈ slot_paths_children path defs)).
Proof.
  intros Hkeys. apply Flat_mutind.
  - intros. split; [|split]; [|constructor|]; intros e He; by apply elem_of_nil in He.
  - intros. split; [|split]; [|constructor|]; intros e He; by apply elem_of_nil in He.
  - intros path l v rm snapshot _ _ _. split; [|split].
    + intros e ->%list_elem_of_singleton. exists []. simpl. by rewrite app_nil_r.
    + simpl. apply NoDup_singleton.
    + intros e ->%list_elem_of_singleton. simpl. by left.
  - intros. split; [|split]; [|constructor|]; intros e He; by apply elem_of_nil in He.
  - intros path l type children rm defs rm' entries Hl _ _ IH.
    destruct IH as (Hpre & Hnd & Hslots); [by apply (Hkeys _ _ Hl)|].
    split; [|split]; [|done|].
    + intros e He. destruct (Hpre e He) as (k & q & _ & ->). by eexists.
    + intros e He. rewrite slot_paths_NodeDef. by apply Hslots.
  - intros. split; [|split]; [|constructor|]; intros e He; by apply elem_of_nil in He.
  - intros path key child rest rm def rm1 entries1 defs rm2 entries2
      _ (Hpre1 & Hnd1 & Hslots1) _ IH Hnd.
    simpl in Hnd. apply NoDup_cons in Hnd as [Hkey Hnd].
    destruct (IH Hnd) as (Hpre2 & Hnd2 & Hslots2).
    split; [|split].
    + intros e [He|He]%elem_of_app.
      * destruct (Hpre1 e He) as (q & ->). exists key, q.
        split; [simpl; by left|]. by rewrite <- (assoc_L (++)).
      * destruct (Hpre2 e He) as (k & q & Hk & ->). exists k, q.
        split; [simpl; by right|done].
    + rewrite !fmap_app. apply NoDup_app. split; [done|]. split; [|done].
      intros p (e1' & -> & (e1 & -> & He1)%list_elem_of_fmap)%list_elem_of_fmap
               (e2' & Heq & (e2 & -> & He2)%list_elem_of_fmap)%list_elem_of_fmap.
      destruct (Hpre1 e1 He1) as (q1 & Hq1).
      destruct (Hpre2 e2 He2) as (k & q2 & Hk & Hq2).
      rewrite Heq, Hq2, <- (assoc_L (++)) in Hq1.
      apply app_inv_head in Hq1. simpl in Hq1. injection Hq1 as -> _. done.
    + intros e [He|He]%elem_of_app; rewrite slot_paths_children_cons, elem_of_app;
        [left|right]; auto.
Qed.

Lemma lookup_state_NoDup (state : State) p s :
  NoDup state.*1 → (p, s) ∈ state → lookup_state p state = Some s.
Proof.
  induction state as [|[q t] state IH]; intros Hnd Hin.
  - by apply elem_of_nil in Hin.
  - simpl in *. apply NoDup_cons in Hnd as [Hq Hnd].
    apply elem_of_cons in Hin as [[= <- <-]|Hin].
    + by rewrite decide_True.
    + rewrite decide_False; [by apply IH|].
      intros ->. apply Hq. apply list_elem_of_fmap. by exists (p, s).
Qed.

Lemma get_child_NoDup key child (children : list (Key * PyVal)) :
  NoDup children.*1 → (key, child) ∈ children → get_child key children = Some child.
Proof.
  induction children as [|[k c] children IH]; intros Hnd Hin.
  - by apply elem_of_nil in Hin.
  - simpl in *. apply NoDup_cons in Hnd as [Hk Hnd].
    apply elem_of_cons in Hin as [[= <- <-]|Hin].
    + by rewrite decide_True.
    + rewrite decide_False; [by apply IH|].
      intros ->. apply Hk. apply list_elem_of_fmap. by exists (key, child).
Qed.

Lemma resolve_app h x p q :
  resolve h x (p ++ q) =
    match resolve h x p with
    | Some y => resolve h y q
    | None => None
    end.
Proof.
  revert x. induction p as [|k p IH]; intros x; [done|].
  simpl. destruct x as [| | | | |l]; try done.
  destruct (h !! l) as [[| |type children]|]; try done.
  destruct (get_child k children); [apply IH|done].
Qed.

(** The path of each new State entry leads, in the graph, to the Variable
    the entry was taken from. *)
Lemma Flat_resolve w root :
  distinct_keys (heap w) →
  (∀ path x rm gd rm' entries, Flat w path x rm gd rm' entries →
     resolve (heap w) root path = Some x →
     ∀ e, e ∈ entries → resolve (heap w) root e.2.1 = Some (PyRef e.1)) ∧
  (∀ path children rm defs rm' entries,
     FlatChildren w path children rm defs rm' entries →
     (∀ k c, (k, c) ∈ children → resolve (heap w) root (path ++ [k]) = Some c) →
     ∀ e, e ∈ entries → resolve (heap w) root e.2.1 = Some (PyRef e.1)).
Proof.
  intros Hkeys. apply Flat_mutind; try (intros; by match goal with
    H : _ ∈ [] |- _ => apply elem_of_nil in H end).
  - intros path l v rm snapshot _ _ _ Hres e ->%list_elem_of_singleton. done.
  - intros path l type children rm defs rm' entries Hl _ _ IH Hres.
    apply IH. intros k c Hin. rewrite resolve_app, Hres. simpl. rewrite Hl.
    erewrite get_child_NoDup; [done | by apply (Hkeys _ _ Hl) | done].
  - intros path key child rest rm def rm1 entries1 defs rm2 entries2
      _ IH1 _ IH2 Hres e [He|He]%elem_of_app.
    + apply IH1; [|done]. apply Hres. by left.
    + apply IH2; [|done]. intros k c Hin. apply Hres. by right.
Qed.

(** ** [unflatten] on the output of [flatten] *)

Lemma maps_to_mono rm ir rm2 ir2 l l' :
  rm ⊆ rm2 → ir ⊆ ir2 → maps_to rm ir l l' → maps_to rm2 ir2 l l'.
Proof.
  intros Hrm Hir (i & H1 & H2). exists i.
  split; by eapply lookup_weaken.
Qed.

Lemma val_rel_mono h0 rm ir rm2 ir2 x x' :
  rm ⊆ rm2 → ir ⊆ ir2 → val_rel h0 rm ir x x' → val_rel h0 rm2 ir2 x x'.
Proof.
  intros Hrm Hir. unfold val_rel. destruct x as [| | | | |l]; try done.
  destruct (h0 !! l) as [[| |]|]; try done;
    intros (l' & -> & Hm); exists l'; eauto using maps_to_mono.
Qed.

Lemma children_rel_mono h0 rm ir rm2 ir2 children items :
  rm ⊆ rm2 → ir ⊆ ir2 →
  children_rel h0 rm ir children items → children_rel h0 rm2 ir2 children items.
Proof.
  intros Hrm Hir Hrel. unfold children_rel in *.
  eapply Forall2_impl; [exact Hrel|].
  intros c c' [? ?]. eauto using val_rel_mono.
Qed.

Lemma obj_rel_mono h0 rm ir hc rm2 ir2 hc2 l l' :
  rm ⊆ rm2 → ir ⊆ ir2 → hc2 !! l' = hc !! l' →
  obj_rel h0 rm ir hc l l' → obj_rel h0 rm2 ir2 hc2 l l'.
Proof.
  intros Hrm Hir Hhc. unfold obj_rel.
  destruct (h0 !! l) as [[v|s|type children]|]; try done.
  - intros [ts Hts]. exists ts. by rewrite Hhc.
  - intros (items & Hitems & Hrel). exists items. rewrite Hhc.
    eauto using children_rel_mono.
Qed.

(** When every object is rebuilt in itself, corresponding children are
    the same children. *)
Lemma children_rel_cached h0 rm ir children items :
  (∀ l l', maps_to rm ir l l' → l' = l) →
  children_rel h0 rm ir children items → items = children.
Proof.
  intros Hid. induction 1 as [|[k x] [k' x'] children items [Hk Hx] _ IH]; [done|].
  simpl in *. subst k'. f_equal; [|done]. f_equal.
  unfold val_rel in Hx. destruct x as [| | | | |l]; try done.
  destruct (h0 !! l) as [[| |]|]; try done;
    destruct Hx as (l' & -> & Hmaps); by rewrite (Hid _ _ Hmaps).
Qed.

Lemma next_index_unknown h0 cache rm ir hc done :
  rebuilding h0 cache rm ir hc done → ir !! next_index rm = None.
Proof.
  intros Hinv. destruct (ir !! next_index rm) as [l'|] eqn:E; [|done].
  destruct (rb_known _ _ _ _ _ _ Hinv _ _ E) as [l Hl].
  apply (rb_refmap _ _ _ _ _ _ Hinv) in Hl. unfold next_index in Hl. lia.
Qed.

(** A new object enters both maps; its first image is written. *)
Lemma rebuilding_enter h0 cache rm ir hc done l l' o :
  rebuilding h0 cache rm ir hc done →
  rm !! l = None →
  (∀ i, ir !! i ≠ Some l') →
  (cache ≠ None → l' = l ∧ l ∈ dom h0) →
  rebuilding h0 cache (<[l := next_index rm]> rm) (<[next_index rm := l']> ir)
             (<[l' := o]> hc) done.
Proof.
  intros Hinv Hl Hfresh Hmode.
  pose proof (next_index_unknown _ _ _ _ _ _ Hinv) as Hnext.
  assert (rm ⊆ <[l := next_index rm]> rm) as Hrm by by apply insert_subseteq.
  assert (ir ⊆ <[next_index rm := l']> ir) as Hir by by apply insert_subseteq.
  split.
  - apply refmap_ok_insert; [apply Hinv|done].
  - intros a i. rewrite lookup_insert. case_decide as Hd.
    + intros [= <-]. rewrite lookup_insert_eq. by eexists.
    + intros Ha. destruct (rb_indexed _ _ _ _ _ _ Hinv _ _ Ha) as [a' Ha'].
      exists a'. by eapply lookup_weaken.
  - intros i a'. rewrite lookup_insert. case_decide as Hd.
    + intros _. subst i. exists l. by rewrite lookup_insert_eq.
    + intros Ha'. destruct (rb_known _ _ _ _ _ _ Hinv _ _ Ha') as [a Ha].
      exists a. by eapply lookup_weaken.
  - intros i j a'. rewrite !lookup_insert.
    case_decide as Hd1; case_decide as Hd2; subst; try done.
    + intros [= <-] Hj. by destruct (Hfresh j).
    + intros Hi [= <-]. by destruct (Hfresh i).
    + apply Hinv.
  - intros i a'. rewrite lookup_insert, dom_insert_L, elem_of_union, elem_of_singleton.
    case_decide as Hd.
    + intros [= <-]. by left.
    + intros Ha'%(rb_alive _ _ _ _ _ _ Hinv). by right.
  - intros a Ha Hnot.
    assert (a ≠ l') as Hne.
    { intros ->. by apply (Hnot (next_index rm)), lookup_insert_eq. }
    rewrite lookup_insert_ne by done. apply Hinv; [done|].
    intros i Hi. apply (Hnot i).
    rewrite lookup_insert_ne; [done|]. intros <-. congruence.
  - intros Hc i a'. rewrite lookup_insert. case_decide as Hd.
    + intros [= <-]. subst i. rewrite (proj1 (Hmode Hc)). apply lookup_insert_eq.
    + intros Ha'. pose proof (rb_cached _ _ _ _ _ _ Hinv Hc _ _ Ha') as Ha.
      by eapply lookup_weaken.
  - intros a a' Ha (i & Hi & Hi').
    assert (a ≠ l) as Hne.
    { intros ->. apply (rb_done_dom _ _ _ _ _ _ Hinv), elem_of_dom in Ha as [? ?].
      congruence. }
    rewrite lookup_insert_ne in Hi by done.
    assert (i ≠ next_index rm) as Hni.
    { apply (rb_refmap _ _ _ _ _ _ Hinv) in Hi. unfold next_index. lia. }
    rewrite lookup_insert_ne in Hi' by done.
    eapply obj_rel_mono; [done|done| |].
    2:{ apply Hinv; [done|]. by exists i. }
    rewrite lookup_insert_ne; [done|]. intros ->. by destruct (Hfresh i).
  - pose proof (rb_done_dom _ _ _ _ _ _ Hinv) as Hdd. rewrite dom_insert_L.
    intros a Ha. apply elem_of_union. right. by apply Hdd.
  - intros Hc a Ha.
    rewrite lookup_insert_ne; [by apply (rb_restored _ _ _ _ _ _ Hinv)|].
    intros <-. destruct (Hmode Hc) as [-> _].
    apply (rb_done_dom _ _ _ _ _ _ Hinv), elem_of_dom in Ha as [? ?]. congruence.
  - intros Hc a Ha.
    rewrite lookup_insert_ne; [by apply (rb_nothing_new _ _ _ _ _ _ Hinv)|].
    intros <-. destruct (Hmode Hc) as [-> ?]. done.
Qed.

(** The reconstruction of an object is completed by a last write. *)
Lemma rebuilding_complete h0 cache rm ir hc done l l' o :
  rebuilding h0 cache rm ir hc done →
  maps_to rm ir l l' →
  obj_rel h0 rm ir (<[l' := o]> hc) l l' →
  (cache ≠ None → h0 !! l = Some o) →
  rebuilding h0 cache rm ir (<[l' := o]> hc) (done ∪ {[l]}).
Proof.
  intros Hinv (i & Hi & Hi') Hrel Hsame.
  assert (cache ≠ None → l' = l) as Hid.
  { intros Hc. apply (rb_cached _ _ _ _ _ _ Hinv Hc) in Hi'.
    by eapply (rb_refmap _ _ _ _ _ _ Hinv). }
  split; try apply Hinv.
  - intros j a' Ha'%(rb_alive _ _ _ _ _ _ Hinv). rewrite dom_insert_L.
    apply elem_of_union. by right.
  - intros a Ha Hnot. rewrite lookup_insert_ne; [by apply Hinv|].
    intros <-. by apply (Hnot i).
  - intros a a' Ha (j & Hj & Hj').
    destruct (decide (a = l)) as [->|Hne].
    + assert (j = i) as -> by congruence.
      assert (a' = l') as -> by congruence. done.
    + assert (a ∈ done) as Hd.
      { apply elem_of_union in Ha as [Ha|Ha%elem_of_singleton]; done. }
      eapply obj_rel_mono; [done|done| |].
      2:{ apply Hinv; [done|]. by exists j. }
      rewrite lookup_insert_ne; [done|]. intros ->.
      assert (i = j) as -> by (by eapply (rb_inj _ _ _ _ _ _ Hinv)).
      apply Hne. by eapply (rb_refmap _ _ _ _ _ _ Hinv).
  - pose proof (rb_done_dom _ _ _ _ _ _ Hinv) as Hdd.
    intros a [Ha|Ha]%elem_of_union; [by apply Hdd|].
    apply elem_of_singleton in Ha as ->. apply elem_of_dom. eauto.
  - intros Hc a Ha. rewrite (Hid Hc).
    destruct (decide (a = l)) as [->|Hne].
    + rewrite lookup_insert_eq. symmetry. by apply Hsame.
    + rewrite lookup_insert_ne by done.
      apply (rb_restored _ _ _ _ _ _ Hinv Hc).
      apply elem_of_union in Ha as [Ha|Ha%elem_of_singleton]; done.
  - intros Hc a Ha. rewrite (Hid Hc).
    rewrite lookup_insert_ne; [by apply (rb_nothing_new _ _ _ _ _ _ Hinv)|].
    intros <-. apply Ha, elem_of_dom. rewrite (Hsame Hc). by eexists.
Qed.

Lemma to_state_inv l w s :
  to_state l w = (inr s, w) →
  ∃ v raw ts,
    heap w !! l = Some (OVariable v) ∧
    var_vars v !! "raw_value" = Some raw ∧
    var_vars v !! "_trace_state" = Some ts ∧
    s = MkState (var_type v) raw
          (delete "_trace_state" (delete "raw_value" (var_vars v))).
Proof.
  destruct (heap w !! l) as [[v| |]|] eqn:Hl; try (by py_run).
  destruct (var_vars v !! "raw_value") as [raw|] eqn:Hraw; [|by py_run].
  destruct (var_vars v !! "_trace_state") as [ts|] eqn:Hts.
  2:{ py_run. rewrite lookup_delete_ne by done. by py_run. }
  py_run. rewrite lookup_delete_ne by done. py_run.
  destruct (keyword_clash _ _); [done|].
  intros [= <-]. by exists v, raw, ts.
Qed.

Lemma rebuild_vars (vars : gmap string PyVal) raw t :
  vars !! "raw_value" = Some raw →
  <["_trace_state" := t]>
    (<["raw_value" := raw]> (delete "_trace_state" (delete "raw_value" vars))) =
  <["_trace_state" := t]> vars.
Proof.
  intros Hraw. apply map_eq. intros k.
  destruct (decide (k = "_trace_state")) as [->|Hk1].
  { by rewrite !lookup_insert_eq. }
  rewrite !(lookup_insert_ne _ "_trace_state") by done.
  destruct (decide (k = "raw_value")) as [->|Hk2].
  { by rewrite lookup_insert_eq. }
  rewrite lookup_insert_ne by done. by rewrite !lookup_delete_ne.
Qed.

Lemma to_variable_run s w :
  ∃ l', to_variable s w =
          (inr l', set_heap (insert l' (OVariable (MkVar (vs_type s)
             (<["_trace_state" := PyTraceState (current_trace w)]>
                (<["raw_value" := vs_value s]> (vs_metadata s)))))) w) ∧
        (l' ∉ dom (heap w)).
Proof.
  destruct (alloc_fresh (OVariable (MkVar (vs_type s)
      (<["_trace_state" := PyTraceState (current_trace w)]>
         (<["raw_value" := vs_value s]> (vs_metadata s))))) w) as (l' & Hl & Hfresh).
  exists l'. split; [|done]. rewrite <- Hl.
  unfold to_variable, TraceState_new, bind, VariableState_get_metadata.
  by rewrite !dict_update_insert, dict_update_nothing.
Qed.

Lemma update_from_state_run l v ts s w :
  heap w !! l = Some (OVariable v) →
  var_vars v !! "_trace_state" = Some ts →
  update_from_state l s w =
    (inr tt, set_heap (insert l (OVariable (MkVar (var_type v)
       (<["_trace_state" := ts]> (<["raw_value" := vs_value s]> (vs_metadata s)))))) w).
Proof.
  intros Hl Hts. py_run.
  by rewrite !dict_update_insert, dict_update_empty, dict_update_nothing.
Qed.

Lemma val_rel_leaf h0 rm ir x : is_leaf h0 x → val_rel h0 rm ir x x.
Proof.
  unfold is_leaf, val_rel. destruct x as [| | | | |l]; try done.
  by destruct (h0 !! l) as [[| |]|].
Qed.

Lemma rebuilding_done_eq h0 cache rm ir hc done done' :
  rebuilding h0 cache rm ir hc done → done = done' →
  rebuilding h0 cache rm ir hc done'.
Proof. by intros ? <-. Qed.

Lemma cache_ok_mono cache rm rm' : rm ⊆ rm' → cache_ok cache rm' → cache_ok cache rm.
Proof. intros Hsub Hok C HC l i Hl. eapply Hok; [done|]. by eapply lookup_weaken. Qed.

(** Bookkeeping of the completed objects. *)
Lemma done_union_step (done A B C : gset loc) :
  A ⊆ B → B ⊆ C → done ∪ (B ∖ A) ∪ (C ∖ B) = done ∪ (C ∖ A).
Proof.
  intros H1 H2. apply set_eq. intros a.
  rewrite !elem_of_union, !elem_of_difference.
  specialize (H1 a). specialize (H2 a).
  destruct (decide (a ∈ A)), (decide (a ∈ B)), (decide (a ∈ C)); tauto.
Qed.

Lemma done_union_node (done A C : gset loc) l :
  l ∉ A → {[l]} ∪ A ⊆ C → done ∪ (C ∖ ({[l]} ∪ A)) ∪ {[l]} = done ∪ (C ∖ A).
Proof.
  intros H1 H2. apply set_eq. intros a.
  rewrite !elem_of_union, !elem_of_difference, !elem_of_union, !elem_of_singleton.
  specialize (H2 a). rewrite elem_of_union, elem_of_singleton in H2.
  destruct (decide (a = l)) as [->|]; [|tauto].
  destruct (decide (l ∈ C)); tauto.
Qed.

Lemma done_union_same (done A : gset loc) : done = done ∪ (A ∖ A).
Proof.
  apply set_eq. intros a. rewrite elem_of_union, elem_of_difference. tauto.
Qed.

Lemma done_union_new (done A : gset loc) l :
  l ∉ A → done ∪ {[l]} = done ∪ (({[l]} ∪ A) ∖ A).
Proof.
  intros H. apply set_eq. intros a.
  rewrite !elem_of_union, !elem_of_difference, !elem_of_union, !elem_of_singleton.
  destruct (decide (a = l)) as [->|]; tauto.
Qed.

Section rebuild.
Variable w0 : World.
Variable STATE : State.
Variable cache : option (gmap nat loc).

(** The image of a new object: a fresh address without a cache, the
    object itself with one. *)
Lemma unflatten_new_variable path l v rm snapshot ir wc done :
  heap w0 !! l = Some (OVariable v) →
  rm !! l = None →
  to_state l w0 = (inr snapshot, w0) →
  rebuilding (heap w0) cache rm ir (heap wc) done →
  lookup_state path STATE = Some snapshot →
  cache_ok cache (<[l := next_index rm]> rm) →
  ∃ l' wc',
    unflatten_rec (VariableSlot (next_index rm)) path STATE cache ir wc =
      (inr (PyRef l', <[next_index rm := l']> ir), wc') ∧
    rebuilding (heap w0) cache (<[l := next_index rm]> rm)
      (<[next_index rm := l']> ir) (heap wc') (done ∪ {[l]}).
Proof.
  intros Hl Hrm Hsnap Hinv Hlook Hcache.
  pose proof (next_index_unknown _ _ _ _ _ _ Hinv) as Hnext.
  destruct (to_state_inv _ _ _ Hsnap) as (v' & raw & ts & Hl' & Hraw & Hts & ->).
  assert (v' = v) as -> by congruence.
  simpl. rewrite Hnext, Hlook.
  assert (∀ l' t, obj_rel (heap w0) (<[l := next_index rm]> rm)
            (<[next_index rm := l']> ir)
            (<[l' := OVariable (MkVar (var_type v) (<["_trace_state" := t]>
                (<["raw_value" := raw]>
                   (delete "_trace_state" (delete "raw_value" (var_vars v))))))]>
               (heap wc)) l l') as Hrel.
  { intros l' t. unfold obj_rel. rewrite Hl. exists t.
    rewrite lookup_insert_eq. by rewrite rebuild_vars. }
  assert (∀ l', maps_to (<[l := next_index rm]> rm) (<[next_index rm := l']> ir) l l')
    as Hmaps.
  { intros l'. exists (next_index rm). by rewrite !lookup_insert_eq. }
  destruct cache as [C|] eqn:HC.
  - (* with a cache: the Variable itself, updated in place *)
    assert (C !! next_index rm = Some l) as Hhit.
    { eapply Hcache; [done|]. apply lookup_insert_eq. }
    assert (∀ i, ir !! i ≠ Some l) as Hfresh.
    { intros i Hi. apply (rb_cached _ _ _ _ _ _ Hinv) in Hi; [|done]. congruence. }
    assert (heap wc !! l = Some (OVariable v)) as Hcur.
    { rewrite (rb_untouched _ _ _ _ _ _ Hinv); [done| |done].
      apply elem_of_dom. eauto. }
    simpl. rewrite Hhit. unfold bind at 1. unfold bind at 1.
    rewrite (update_from_state_run l v ts) by done. simpl.
    eexists l, _. split; [reflexivity|]. simpl.
    match goal with |- rebuilding _ _ _ _ (<[_ := ?o]> _) _ =>
      rewrite <- (insert_insert_eq (heap wc) l o o) end.
    apply rebuilding_complete; [|done| |].
    + apply rebuilding_enter; try done.
      intros _. split; [done|]. apply elem_of_dom. eauto.
    + rewrite insert_insert_eq. apply Hrel.
    + intros _. rewrite Hl, rebuild_vars by done.
      rewrite insert_id by done. by destruct v.
  - (* without: a newly allocated Variable *)
    destruct (to_variable_run
      (MkState (var_type v) raw
         (delete "_trace_state" (delete "raw_value" (var_vars v)))) wc)
      as (l' & Hrun & Hnew).
    assert (∀ i, ir !! i ≠ Some l') as Hfresh.
    { intros i Hi. by apply (rb_alive _ _ _ _ _ _ Hinv) in Hi. }
    simpl. unfold bind at 1. rewrite Hrun. simpl.
    eexists l', _. split; [reflexivity|]. simpl.
    match goal with |- rebuilding _ _ _ _ (<[_ := ?o]> _) _ =>
      rewrite <- (insert_insert_eq (heap wc) l' o o) end.
    apply rebuilding_complete; [|done| |done].
    + by apply rebuilding_enter.
    + rewrite insert_insert_eq. apply Hrel.
Qed.

(** A new node is registered before its children are rebuilt. *)
Lemma unflatten_enter_node l type children rm ir wc done :
  heap w0 !! l = Some (ONode type children) →
  rm !! l = None →
  rebuilding (heap w0) cache rm ir (heap wc) done →
  cache_ok cache (<[l := next_index rm]> rm) →
  ∃ l' wc',
    match cached cache (next_index rm) with
    | Some l => reuse_node l type
    | None => alloc (ONode type [])
    end wc = (inr l', wc') ∧
    rebuilding (heap w0) cache (<[l := next_index rm]> rm)
      (<[next_index rm := l']> ir) (heap wc') done.
Proof.
  intros Hl Hrm Hinv Hcache.
  destruct cache as [C|] eqn:HC.
  - assert (C !! next_index rm = Some l) as Hhit.
    { eapply Hcache; [done|]. apply lookup_insert_eq. }
    assert (∀ i, ir !! i ≠ Some l) as Hfresh.
    { intros i Hi. apply (rb_cached _ _ _ _ _ _ Hinv) in Hi; [|done]. congruence. }
    assert (heap wc !! l = Some (ONode type children)) as Hcur.
    { rewrite (rb_untouched _ _ _ _ _ _ Hinv); [done| |done].
      apply elem_of_dom. eauto. }
    simpl. rewrite Hhit. unfold reuse_node, bind, get_world. rewrite Hcur.
    rewrite decide_True by done. simpl.
    eexists l, _. split; [reflexivity|]. simpl. apply rebuilding_enter; try done.
    intros _. split; [done|]. apply elem_of_dom. eauto.
  - destruct (alloc_fresh (ONode type []) wc) as (l' & Hrun & Hnew).
    assert (∀ i, ir !! i ≠ Some l') as Hfresh.
    { intros i Hi. by apply (rb_alive _ _ _ _ _ _ Hinv) in Hi. }
    simpl. rewrite Hrun.
    eexists l', _. split; [reflexivity|]. simpl. by apply rebuilding_enter.
Qed.

(** [unflatten], run against the very State, rebuilds what [flatten]
    described: every object that [flatten] numbered during a call is
    complete when the matching call of [unflatten] returns. *)
Lemma unflatten_Flat :
  (∀ path x rm gd rm' entries, Flat w0 path x rm gd rm' entries →
     ∀ ir wc done,
       rebuilding (heap w0) cache rm ir (heap wc) done →
       (∀ e, e ∈ entries → lookup_state e.2.1 STATE = Some e.2.2) →
       cache_ok cache rm' →
       ∃ x' ir' wc',
         unflatten_rec gd path STATE cache ir wc = (inr (x', ir'), wc') ∧
         rebuilding (heap w0) cache rm' ir' (heap wc') (done ∪ (dom rm' ∖ dom rm)) ∧
         val_rel (heap w0) rm' ir' x x' ∧ ir ⊆ ir') ∧
  (∀ path children rm defs rm' entries,
     FlatChildren w0 path children rm defs rm' entries →
     ∀ ir wc done,
       rebuilding (heap w0) cache rm ir (heap wc) done →
       (∀ e, e ∈ entries → lookup_state e.2.1 STATE = Some e.2.2) →
       cache_ok cache rm' →
       ∃ items ir' wc',
         unflatten_children path STATE cache defs ir wc = (inr (items, ir'), wc') ∧
         rebuilding (heap w0) cache rm' ir' (heap wc') (done ∪ (dom rm' ∖ dom rm)) ∧
         children_rel (heap w0) rm' ir' children items ∧ ir ⊆ ir').
Proof.
  apply Flat_mutind.
  - (* a leaf *)
    intros path x rm Hleaf ir wc done Hinv _ _.
    exists x, ir, wc. split; [done|]. split; [|split; [|done]].
    + eapply rebuilding_done_eq; [done|]. apply done_union_same.
    + by apply val_rel_leaf.
  - (* a Variable seen before *)
    intros path l v rm index Hl Hrm ir wc done Hinv _ _.
    destruct (rb_indexed _ _ _ _ _ _ Hinv _ _ Hrm) as [l' Hl'].
    exists (PyRef l'), ir, wc. split; [by simpl; rewrite Hl'|].
    split; [|split; [|done]].
    + eapply rebuilding_done_eq; [done|]. apply done_union_same.
    + unfold val_rel. rewrite Hl. exists l'. split; [done|]. by exists index.
  - (* a new Variable *)
    intros path l v rm snapshot Hl Hrm Hsnap ir wc done Hinv Hlook Hcache.
    destruct (unflatten_new_variable path l v rm snapshot ir wc done)
      as (l' & wc' & Hrun & Hinv'); try done.
    { apply (Hlook (l, (path, snapshot))). by left. }
    exists (PyRef l'), (<[next_index rm := l']> ir), wc'.
    split; [done|]. split; [|split].
    + eapply rebuilding_done_eq; [done|].
      rewrite dom_insert_L. apply done_union_new. by apply not_elem_of_dom.
    + unfold val_rel. rewrite Hl. exists l'. split; [done|].
      exists (next_index rm). by rewrite !lookup_insert_eq.
    + apply insert_subseteq. by eapply next_index_unknown.
  - (* a node seen before *)
    intros path l type children rm index Hl Hrm ir wc done Hinv _ _.
    destruct (rb_indexed _ _ _ _ _ _ Hinv _ _ Hrm) as [l' Hl'].
    exists (PyRef l'), ir, wc. split; [by simpl; rewrite Hl'|].
    split; [|split; [|done]].
    + eapply rebuilding_done_eq; [done|]. apply done_union_same.
    + unfold val_rel. rewrite Hl. exists l'. split; [done|]. by exists index.
  - (* a new node *)
    intros path l type children rm defs rm' entries Hl Hrm Hflat IH
      ir wc done Hinv Hlook Hcache.
    pose proof (FlatChildren_subseteq _ _ _ _ _ _ _ Hflat) as Hsub.
    destruct (unflatten_enter_node l type children rm ir wc done)
      as (l' & wc1 & Hrun1 & Hinv1); try done.
    { by eapply cache_ok_mono. }
    destruct (IH _ _ _ Hinv1 Hlook Hcache)
      as (items & ir' & wc2 & Hrun2 & Hinv2 & Hrel & Hir).
    assert (rm' !! l = Some (next_index rm)) as Hrm'.
    { eapply lookup_weaken; [|done]. apply lookup_insert_eq. }
    assert (ir' !! next_index rm = Some l') as Hir'.
    { eapply lookup_weaken; [|done]. apply lookup_insert_eq. }
    exists (PyRef l'), ir', (set_heap (insert l' (ONode type items)) wc2).
    split; [|split; [|split]].
    + rewrite unflatten_rec_NodeDef. unfold bind at 1. rewrite Hrun1.
      unfold bind at 1. rewrite Hrun2. reflexivity.
    + eapply rebuilding_done_eq.
      * apply (rebuilding_complete _ _ _ _ _ _ l l' (ONode type items) Hinv2).
        { by exists (next_index rm). }
        { unfold obj_rel. rewrite Hl. exists items.
          split; [apply lookup_insert_eq|done]. }
        intros Hc. rewrite Hl. do 2 f_equal. symmetry.
        eapply children_rel_cached; [|done].
        intros a a' (i & Hi & Hi').
        apply (rb_cached _ _ _ _ _ _ Hinv2 Hc) in Hi'.
        by eapply (rb_refmap _ _ _ _ _ _ Hinv2).
      * apply subseteq_dom in Hsub. rewrite dom_insert_L in *.
        apply done_union_node; [by apply not_elem_of_dom|done].
    + unfold val_rel. rewrite Hl. exists l'. split; [done|].
      by exists (next_index rm).
    + etrans; [|done]. apply insert_subseteq. by eapply next_index_unknown.
  - (* no child *)
    intros path rm ir wc done Hinv _ _.
    exists [], ir, wc. split; [done|]. split; [|split; [constructor|done]].
    eapply rebuilding_done_eq; [done|]. apply done_union_same.
  - (* a child and the rest *)
    intros path key child rest rm def rm1 entries1 defs rm2 entries2
      Hflat1 IH1 Hflat2 IH2 ir wc done Hinv Hlook Hcache.
    pose proof (Flat_subseteq _ _ _ _ _ _ _ Hflat1) as Hsub1.
    pose proof (FlatChildren_subseteq _ _ _ _ _ _ _ Hflat2) as Hsub2.
    destruct (IH1 ir wc done Hinv) as (x' & ir1 & wc1 & Hrun1 & Hinv1 & Hrel1 & Hir1).
    { intros e He. apply Hlook. apply elem_of_app. by left. }
    { by eapply cache_ok_mono. }
    destruct (IH2 ir1 wc1 _ Hinv1) as (items & ir2 & wc2 & Hrun2 & Hinv2 & Hrel2 & Hir2).
    { intros e He. apply Hlook. apply elem_of_app. by right. }
    { done. }
    exists ((key, x') :: items), ir2, wc2. split; [|split; [|split]].
    + rewrite unflatten_children_cons. unfold bind at 1. rewrite Hrun1.
      unfold bind at 1. rewrite Hrun2. reflexivity.
    + eapply rebuilding_done_eq; [done|].
      apply subseteq_dom in Hsub1, Hsub2. by apply done_union_step.
    + constructor; [|done]. split; [done|]. simpl.
      by eapply val_rel_mono.
    + by etrans.
Qed.

End rebuild.

(** ** The recursion limit [flatten] needs *)

Lemma unseen_shrinks (H A B : gset loc) :
  A ⊆ B → size (H ∖ B) ≤ size (H ∖ A).
Proof.
  intros Hsub. apply subseteq_size. intros a.
  rewrite !elem_of_difference. specialize (Hsub a). tauto.
Qed.

Lemma unseen_drops (H A : gset loc) l :
  l ∈ H → l ∉ A → size (H ∖ ({[l]} ∪ A)) < size (H ∖ A).
Proof.
  intros Hl HA. apply subset_size. split.
  - intros a. rewrite !elem_of_difference, elem_of_union. tauto.
  - intros Hsub. specialize (Hsub l). revert Hsub.
    rewrite !elem_of_difference, elem_of_union, elem_of_singleton. tauto.
Qed.

Lemma flatten_children_total visit w bound :
  (∀ path x rm st, size (dom (heap w) ∖ dom rm) < bound →
     ∃ r, visit path x rm st w = (inr r, w) ∧ ∃ entries, Flat w path x rm r.1.1 r.1.2 entries) →
  ∀ children path rm st, size (dom (heap w) ∖ dom rm) < bound →
    ∃ r, flatten_children visit path children rm st w = (inr r, w).
Proof.
  intros Hvisit children.
  induction children as [|[key child] rest IH]; intros path rm st Hsize.
  - by eexists.
  - destruct (Hvisit (path ++ [key]) child rm st Hsize)
      as ([[def rm1] st1] & Hrun1 & entries & Hflat).
    simpl in Hflat. apply Flat_subseteq, subseteq_dom in Hflat.
    destruct (IH path rm1 st1) as ([[defs rm2] st2] & Hrun2).
    { eapply Nat.le_lt_trans; [|done]. by apply unseen_shrinks. }
    eexists. simpl. unfold bind at 1. rewrite Hrun1.
    unfold bind at 1. rewrite Hrun2. reflexivity.
Qed.

(** With a recursion limit above the number of objects not yet in the
    RefMap, [flatten_rec] returns. *)
Lemma flatten_rec_total w :
  snapshotable w →
  ∀ depth path x rm st,
    size (dom (heap w) ∖ dom rm) < depth →
    ∃ r, flatten_rec depth path x rm st w = (inr r, w).
Proof.
  intros Hsnap. induction depth as [|depth IH]; intros path x rm st Hsize; [lia|].
  simpl. unfold bind at 1, get_world at 1.
  destruct x as [| | | | |l]; try by eexists.
  destruct (heap w !! l) as [[v|s|type children]|] eqn:Hl; try by eexists.
  - destruct (rm !! l) as [index|] eqn:Hrm; [by eexists|].
    destruct (Hsnap l _ Hl) as [s Hs]. unfold bind. rewrite Hs. by eexists.
  - destruct (rm !! l) as [index|] eqn:Hrm; [by eexists|].
    destruct (flatten_children_total (flatten_rec depth) w depth) with
      (children := children) (path := path)
      (rm := <[l := next_index rm]> rm) (st := st) as [[[defs rm'] st'] Hrun].
    + intros p y m t Hm. destruct (IH p y m t Hm) as [r Hr].
      exists r. split; [done|].
      destruct (flatten_rec_Flat _ _ _ _ _ _ _ _ Hr) as (_ & entries & _ & Hflat).
      by exists entries.
    + rewrite dom_insert_L.
      assert (size (dom (heap w) ∖ ({[l]} ∪ dom rm)) < size (dom (heap w) ∖ dom rm)).
      { apply unseen_drops; [apply elem_of_dom; eauto|by apply not_elem_of_dom]. }
      lia.
    + unfold bind. rewrite Hrun. by eexists.
Qed.

(** ** The rebuilt graph, path by path *)

Lemma rebuilding_init h0 cache : rebuilding h0 cache ∅ ∅ h0 ∅.
Proof.
  split.
  - apply refmap_ok_empty.
  - intros l i. by rewrite lookup_empty.
  - intros i l'. by rewrite lookup_empty.
  - intros i j l'. by rewrite lookup_empty.
  - intros i l'. by rewrite lookup_empty.
  - done.
  - intros _ i l'. by rewrite lookup_empty.
  - intros l l' Hl. by apply elem_of_empty in Hl.
  - done.
  - intros _ l Hl. by apply elem_of_empty in Hl.
  - intros _ l Hl. by apply not_elem_of_dom.
Qed.

Lemma children_rel_get_child h0 rm ir children items key child :
  children_rel h0 rm ir children items →
  get_child key children = Some child →
  ∃ item, get_child key items = Some item ∧ val_rel h0 rm ir child item.
Proof.
  induction 1 as [|[k c] [k' c'] children items [Hk Hc] _ IH]; [done|].
  simpl in *. subst k'. case_decide; [|done].
  intros [= <-]. by exists c'.
Qed.

(** When every numbered object is complete, what a path leads to in the
    flattened graph corresponds to what it leads to in the rebuilt one. *)
Lemma resolve_rebuilt h0 cache rm ir hc path : ∀ x x' y,
  rebuilding h0 cache rm ir hc (dom rm) →
  val_rel h0 rm ir x x' →
  resolve h0 x path = Some y →
  ∃ y', resolve hc x' path = Some y' ∧ val_rel h0 rm ir y y'.
Proof.
  induction path as [|key path IH]; intros x x' y Hinv Hrel Hres.
  - injection Hres as <-. by exists x'.
  - simpl in Hres. destruct x as [| | | | |l]; try done.
    destruct (h0 !! l) as [[| |type children]|] eqn:Hl; try done.
    destruct (get_child key children) as [child|] eqn:Hchild; [|done].
    unfold val_rel in Hrel. rewrite Hl in Hrel.
    destruct Hrel as (l' & -> & Hmaps).
    assert (l ∈ dom rm) as Hdone.
    { destruct Hmaps as (i & Hi & _). apply elem_of_dom. eauto. }
    pose proof (rb_done _ _ _ _ _ _ Hinv l l' Hdone Hmaps) as Hobj.
    unfold obj_rel in Hobj. rewrite Hl in Hobj.
    destruct Hobj as (items & Hitems & Hchildren).
    destruct (children_rel_get_child _ _ _ _ _ _ _ Hchildren Hchild)
      as (item & Hitem & Hrel).
    destruct (IH child item y Hinv Hrel Hres) as (y' & Hres' & Hrel').
    exists y'. split; [|done]. simpl. by rewrite Hitems, Hitem.
Qed.

Lemma filter_none {A} (P : A → Prop) `{∀ x, Decision (P x)} (l : list A) :
  (∀ x, x ∈ l → ¬ P x) → filter P l = [].
Proof.
  induction l as [|a l IH]; intros Hall; [done|].
  rewrite filter_cons_False; [|apply Hall; by left].
  apply IH. intros x Hx. apply Hall. by right.
Qed.

(** Among entries taken from distinct Variables, exactly one is the
    entry of a given Variable. *)
Lemma one_entry (entries : list (loc * (Path * VariableState))) l
    (P : Path * VariableState → Prop) `{∀ x, Decision (P x)} :
  NoDup entries.*1 → l ∈ entries.*1 →
  (∀ e, e ∈ entries → (P e.2 ↔ e.1 = l)) →
  length (filter P entries.*2) = 1.
Proof.
  induction entries as [|e entries IH]; intros Hnd Hin HP.
  - by apply elem_of_nil in Hin.
  - simpl in *. apply NoDup_cons in Hnd as [Hnotin Hnd].
    destruct (decide (e.1 = l)) as [He|He].
    + rewrite filter_cons_True; [|apply HP; [by left|done]].
      simpl. f_equal. rewrite filter_none; [done|].
      intros x (e' & -> & He')%list_elem_of_fmap HPx.
      apply HP in HPx; [|by right]. apply Hnotin. rewrite He, <- HPx.
      apply list_elem_of_fmap. by exists e'.
    + rewrite filter_cons_False; [|rewrite HP; [done|by left]].
      apply IH; [done| |].
      * apply elem_of_cons in Hin as [Hin|Hin]; [congruence|done].
      * intros e' He'. apply HP. by right.
Qed.

(** ** flatten, then unflatten *)

Lemma invert_lookup rm l i :
  refmap_ok rm → rm !! l = Some i → invert rm !! i = Some l.
Proof.
  intros [_ Hinj] Hl. unfold invert.
  apply elem_of_list_to_map_1.
  - rewrite <- list_fmap_compose.
    apply NoDup_fmap_2_strong; [|apply NoDup_map_to_list].
    intros [l1 i1] [l2 i2] H1%elem_of_map_to_list H2%elem_of_map_to_list.
    simpl. intros <-. f_equal. by eapply Hinj.
  - apply list_elem_of_fmap. exists (l, i). split; [done|].
    by apply elem_of_map_to_list.
Qed.

(** [flatten] returns, and [unflatten] of what it returned, with no
    cache or with a cache that inverts the RefMap, rebuilds every
    object [flatten] numbered. *)
Lemma flatten_unflatten w depth root :
  distinct_keys (heap w) → snapshotable w → size (dom (heap w)) < depth →
  ∃ graphdef rm entries,
    flatten depth root ∅ w = (inr (graphdef, entries.*2, rm), w) ∧
    Flat w [] root ∅ graphdef rm entries ∧
    ∀ cache, cache_ok cache rm →
      ∃ root2 ir w2,
        unflatten graphdef entries.*2 ∅ cache w = (inr (root2, ir), w2) ∧
        rebuilding (heap w) cache rm ir (heap w2) (dom rm) ∧
        val_rel (heap w) rm ir root root2.
Proof.
  intros Hkeys Hsnap Hdepth.
  destruct (flatten_rec_total w Hsnap depth [] root ∅ []) as [[[gd rm] st] Hrun].
  { by rewrite dom_empty_L, difference_empty_L. }
  destruct (flatten_rec_Flat _ _ _ _ _ _ _ _ Hrun) as (_ & entries & Hst & Hflat).
  simpl in Hst, Hflat. subst st.
  exists gd, rm, entries. split; [|split; [done|]].
  { unfold flatten, bind. by rewrite Hrun. }
  intros cache Hcache.
  destruct (proj1 (Flat_paths w Hkeys) _ _ _ _ _ _ Hflat) as (_ & Hnd & Hslots).
  destruct (proj1 (unflatten_Flat w entries.*2 cache) _ _ _ _ _ _ Hflat ∅ w ∅)
    as (root2 & ir & w2 & Hun & Hinv & Hrel & _); [apply rebuilding_init| |done|].
  { intros [l [p s]] He. simpl. apply lookup_state_NoDup; [done|].
    apply list_elem_of_fmap. by exists (l, (p, s)). }
  exists root2, ir, w2. split; [|split; [|done]].
  - unfold unflatten.
    destruct (list_find _ _) as [[i [p s]]|] eqn:Hfind; [|done].
    apply list_find_Some in Hfind as (Hin%list_elem_of_lookup_2 & Hbad & _).
    apply list_elem_of_fmap in Hin as (e & He & Hin). apply Hslots in Hin.
    destruct e as [l e]. simpl in *. subst e. done.
  - eapply rebuilding_done_eq; [done|].
    apply set_eq. intros a.
    rewrite elem_of_union, elem_of_difference, dom_empty_L, !elem_of_empty. tauto.
Qed.

Lemma value_without_hooks hook_sem w l v :
  heap w !! l = Some (OVariable v) →
  var_vars v !! "get_value_hooks" = Some (PyHooks []) →
  (value hook_sem l w).1 =
    match var_vars v !! "raw_value" with
    | Some x => inr x
    | None => inl (AttributeError "raw_value")
    end.
Proof.
  intros Hl Hhooks. unfold value, getattr, bind, get_variable. rewrite Hl.
  destruct (var_vars v !! "raw_value"); [|done].
  simpl. by rewrite Hl, Hhooks.
Qed.

(** C1: when a graph is flattened and rebuilt, a Variable reached by
    several paths gives exactly one State entry, and in the rebuilt
    graph all these paths lead to one and the same new Variable, of the
    same type and with the same attributes (the raw value among them)
    but for the trace state; read through [.value] without get hooks,
    it gives what the original gives. *)
Theorem sharing_fidelity w depth root :
  distinct_keys (heap w) → snapshotable w → size (dom (heap w)) < depth →
  ∃ graphdef state ref_index,
    flatten depth root ∅ w = (inr (graphdef, state, ref_index), w) ∧
    (∀ p l v,
       resolve (heap w) root p = Some (PyRef l) →
       heap w !! l = Some (OVariable v) →
       length (filter (λ e, resolve (heap w) root e.1 = Some (PyRef l)) state) = 1) ∧
    ∃ root2 index_ref w2,
      unflatten graphdef state ∅ None w = (inr (root2, index_ref), w2) ∧
      ∀ p q l v,
        resolve (heap w) root p = Some (PyRef l) →
        resolve (heap w) root q = Some (PyRef l) →
        heap w !! l = Some (OVariable v) →
        ∃ l2 v2,
          resolve (heap w2) root2 p = Some (PyRef l2) ∧
          resolve (heap w2) root2 q = Some (PyRef l2) ∧
          heap w2 !! l2 = Some (OVariable v2) ∧
          var_type v2 = var_type v ∧
          (∀ name, name ≠ "_trace_state" → var_vars v2 !! name = var_vars v !! name) ∧
          (∀ hook_sem, var_vars v !! "get_value_hooks" = Some (PyHooks []) →
             (value hook_sem l2 w2).1 = (value hook_sem l w).1).
Proof.
  intros Hkeys Hsnap Hdepth.
  destruct (flatten_unflatten w depth root Hkeys Hsnap Hdepth)
    as (gd & rm & entries & Hflatten & Hflat & Hun).
  destruct (Hun None) as (root2 & ir & w2 & Hunflatten & Hinv & Hrel); [done|].
  exists gd, entries.*2, rm. split; [done|].
  assert (∀ p l v,
    resolve (heap w) root p = Some (PyRef l) →
    heap w !! l = Some (OVariable v) →
    ∃ l2, resolve (heap w2) root2 p = Some (PyRef l2) ∧ maps_to rm ir l l2) as Hpath.
  { intros p l v Hp Hl.
    destruct (resolve_rebuilt _ _ _ _ _ p root root2 _ Hinv Hrel Hp) as (y' & Hy' & Hrel').
    unfold val_rel in Hrel'. rewrite Hl in Hrel'.
    destruct Hrel' as (l2 & -> & Hmaps). by exists l2. }
  split.
  - intros p l v Hp Hl.
    destruct (Hpath p l v Hp Hl) as (l2 & _ & (i & Hi & _)).
    destruct (proj1 (Flat_entries_ok w) _ _ _ _ _ _ Hflat) as (Hnd & Hin & Hall).
    apply (one_entry entries l); [done| |].
    + apply (Hall l v); [done|apply lookup_empty|by eexists].
    + intros e He.
      rewrite (proj1 (Flat_resolve w root Hkeys) _ _ _ _ _ _ Hflat eq_refl e He).
      split; [by intros [= ->]|by intros ->].
  - exists root2, ir, w2. split; [done|].
    intros p q l v Hp Hq Hl.
    destruct (Hpath p l v Hp Hl) as (l2 & Hp2 & Hmaps).
    destruct (Hpath q l v Hq Hl) as (l2' & Hq2 & Hmaps').
    assert (l2' = l2) as ->.
    { destruct Hmaps as (i & Hi & Hi'), Hmaps' as (j & Hj & Hj'). congruence. }
    assert (l ∈ dom rm) as Hdone.
    { destruct Hmaps as (i & Hi & _). apply elem_of_dom. eauto. }
    pose proof (rb_done _ _ _ _ _ _ Hinv l l2 Hdone Hmaps) as Hobj.
    unfold obj_rel in Hobj. rewrite Hl in Hobj. destruct Hobj as [ts Hts].
    exists l2, (MkVar (var_type v) (<["_trace_state" := ts]> (var_vars v))).
    do 4 (split; [done|]). split.
    + intros name Hname. simpl. by rewrite lookup_insert_ne.
    + intros hook_sem Hhooks.
      rewrite (value_without_hooks hook_sem w l v) by done.
      rewrite (value_without_hooks hook_sem w2 l2 _ Hts).
      * simpl. by rewrite lookup_insert_ne.
      * simpl. by rewrite lookup_insert_ne.
Qed.

Lemma unflatten_children_keys path state cache children :
  ∀ ir w items ir' w',
    unflatten_children path state cache children ir w = (inr (items, ir'), w') →
    items.*1 = children.*1.
Proof.
  induction children as [|[key child] rest IH]; intros ir w items ir' w' Hrun.
  - by injection Hrun as <- _ _.
  - rewrite unflatten_children_cons in Hrun. unfold bind at 1 in Hrun.
    destruct (unflatten_rec child (path ++ [key]) state cache ir w)
      as [[e|[item ir1]] w1]; [done|].
    unfold bind at 1 in Hrun.
    destruct (unflatten_children path state cache rest ir1 w1)
      as [[e|[items1 ir2]] w2] eqn:Hrest; [done|].
    injection Hrun as <- _ _. simpl. f_equal. by eapply IH.
Qed.

(** ** [unflatten] against a cache, for every State *)

Lemma slots_NodeDef type index children path :
  slots (NodeDef type index children) path = slots_children path children.
Proof. reflexivity. Qed.

Lemma slots_children_cons path key child rest :
  slots_children path ((key, child) :: rest) =
    slots child (path ++ [key]) ++ slots_children path rest.
Proof. reflexivity. Qed.

Lemma node_defs_NodeDef type index children :
  node_defs (NodeDef type index children) =
    (index, type, children) :: node_defs_children children.
Proof. reflexivity. Qed.

Lemma node_defs_children_cons key child rest :
  node_defs_children ((key, child) :: rest) =
    node_defs child ++ node_defs_children rest.
Proof. reflexivity. Qed.

Lemma fits_node_true w cache n :
  fits_node w cache n = true ↔
  ∃ l old, cache !! n.1.1 = Some l ∧ heap w !! l = Some (ONode n.1.2 old).
Proof.
  unfold fits_node. split.
  - destruct (cache !! n.1.1) as [l|] eqn:Hc; [|done].
    destruct (heap w !! l) as [[| |type old]|] eqn:Hl; try done.
    intros ->%bool_decide_eq_true. by exists l, old.
  - intros (l & old & -> & ->). by apply bool_decide_eq_true.
Qed.

Lemma fits_slot_true w cache e :
  fits_slot w cache e = true ↔
  ∃ l v, cache !! e.2 = Some l ∧ heap w !! l = Some (OVariable v) ∧
         is_Some (var_vars v !! "_trace_state").
Proof.
  unfold fits_slot. split.
  - destruct (cache !! e.2) as [l|] eqn:Hc; [|done].
    destruct (heap w !! l) as [[v| |]|] eqn:Hl; try done.
    intros Hts%bool_decide_eq_true. by exists l, v.
  - intros (l & v & -> & -> & Hts). by apply bool_decide_eq_true.
Qed.

Lemma fits_node_frame w w' cache n :
  (∀ l, cache !! n.1.1 = Some l → heap w' !! l = heap w !! l) →
  fits_node w cache n = true → fits_node w' cache n = true.
Proof.
  intros Hsame (l & old & Hc & Hl)%fits_node_true. apply fits_node_true.
  exists l, old. split; [done|]. by rewrite Hsame.
Qed.

Lemma fits_slot_frame w w' cache e :
  (∀ l, cache !! e.2 = Some l → heap w' !! l = heap w !! l) →
  fits_slot w cache e = true → fits_slot w' cache e = true.
Proof.
  intros Hsame (l & v & Hc & Hl & Hts)%fits_slot_true. apply fits_slot_true.
  exists l, v. split; [done|]. by rewrite Hsame.
Qed.

Lemma NoDup_fmap_eq {A B} (f : A → B) (l : list A) x y :
  NoDup (f <$> l) → x ∈ l → y ∈ l → f x = f y → x = y.
Proof.
  induction l as [|a l IH]; intros Hnd Hx Hy Hf.
  - by apply elem_of_nil in Hx.
  - rewrite fmap_cons in Hnd. apply NoDup_cons in Hnd as [Hnotin Hnd].
    apply elem_of_cons in Hx as [->|Hx]; apply elem_of_cons in Hy as [->|Hy].
    + done.
    + exfalso. apply Hnotin. rewrite Hf. by apply list_elem_of_fmap_2.
    + exfalso. apply Hnotin. rewrite <- Hf. by apply list_elem_of_fmap_2.
    + by apply IH.
Qed.

Lemma cache_injective_inj cache :
  cache_injective cache = true →
  ∀ i j l, cache !! i = Some l → cache !! j = Some l → i = j.
Proof.
  intros Hnd%bool_decide_eq_true i j l Hi%elem_of_map_to_list Hj%elem_of_map_to_list.
  by pose proof (NoDup_fmap_eq snd _ (i, l) (j, l) Hnd Hi Hj eq_refl) as [= ->].
Qed.

Lemma elem_of_node_indices (nodes : list (nat * string * list (Key * GraphDef))) n :
  n ∈ nodes → n.1.1 ∈ nodes.*1.*1.
Proof. intros Hn. by do 2 apply list_elem_of_fmap_2. Qed.

Section cached.
Variable state : State.
Variable cache : gmap nat loc.
Hypothesis cache_inj : ∀ i j l, cache !! i = Some l → cache !! j = Some l → i = j.

Lemma unflatten_children_cached children :
  Forall (λ kc, unflatten_cached state cache kc.2) children →
  ∀ path ir w ps seen,
    cached_ready cache (node_defs_children children) (slots_children path children) ir w →
    expected_paths_children path children (dom ir) = Some (ps, seen) →
    present state ps →
    ∃ ir' w',
      unflatten_children path state (Some cache) children ir w =
        (inr (cached_items cache children, ir'), w') ∧
      cached_run state cache (node_defs_children children)
        (slots_children path children) ir w seen ir' w'.
Proof.
  induction 1 as [|[key child] rest Hchild _ IH]; intros path ir w ps seen Hready Hexp Hpres.
  - simpl in Hexp. injection Hexp as <- <-. exists ir, w. split; [done|].
    destruct Hready as (Hsub & _). split; try done.
    + intros i. simpl. rewrite !elem_of_nil. tauto.
    + intros n Hn. by apply elem_of_nil in Hn.
  - destruct Hready as (Hsub & Hnd & Hfresh & Hnodes & Hslots).
    rewrite node_defs_children_cons in Hnd, Hfresh, Hnodes.
    rewrite slots_children_cons in Hfresh, Hslots.
    rewrite node_defs_children_cons, slots_children_cons.
    rewrite expected_paths_children_cons in Hexp. simpl in Hchild.
    destruct (expected_paths child (path ++ [key]) (dom ir))
      as [[ps1 seen1]|] eqn:E1; [|done].
    destruct (expected_paths_children path rest seen1) as [[ps2 seen2]|] eqn:E2; [|done].
    injection Hexp as <- <-.
    apply Forall_app in Hpres as [Hp1 Hp2].
    rewrite !fmap_app in Hnd, Hfresh.
    apply NoDup_app in Hnd as (Hnd1 & Hdisj & Hnd2).
    apply Forall_app in Hfresh as [Hfresh1 Hfresh2].
    apply Forall_app in Hnodes as [Hnodes1 Hnodes2].
    apply Forall_app in Hslots as [Hslots1 Hslots2].
    rewrite Forall_forall in Hfresh1. rewrite Forall_forall in Hfresh2.
    rewrite Forall_forall in Hnodes2. rewrite Forall_forall in Hslots2.
    destruct (Hchild (path ++ [key]) ir w ps1 seen1)
      as (ir1 & w1 & Hrun1 & [Hg1 Hc1 Hs1 Hd1 Ha1 Hf1 Hv1 Hn1]); [|done|done|].
    { split; [done|]. split; [done|]. split; [|split; [done|done]].
      apply Forall_forall. intros i Hi. destruct (Hfresh1 i Hi) as [Hi1 Hi2].
      split; [done|]. intros Hin. apply Hi2. rewrite fmap_app. apply elem_of_app. by left. }
    assert (∀ i, i ∈ (node_defs_children rest).*1.*1 → i ∉ dom ir1) as Hnew2.
    { intros i Hi Hin. apply Hd1 in Hin. destruct (Hfresh2 i Hi) as [Hi1 Hi2].
      destruct Hin as [Hin|[Hin|Hin]]; [done|by apply (Hdisj i)|].
      apply Hi2. rewrite fmap_app. apply elem_of_app. by left. }
    destruct (IH path ir1 w1 ps2 seen2)
      as (ir2 & w2 & Hrun2 & [Hg2 Hc2 Hs2 Hd2 Ha2 Hf2 Hv2 Hn2]); [|by rewrite Hs1|done|].
    { split; [done|]. split; [done|]. split; [|split].
      - apply Forall_forall. intros i Hi. split; [by apply Hnew2|].
        destruct (Hfresh2 i Hi) as [_ Hi2].
        intros Hin. apply Hi2. rewrite fmap_app. apply elem_of_app. by right.
      - apply Forall_forall. intros n Hn.
        eapply fits_node_frame; [|by apply Hnodes2].
        intros l Hl. apply Hf1. intros j Hj.
        assert (j = n.1.1) as -> by (by eapply cache_inj).
        pose proof (elem_of_node_indices _ _ Hn) as Hin.
        destruct (Hfresh2 _ Hin) as [_ Hi2].
        right. split.
        + intros Hc. by apply (Hdisj _ Hc).
        + intros Hc. apply Hi2. rewrite fmap_app. apply elem_of_app. by left.
      - apply Forall_forall. intros e He.
        destruct (decide (e.2 ∈ dom ir1)) as [Hin|Hout]; [by left|]. right.
        destruct (Hslots2 e He) as [Hin|Hfit].
        { exfalso. apply Hout. apply Hd1. by left. }
        eapply fits_slot_frame; [|done].
        intros l Hl. apply Hf1. intros j Hj.
        assert (j = e.2) as -> by (by eapply cache_inj).
        right. split; intros Hc; apply Hout; apply Hd1; [right; by left|right; by right]. }
    exists ir2, w2. split.
    { rewrite unflatten_children_cons. unfold bind at 1. rewrite Hrun1.
      unfold bind at 1. rewrite Hrun2. reflexivity. }
    split.
    + by etrans.
    + done.
    + done.
    + intros i. rewrite Hd2, Hd1, !fmap_app, !elem_of_app. tauto.
    + by rewrite Ha2, Ha1.
    + intros l Hl. rewrite Hf2, Hf1; [done| |].
      * intros i Hi. destruct (Hl i Hi) as [?|[H1 H2]]; [by left|right].
        rewrite !fmap_app, !not_elem_of_app in H1.
        rewrite !fmap_app, !not_elem_of_app in H2. tauto.
      * intros i Hi. destruct (Hl i Hi) as [?|[H1 H2]].
        { left. apply Hd1. by left. }
        right. rewrite !fmap_app, !not_elem_of_app in H1.
        rewrite !fmap_app, !not_elem_of_app in H2. tauto.
    + intros i k p Hi Hfind.
      apply list_find_app_Some in Hfind as [Hfind|(Hlen & Hnone & Hfind)].
      * destruct (Hv1 i k p Hi Hfind) as (l & v & ts & s & Hc & Hw & Hts & Hs & Hw1).
        exists l, v, ts, s. repeat (split; [done|]).
        rewrite Hf2; [done|]. intros j Hj.
        assert (j = i) as -> by (by eapply cache_inj).
        left. apply Hd1. right; right.
        apply list_find_Some in Hfind as (Hin%list_elem_of_lookup_2 & _ & _).
        apply list_elem_of_fmap. by exists (p, i).
      * assert (i ∈ (slots_children path rest).*2) as Hin2.
        { apply list_find_Some in Hfind as (Hin%list_elem_of_lookup_2 & _ & _).
          apply list_elem_of_fmap. by exists (p, i). }
        assert (i ∉ (slots child (path ++ [key])).*2) as Hout1.
        { intros (e & He & Hin)%list_elem_of_fmap.
          rewrite list_find_None, Forall_forall in Hnone. by apply (Hnone e). }
        assert (i ∉ (node_defs child).*1.*1) as Hnode1.
        { intros Hin. destruct (Hfresh1 i Hin) as [_ Hi2].
          apply Hi2. rewrite fmap_app. apply elem_of_app. by right. }
        assert (i ∉ dom ir1) as Hi1.
        { intros Hin. apply Hd1 in Hin. tauto. }
        destruct (Hv2 i _ p Hi1 Hfind) as (l & v & ts & s & Hc & Hw & Hts & Hs & Hw2).
        exists l, v, ts, s. repeat (split; [done|]). split; [|done].
        rewrite <- Hw. symmetry. apply Hf1. intros j Hj.
        assert (j = i) as -> by (by eapply cache_inj). by right.
    + intros n [Hn|Hn]%elem_of_app.
      * destruct (Hn1 n Hn) as (l & Hc & Hw1). exists l. split; [done|].
        rewrite Hf2; [done|]. intros j Hj.
        assert (j = n.1.1) as -> by (by eapply cache_inj).
        left. apply Hd1. right; left. by apply elem_of_node_indices.
      * by apply Hn2.
Qed.

Lemma unflatten_rec_cached g : unflatten_cached state cache g.
Proof.
  induction g as [type index children IH|index|x|index] using GraphDef_induction;
    intros path ir w ps seen (Hsub & Hnd & Hfresh & Hnodes & Hslots) Hexp Hpres.
  - (* a node: the cached object, emptied and filled again *)
    rewrite node_defs_NodeDef in Hnd, Hfresh, Hnodes.
    rewrite slots_NodeDef in Hfresh, Hslots.
    rewrite node_defs_NodeDef, slots_NodeDef.
    rewrite expected_paths_NodeDef in Hexp.
    rewrite !fmap_cons in Hnd, Hfresh. simpl in Hnd, Hfresh.
    apply NoDup_cons in Hnd as [Hnotin Hnd].
    apply Forall_cons in Hfresh as [[Hidx1 Hidx2] Hfresh].
    apply Forall_cons in Hnodes as [Hroot Hnodes].
    apply fits_node_true in Hroot as (l & old & Hc & Hl). simpl in Hc, Hl.
    rewrite Forall_forall in Hfresh. rewrite Forall_forall in Hnodes.
    rewrite Forall_forall in Hslots.
    set (w1 := set_heap (insert l (ONode type [])) w).
    assert (∀ l', l' ≠ l → heap w1 !! l' = heap w !! l') as Hw1.
    { intros l' Hne. simpl. by rewrite lookup_insert_ne. }
    destruct (unflatten_children_cached children IH path (<[index := l]> ir) w1 ps seen)
      as (ir2 & w2 & Hrun & [Hg2 Hc2 Hs2 Hd2 Ha2 Hf2 Hv2 Hn2]);
      [|by rewrite dom_insert_L|done|].
    { split; [by apply insert_subseteq_l|]. split; [done|]. split; [|split].
      - apply Forall_forall. intros i Hi. destruct (Hfresh i Hi) as [Hi1 Hi2].
        split; [|done]. rewrite dom_insert_L, not_elem_of_union, not_elem_of_singleton.
        split; [|done]. by intros ->.
      - apply Forall_forall. intros n Hn.
        eapply fits_node_frame; [|by apply Hnodes].
        intros l' Hl'. apply Hw1. intros ->.
        apply Hnotin. rewrite (cache_inj _ _ _ Hc Hl').
        by apply elem_of_node_indices.
      - apply Forall_forall. intros e He.
        destruct (Hslots e He) as [Hin|Hfit].
        { left. rewrite dom_insert_L. apply elem_of_union. by right. }
        right. eapply fits_slot_frame; [|done].
        intros l' Hl'. apply Hw1. intros ->.
        apply fits_slot_true in Hfit as (l' & v & Hc' & Hv & _).
        congruence. }
    assert (l ∈ dom (heap w)) as Hdom by (apply elem_of_dom; eauto).
    exists ir2, (set_heap (insert l (ONode type (cached_items cache children))) w2).
    split.
    { rewrite unflatten_rec_NodeDef. unfold cached. rewrite Hc.
      unfold bind at 1. unfold reuse_node, bind at 1, get_world at 1. rewrite Hl.
      rewrite decide_True by done.
      unfold bind at 1, modify_heap at 1, ret at 1. fold w1.
      unfold bind at 1. rewrite Hrun.
      unfold init_node, bind, modify_heap, ret. simpl. by rewrite Hc. }
    assert (index ∉ dom ir) as Hout by done.
    split.
    + etrans; [|done]. apply insert_subseteq. by apply not_elem_of_dom.
    + done.
    + done.
    + intros i. rewrite Hd2, dom_insert_L, elem_of_union, elem_of_singleton.
      rewrite !fmap_cons, elem_of_cons. simpl. tauto.
    + simpl. rewrite dom_insert_L, Ha2. simpl. rewrite dom_insert_L.
      apply set_eq. intros a. rewrite !elem_of_union, elem_of_singleton.
      split; [|tauto]. intros [->|[->|?]]; tauto.
    + intros l' Hl'.
      assert (l' ≠ l) as Hne.
      { intros ->. destruct (Hl' index Hc) as [?|[Hno _]]; [done|].
        apply Hno. rewrite !fmap_cons. by left. }
      simpl. rewrite lookup_insert_ne by done. rewrite Hf2; [by apply Hw1|].
      intros i Hi. destruct (Hl' i Hi) as [?|[H1 H2]].
      * left. rewrite dom_insert_L. apply elem_of_union. by right.
      * right. rewrite !fmap_cons, not_elem_of_cons in H1. simpl in H1. tauto.
    + intros i k p Hi Hfind.
      assert (i ∈ (slots_children path children).*2) as Hin.
      { apply list_find_Some in Hfind as (Hin%list_elem_of_lookup_2 & _ & _).
        apply list_elem_of_fmap. by exists (p, i). }
      assert (i ≠ index) as Hne by (by intros ->).
      destruct (Hv2 i k p) as (l' & v & ts & s & Hc' & Hw' & Hts & Hs & Hw2); [|done|].
      { rewrite dom_insert_L, not_elem_of_union, not_elem_of_singleton. done. }
      assert (l' ≠ l) as Hne'.
      { intros ->. apply Hne. by eapply cache_inj. }
      exists l', v, ts, s. repeat (split; [done|]). split.
      * by rewrite <- Hw1.
      * simpl. by rewrite lookup_insert_ne.
    + intros n [->|Hn]%elem_of_cons.
      * exists l. split; [done|]. simpl. apply lookup_insert_eq.
      * destruct (Hn2 n Hn) as (l' & Hc' & Hw2). exists l'. split; [done|].
        assert (l' ≠ l) as Hne'.
        { intros ->. apply Hnotin. rewrite (cache_inj _ _ _ Hc Hc').
          by apply elem_of_node_indices. }
        simpl. by rewrite lookup_insert_ne.
  - (* a reference to a node registered before *)
    simpl in Hexp. case_decide as Hin; [|done]. injection Hexp as <- <-.
    apply elem_of_dom in Hin as [l Hl].
    exists ir, w. split.
    { simpl. rewrite Hl. by rewrite (lookup_weaken _ _ _ _ Hl Hsub). }
    split; try done.
    + intros i. simpl. rewrite !elem_of_nil. tauto.
    + intros n Hn. by apply elem_of_nil in Hn.
  - (* a leaf *)
    simpl in Hexp. injection Hexp as <- <-. exists ir, w. split; [done|].
    split; try done.
    + intros i. simpl. rewrite !elem_of_nil. tauto.
    + intros n Hn. by apply elem_of_nil in Hn.
  - (* a Variable *)
    simpl in Hexp. case_decide as Hin.
    + (* met before *)
      injection Hexp as <- <-. apply elem_of_dom in Hin as [l Hl].
      exists ir, w. split.
      { simpl. rewrite Hl. by rewrite (lookup_weaken _ _ _ _ Hl Hsub). }
      split; try done.
      * intros i. simpl. rewrite elem_of_nil, list_elem_of_singleton. split; [tauto|].
        intros [?|[[]| ->]]; [done|]. apply elem_of_dom. eauto.
      * intros i k p Hi Hfind. simpl in Hfind. case_decide as Heq; [|done].
        injection Hfind as <- <- <-. simpl in Hi. exfalso. apply Hi, elem_of_dom. eauto.
      * intros n Hn. by apply elem_of_nil in Hn.
    + (* for the first time: written in place from the State *)
      injection Hexp as <- <-. apply not_elem_of_dom in Hin as Hnone.
      apply Forall_cons in Hpres as [[s Hs] _].
      simpl in Hslots. apply Forall_cons in Hslots as [[Hbad|Hfit] _]; [done|].
      apply fits_slot_true in Hfit as (l & v & Hc & Hl & [ts Hts]). simpl in Hc.
      exists (<[index := l]> ir),
        (set_heap (insert l (updated_from v ts s)) w).
      split.
      { simpl. rewrite Hnone, Hs, Hc. unfold bind at 1. unfold bind at 1.
        by rewrite (update_from_state_run l v ts). }
      split.
      * by apply insert_subseteq.
      * by apply insert_subseteq_l.
      * by rewrite dom_insert_L.
      * intros i. rewrite dom_insert_L, elem_of_union, elem_of_singleton.
        simpl. rewrite elem_of_nil, list_elem_of_singleton. tauto.
      * simpl. rewrite dom_insert_L. apply set_eq. intros a.
        rewrite elem_of_union, elem_of_singleton. split; [|tauto].
        intros [->|?]; [|done]. apply elem_of_dom. eauto.
      * intros l' Hl'. simpl. rewrite lookup_insert_ne; [done|]. intros <-.
        destruct (Hl' index Hc) as [?|[_ Hno]]; [done|].
        apply Hno. simpl. by left.
      * intros i k p Hi Hfind. simpl in Hfind. case_decide as Heq; [|done].
        injection Hfind as <- <- <-. simpl.
        exists l, v, ts, s. repeat (split; [done|]). apply lookup_insert_eq.
      * intros n Hn. by apply elem_of_nil in Hn.
Qed.

End cached.

Lemma forallb_Forall {A} (f : A → bool) (l : list A) :
  forallb f l = true → Forall (λ x, f x = true) l.
Proof.
  induction l as [|a l IH]; simpl; [constructor|].
  intros [Ha Hl]%andb_true_iff. constructor; [done|by apply IH].
Qed.

(** C2: a call of [unflatten] whose cache has the root's index returns
    the very object the cache holds for it, an object that existed
    before the call: a node, with the rebuilt children written into it
    in place, or a Variable, with the snapshot's value and metadata
    written into it in place.  More generally, when the cache holds an
    object of the right kind for every index of the GraphDef (distinct
    objects under distinct indices) and the State has the entries the
    GraphDef asks for, the call returns the cached root and allocates
    nothing; every Variable of the graph, at whatever depth, is the
    cached object, keeps its type and its own trace state and has
    exactly the value and the metadata of the State entry at the first
    path that reaches it; every node is the cached object and holds
    the cached objects of its children; and no other object changes.
    In particular, flattening a graph and unflattening the result
    against the cache that inverts the RefMap gives back the root passed
    in, and every object of the heap is again what it was. *)
Theorem cached_unflatten_identity :
  (∀ w type index children state index_ref cache l root index_ref' w',
     cache !! index = Some l →
     unflatten (NodeDef type index children) state index_ref (Some cache) w =
       (inr (root, index_ref'), w') →
     root = PyRef l ∧ l ∈ dom (heap w) ∧
     ∃ items w2,
       unflatten_children [] state (Some cache) children (<[index := l]> index_ref)
         (set_heap (insert l (ONode type [])) w) = (inr (items, index_ref'), w2) ∧
       heap w' = <[l := ONode type items]> (heap w2) ∧
       items.*1 = children.*1) ∧
  (∀ w index state cache l root index_ref' w',
     cache !! index = Some l →
     unflatten (VariableSlot index) state ∅ (Some cache) w =
       (inr (root, index_ref'), w') →
     root = PyRef l ∧
     ∃ v ts snapshot,
       heap w !! l = Some (OVariable v) ∧
       var_vars v !! "_trace_state" = Some ts ∧
       lookup_state [] state = Some snapshot ∧
       heap w' = <[l := OVariable (MkVar (var_type v)
                    (<["_trace_state" := ts]>
                       (<["raw_value" := vs_value snapshot]> (vs_metadata snapshot))))]>
                   (heap w)) ∧
  (∀ w graphdef state cache paths seen,
     distinct_indices graphdef = true →
     cache_injective cache = true →
     cache_fits w cache graphdef = true →
     Forall (λ entry, entry.1 ∈ slot_paths graphdef []) state →
     expected_paths graphdef [] ∅ = Some (paths, seen) →
     present state paths →
     ∃ index_ref w',
       unflatten graphdef state ∅ (Some cache) w =
         (inr (cached_value cache graphdef, index_ref), w') ∧
       dom (heap w') = dom (heap w) ∧
       (∀ index k path,
          list_find (λ e, e.2 = index) (slots graphdef []) = Some (k, (path, index)) →
          ∃ l v ts snapshot,
            cache !! index = Some l ∧
            heap w !! l = Some (OVariable v) ∧
            var_vars v !! "_trace_state" = Some ts ∧
            lookup_state path state = Some snapshot ∧
            heap w' !! l = Some (OVariable (MkVar (var_type v)
              (<["_trace_state" := ts]>
                 (<["raw_value" := vs_value snapshot]> (vs_metadata snapshot)))))) ∧
       (∀ index type children,
          (index, type, children) ∈ node_defs graphdef →
          ∃ l, cache !! index = Some l ∧
               heap w' !! l = Some (ONode type (cached_items cache children))) ∧
       (∀ l, (∀ index, cache !! index = Some l →
                (index ∉ node_indices graphdef) ∧ (index ∉ slot_indices graphdef)) →
             heap w' !! l = heap w !! l)) ∧
  (∀ w depth root,
     distinct_keys (heap w) → snapshotable w → size (dom (heap w)) < depth →
     ∃ graphdef state ref_index index_ref w2,
       flatten depth root ∅ w = (inr (graphdef, state, ref_index), w) ∧
       unflatten graphdef state ∅ (Some (invert ref_index)) w =
         (inr (root, index_ref), w2) ∧
       heap w2 = heap w).
Proof.
  split; [|split; [|split]].
  - intros w type index children state index_ref cache l root index_ref' w' Hhit Hrun.
    unfold unflatten in Hrun.
    destruct (list_find _ state) as [[i [q s]]|]; [done|].
    rewrite unflatten_rec_NodeDef in Hrun. simpl in Hrun. rewrite Hhit in Hrun.
    unfold bind at 1 in Hrun. unfold reuse_node, bind at 1, get_world in Hrun.
    destruct (heap w !! l) as [[| |type' old]|] eqn:Hl; try done.
    destruct (decide (type' = type)) as [->|]; [|done].
    simpl in Hrun. unfold bind at 1 in Hrun.
    destruct (unflatten_children [] state (Some cache) children
                (<[index := l]> index_ref) (set_heap (insert l (ONode type [])) w))
      as [[e|[items ir2]] w2] eqn:Hchildren; [done|].
    injection Hrun as <- <- <-.
    split; [done|]. split; [apply elem_of_dom; eauto|].
    exists items, w2. split; [done|]. split; [done|].
    by eapply unflatten_children_keys.
  - intros w index state cache l root index_ref' w' Hhit Hrun.
    unfold unflatten in Hrun.
    destruct (list_find _ state) as [[i [q s]]|]; [done|].
    simpl in Hrun. rewrite lookup_empty in Hrun.
    destruct (lookup_state [] state) as [snapshot|] eqn:Hsnapshot; [|done].
    rewrite Hhit in Hrun. unfold bind at 1 in Hrun. unfold bind at 1 in Hrun.
    destruct (heap w !! l) as [[v| |]|] eqn:Hl;
      try (unfold update_from_state, getattr, bind, get_variable in Hrun;
           by rewrite Hl in Hrun).
    destruct (var_vars v !! "_trace_state") as [ts|] eqn:Hts.
    2:{ unfold update_from_state, getattr, bind, get_variable in Hrun.
        by rewrite Hl, Hts in Hrun. }
    rewrite (update_from_state_run l v ts) in Hrun by done.
    injection Hrun as <- <- <-. split; [done|].
    by exists v, ts, snapshot.
  - intros w graphdef state cache paths seen Hwf Hinj Hfits Hstate Hexp Hpres.
    pose proof (cache_injective_inj cache Hinj) as Hinj'.
    apply andb_true_iff in Hwf as [Hnd%bool_decide_eq_true Hdisj%forallb_Forall].
    apply andb_true_iff in Hfits as [Hnodes%forallb_Forall Hslots%forallb_Forall].
    destruct (unflatten_rec_cached state cache Hinj' graphdef [] ∅ w paths seen)
      as (ir & w' & Hrun & [Hg Hc Hs Hd Ha Hf Hv Hn]); [|by rewrite dom_empty_L|done|].
    { split; [apply map_empty_subseteq|]. split; [done|]. split; [|split; [done|]].
      - eapply Forall_impl; [exact Hdisj|]. intros i Hi%bool_decide_eq_true.
        split; [|done]. rewrite dom_empty_L. apply not_elem_of_empty.
      - eapply Forall_impl; [exact Hslots|]. intros e He. by right. }
    exists ir, w'. split; [|split; [done|split; [|split]]].
    + unfold unflatten.
      destruct (list_find _ state) as [[i [q s]]|] eqn:Hfind; [|done].
      apply list_find_Some in Hfind as (Hin%list_elem_of_lookup_2 & Hbad & _).
      rewrite Forall_forall in Hstate. by apply Hstate in Hin.
    + intros index k path Hfind. apply (Hv index k path); [|done].
      rewrite dom_empty_L. apply not_elem_of_empty.
    + intros index type children Hin. apply (Hn (index, type, children) Hin).
    + intros l Hl. apply Hf. intros i Hi. right. by apply Hl.
  - intros w depth root Hkeys Hsnap Hdepth.
    destruct (flatten_unflatten w depth root Hkeys Hsnap Hdepth)
      as (gd & rm & entries & Hflatten & Hflat & Hun).
    pose proof (proj1 (Flat_refmap_ok w) _ _ _ _ _ _ Hflat refmap_ok_empty) as Hok.
    destruct (Hun (Some (invert rm))) as (root2 & ir & w2 & Hunflatten & Hinv & Hrel).
    { intros C [= <-] l i Hl. by apply invert_lookup. }
    exists gd, entries.*2, rm, ir, w2. split; [done|]. split.
    + rewrite Hunflatten. do 3 f_equal.
      unfold val_rel in Hrel. destruct root as [| | | | |l]; try done.
      assert (∀ l', maps_to rm ir l l' → l' = l) as Hsame.
      { intros l' (i & Hi & Hi').
        apply (rb_cached _ _ _ _ _ _ Hinv) in Hi'; [|done].
        by eapply (proj2 Hok). }
      destruct (heap w !! l) as [[| |]|]; try done;
        destruct Hrel as (l' & -> & Hmaps); by rewrite (Hsame _ Hmaps).
    + apply map_eq. intros a.
      destruct (decide (a ∈ dom rm)) as [Hin|Hout].
      { by apply (rb_restored _ _ _ _ _ _ Hinv). }
      destruct (decide (a ∈ dom (heap w))) as [Hold|Hnew].
      * apply (rb_untouched _ _ _ _ _ _ Hinv); [done|].
        intros i Hi. apply (rb_cached _ _ _ _ _ _ Hinv) in Hi; [|done].
        apply Hout, elem_of_dom. eauto.
      * rewrite (rb_nothing_new _ _ _ _ _ _ Hinv) by done.
        symmetry. by apply not_elem_of_dom.
Qed.

(** ** The scenarios of the test suite *)

Example shared_variables_test :
  (let result := fst (shared_variables world0) in
   match result with
   | inr (state, a, b, x) => length state = 1 ∧ a = b ∧ x = PyInt 1
   | inl _ => False
   end).
Proof. vm_compute. by repeat split. Qed.

Example unflatten_empty_test :
  fst (unflatten_empty world0) = inl (StructureMismatch [KInt 0; KStr "b"]).
Proof. vm_compute. reflexivity. Qed.

(** A cycle is rebuilt as a cycle: [o2.ref is o2], and with the cache
    [o3 is o] and [o3.ref is o]. *)
Example self_reference_test :
  fst (self_reference world0) = inr (PyRef 0, PyRef 1, PyRef 1, PyRef 0, PyRef 0).
Proof. vm_compute. reflexivity. Qed.

(** [m2 is m], [m2.a is b], [m2.b is a], with the values swapped. *)
Example cached_unflatten_swap_test :
  fst (cached_unflatten_swap world0) =
    inr (PyRef 2, PyRef 0, PyRef 1, (PyRef 2, PyRef 1, PyRef 0), (PyInt 2, PyInt 1)).
Proof. vm_compute. reflexivity. Qed.

Lemma shared_world_heap :
  heap shared_world =
    <[0 := OVariable (MkVar TParam (plain_vars (PyInt 1) 0))]>
      (<[1 := ONode "list" [(KInt 0, PyRef 0); (KInt 1, PyRef 0)]]> ∅).
Proof. vm_compute. reflexivity. Qed.

Lemma shared_world_distinct_keys : distinct_keys (heap shared_world).
Proof.
  rewrite shared_world_heap. unfold distinct_keys.
  apply map_Forall_insert_2; [done|].
  apply map_Forall_insert_2; [|apply map_Forall_empty].
  simpl. apply NoDup_cons. split; [|apply NoDup_singleton].
  by intros [=]%list_elem_of_singleton.
Qed.

Lemma shared_world_snapshotable : snapshotable shared_world.
Proof.
  unfold snapshotable. rewrite shared_world_heap.
  apply map_Forall_insert_2; [|apply map_Forall_insert_2; [done|apply map_Forall_empty]].
  eexists. vm_compute. reflexivity.
Qed.

Lemma sharing_fidelity_witness :
  ∃ graphdef state ref_index root2 index_ref w2 l2 v2,
    flatten 100 shared_list ∅ shared_world =
      (inr (graphdef, state, ref_index), shared_world) ∧
    length (filter (λ e, resolve (heap shared_world) shared_list e.1 = Some (PyRef 0))
                   state) = 1 ∧
    unflatten graphdef state ∅ None shared_world = (inr (root2, index_ref), w2) ∧
    resolve (heap w2) root2 [KInt 0] = Some (PyRef l2) ∧
    resolve (heap w2) root2 [KInt 1] = Some (PyRef l2) ∧
    heap w2 !! l2 = Some (OVariable v2) ∧
    var_vars v2 !! "raw_value" = Some (PyInt 1).
Proof.
  destruct (sharing_fidelity shared_world 100 shared_list)
    as (graphdef & state & ref_index & Hflatten & Hone & root2 & index_ref & w2
        & Hunflatten & Hshared).
  - apply shared_world_distinct_keys.
  - apply shared_world_snapshotable.
  - vm_compute. lia.
  - destruct (Hshared [KInt 0] [KInt 1] 0 (MkVar TParam (plain_vars (PyInt 1) 0)))
      as (l2 & v2 & H0 & H1 & Hv2 & _ & Hattrs & _).
    + vm_compute. reflexivity.
    + vm_compute. reflexivity.
    + vm_compute. reflexivity.
    + exists graphdef, state, ref_index, root2, index_ref, w2, l2, v2.
      repeat (split; [done|]). split.
      * apply (Hone [KInt 0] 0 (MkVar TParam (plain_vars (PyInt 1) 0)));
          vm_compute; reflexivity.
      * repeat (split; [done|]). rewrite Hattrs by done. vm_compute. reflexivity.
Defined.

Lemma cached_unflatten_identity_witness :
  ∃ index_ref w',
    unflatten (NodeDef "Foo" 0 swap_children) swap_new_state ∅ (Some swap_cache)
      swap_world =
      (inr (cached_value swap_cache (NodeDef "Foo" 0 swap_children), index_ref), w') ∧
    dom (heap w') = dom (heap swap_world) ∧
    (∀ index k path,
       list_find (λ e, e.2 = index) (slots (NodeDef "Foo" 0 swap_children) []) =
         Some (k, (path, index)) →
       ∃ l v ts snapshot,
         swap_cache !! index = Some l ∧
         heap swap_world !! l = Some (OVariable v) ∧
         var_vars v !! "_trace_state" = Some ts ∧
         lookup_state path swap_new_state = Some snapshot ∧
         heap w' !! l = Some (OVariable (MkVar (var_type v)
           (<["_trace_state" := ts]>
              (<["raw_value" := vs_value snapshot]> (vs_metadata snapshot)))))) ∧
    (∀ index type children,
       (index, type, children) ∈ node_defs (NodeDef "Foo" 0 swap_children) →
       ∃ l, swap_cache !! index = Some l ∧
            heap w' !! l = Some (ONode type (cached_items swap_cache children))) ∧
    (∀ l, (∀ index, swap_cache !! index = Some l →
             (index ∉ node_indices (NodeDef "Foo" 0 swap_children)) ∧
             (index ∉ slot_indices (NodeDef "Foo" 0 swap_children))) →
          heap w' !! l = heap swap_world !! l).
Proof.
  apply (proj1 (proj2 (proj2 cached_unflatten_identity)) swap_world
           (NodeDef "Foo" 0 swap_children) swap_new_state swap_cache
           [[KStr "a"]; [KStr "b"]] (list_to_set [0; 1; 2])).
  - vm_compute. reflexivity.
  - vm_compute. reflexivity.
  - vm_compute. reflexivity.
  - repeat constructor.
  - vm_compute. reflexivity.
  - repeat constructor; eexists; reflexivity.
Defined.

(** The swapped graph unflattened against the cache with a State of
    other contents: [m2 is m], [m2.a is b], [m2.b is a], and the two
    Variables now hold the new State, under their own trace state. *)
Example cached_unflatten_new_state :
  let result := unflatten (NodeDef "Foo" 0 swap_children) swap_new_state ∅
                  (Some swap_cache) swap_world in
  result.1 = inr (PyRef 2, list_to_map [(0, 2); (1, 1); (2, 0)]) ∧
  heap result.2 !! 2 = Some (ONode "Foo" [(KStr "a", PyRef 1); (KStr "b", PyRef 0)]) ∧
  heap result.2 !! 1 = Some (OVariable (MkVar TParam
    (<["_trace_state" := PyTraceState 0]>
       (<["raw_value" := PyInt 7]> (<["k" := PyInt 1]> ∅))))) ∧
  heap result.2 !! 0 = Some (OVariable (MkVar TParam
    (<["_trace_state" := PyTraceState 0]> (<["raw_value" := PyInt 9]> ∅)))).
Proof. repeat split; vm_compute; reflexivity. Qed.

Example swap_boundary_graphdef :
  (fst (swap_boundary world0)) =
    inr (NodeDef "Foo" 0 swap_children, swap_state, swap_cache).
Proof. vm_compute. reflexivity. Qed.

(** ** What [unflatten] expects of the State that [flatten] made *)

(** The indices a RefMap has given out. *)
Lemma index_seen rm l i :
  refmap_ok rm → rm !! l = Some i → i ∈ (set_seq 0 (size rm) : gset nat).
Proof. intros [Hb _] Hl%Hb. apply elem_of_set_seq. lia. Qed.

Lemma index_unseen rm : next_index rm ∉ (set_seq 0 (size rm) : gset nat).
Proof. unfold next_index. rewrite elem_of_set_seq. lia. Qed.

Lemma seen_insert rm l :
  rm !! l = None →
  ({[next_index rm]} ∪ set_seq 0 (size rm) : gset nat) =
    set_seq 0 (size (<[l := next_index rm]> rm)).
Proof.
  intros Hl. rewrite map_size_insert_None by done.
  rewrite set_seq_S_end_union_L. done.
Qed.

(** The State entries [flatten] makes are the entries [unflatten]
    expects, in the same order, and no NodeRef it emits dangles. *)
Lemma Flat_expected w :
  (∀ path x rm gd rm' entries, Flat w path x rm gd rm' entries →
     refmap_ok rm →
     expected_paths gd path (set_seq 0 (size rm)) =
       Some (entries.*2.*1, set_seq 0 (size rm'))) ∧
  (∀ path children rm defs rm' entries,
     FlatChildren w path children rm defs rm' entries →
     refmap_ok rm →
     expected_paths_children path defs (set_seq 0 (size rm)) =
       Some (entries.*2.*1, set_seq 0 (size rm'))).
Proof.
  apply Flat_mutind.
  - done.
  - intros path l v rm index _ Hrm Hok. simpl.
    rewrite decide_True; [done|]. by eapply index_seen.
  - intros path l v rm snapshot _ Hrm _ Hok. simpl.
    rewrite decide_False by apply index_unseen. by rewrite (seen_insert rm l).
  - intros path l type children rm index _ Hrm Hok. simpl.
    rewrite decide_True; [done|]. by eapply index_seen.
  - intros path l type children rm defs rm' entries _ Hrm _ IH Hok.
    rewrite expected_paths_NodeDef, (seen_insert rm l) by done.
    apply IH. by apply refmap_ok_insert.
  - done.
  - intros path key child rest rm def rm1 entries1 defs rm2 entries2
      Hflat1 IH1 _ IH2 Hok.
    rewrite expected_paths_children_cons, IH1 by done.
    rewrite IH2 by (by eapply (proj1 (Flat_refmap_ok w))).
    by rewrite !fmap_app.
Qed.

(** C3: for a GraphDef all of whose NodeRefs resolve, unflattening with
    a State that lacks the path of one of its leaf slots, for instance
    with the empty State when there is at least one leaf slot, raises
    StructureMismatch (expected key not found) and returns nothing.  So
    does unflattening, with the empty State, any GraphDef that [flatten]
    returned together with a State that is not empty. *)
Theorem unflatten_missing_state_entry :
  (∀ w graphdef paths seen,
     expected_paths graphdef [] ∅ = Some (paths, seen) →
     (∀ state, (∃ p, p ∈ paths ∧ lookup_state p state = None) →
        ∃ p w', unflatten graphdef state ∅ None w = (inl (StructureMismatch p), w')) ∧
     (paths ≠ [] →
        ∃ p w', unflatten graphdef [] ∅ None w = (inl (StructureMismatch p), w'))) ∧
  (∀ w depth root graphdef state ref_index w1,
     flatten depth root ∅ w = (inr (graphdef, state, ref_index), w1) →
     state ≠ [] →
     ∃ p w', unflatten graphdef [] ∅ None w1 = (inl (StructureMismatch p), w')).
Proof.
  assert (∀ w graphdef paths seen,
     expected_paths graphdef [] ∅ = Some (paths, seen) →
     ∀ state, (∃ p, p ∈ paths ∧ lookup_state p state = None) →
        ∃ p w', unflatten graphdef state ∅ None w = (inl (StructureMismatch p), w'))
    as Hgen.
  { intros w graphdef paths seen Hexp state (p & Hin & Hnone). unfold unflatten.
    destruct (list_find _ state) as [[i [q s]]|]; [by eexists _, _|].
    destruct (unflatten_rec_expected state graphdef [] ∅ w paths seen) as [_ Hbad].
    { by rewrite dom_empty_L. }
    apply Hbad. apply Exists_exists. eauto. }
  assert (∀ w graphdef paths seen,
     expected_paths graphdef [] ∅ = Some (paths, seen) → paths ≠ [] →
     ∃ p w', unflatten graphdef [] ∅ None w = (inl (StructureMismatch p), w'))
    as Hempty.
  { intros w graphdef paths seen Hexp Hne. eapply Hgen; [done|].
    destruct paths as [|p ps]; [done|]. exists p. split; [by left|done]. }
  split.
  - intros w graphdef paths seen Hexp. split; eauto.
  - intros w depth root graphdef state ref_index w1 Hflatten Hne.
    unfold flatten, bind in Hflatten.
    destruct (flatten_rec depth [] root ∅ [] w) as [[e|[[gd rm] st]] w2] eqn:Hrun;
      [done|].
    injection Hflatten as <- <- <- <-.
    destruct (flatten_rec_Flat _ _ _ _ _ _ _ _ Hrun) as (-> & entries & Hst & Hflat).
    simpl in Hst, Hflat. subst st.
    pose proof (proj1 (Flat_expected w) _ _ _ _ _ _ Hflat refmap_ok_empty) as Hexp.
    rewrite map_size_empty in Hexp. simpl in Hexp.
    eapply Hempty; [exact Hexp|].
    destruct entries; [done|]. done.
Qed.

Lemma unflatten_missing_state_entry_witness :
  (∀ state,
     (∃ p, p ∈ [[KInt 0; KStr "b"]; [KInt 3]] ∧ lookup_state p state = None) →
     ∃ p w', unflatten nested_graphdef state ∅ None nested_world =
               (inl (StructureMismatch p), w')) ∧
  ([[KInt 0; KStr "b"]; [KInt 3]] ≠ [] →
     ∃ p w', unflatten nested_graphdef [] ∅ None nested_world =
               (inl (StructureMismatch p), w')).
Proof.
  apply (proj1 unflatten_missing_state_entry nested_world nested_graphdef
           [[KInt 0; KStr "b"]; [KInt 3]] (list_to_set [0; 1; 2; 3])).
  vm_compute. reflexivity.
Defined.

(** * More of variablelib.py *)

(** ** Construction *)

Lemma set_heap_insert_twice l o o' w :
  set_heap (insert l o') (set_heap (insert l o) w) = set_heap (insert l o') w.
Proof. unfold set_heap. simpl. by rewrite insert_insert_eq. Qed.

Lemma setattr_at {B} hook_sem l cls attrs name val (k : M B) w :
  attrs !! "_trace_state" = Some (PyTraceState (current_trace w)) →
  name ≠ "value" →
  (_setattr hook_sem l name val ;; k)
    (set_heap (insert l (OVariable (MkVar cls attrs))) w) =
  k (set_heap (insert l (OVariable (MkVar cls (<[name := val]> attrs)))) w).
Proof.
  intros Hts Hname. unfold bind at 1.
  rewrite (_setattr_valid hook_sem _ l (MkVar cls attrs)); simpl.
  - by rewrite set_heap_insert_twice.
  - apply lookup_insert_eq.
  - done.
  - done.
Qed.

Lemma add_value_hooks_app hooks from_value :
  add_value_hooks hooks from_value = hooks ++ from_value.
Proof. destruct from_value; simpl; [by rewrite app_nil_r|done]. Qed.

Lemma truthy_hooks_tuple hooks :
  (if truthy hooks then hooks_tuple hooks else []) = hooks_tuple hooks.
Proof.
  destruct hooks as [h|hs]; simpl; [done|].
  case_bool_decide; simpl; by subst.
Qed.

Lemma keyword_clash_false params (d : gmap string PyVal) :
  keyword_clash params d = false ↔ Forall (λ p, d !! p = None) params.
Proof.
  unfold keyword_clash. induction params as [|p ps IH]; simpl.
  - split; [constructor|done].
  - rewrite orb_false_iff, IH, Forall_cons, bool_decide_eq_false.
    by rewrite <- eq_None_not_Some.
Qed.

Lemma to_state_run l v raw w :
  heap w !! l = Some (OVariable v) →
  var_vars v !! "raw_value" = Some raw →
  is_Some (var_vars v !! "_trace_state") →
  to_state l w =
    (if keyword_clash VariableState_params (var_vars v)
     then inl (TypeError "got multiple values for argument")
     else inr (MkState (var_type v) raw
                 (delete "_trace_state" (delete "raw_value" (var_vars v)))), w).
Proof.
  intros Hv Hraw [ts Hts]. py_run. rewrite lookup_delete_ne by done. py_run.
  rewrite !keyword_clash_delete
    by (unfold VariableState_params; rewrite !not_elem_of_cons;
        repeat split; try done; apply not_elem_of_nil).
  by destruct (keyword_clash VariableState_params (var_vars v)).
Qed.

Section construction.

Variable hook_sem : HookId → VarObj → PyVal → Exception + PyVal.
Variable class_vars : VarType → string → option HookId.

Lemma Variable__init___clash w cls value s g c a r metadata :
  keyword_clash Variable_params metadata = true →
  Variable__init__ hook_sem class_vars cls value s g c a r metadata w =
    (inl (TypeError "got multiple values for argument"), w).
Proof. intros Hclash. unfold Variable__init__. by rewrite Hclash. Qed.

Lemma Variable__init___returns w cls value s g c a r metadata l w' :
  Variable__init__ hook_sem class_vars cls value s g c a r metadata w = (inr l, w') →
  keyword_clash Variable_params metadata = false.
Proof.
  destruct (keyword_clash Variable_params metadata) eqn:Hclash; [|done].
  by rewrite Variable__init___clash.
Qed.

(** Metadata that does not clash with a parameter and names neither
    [_trace_state] nor [raw_value] names none of the attributes
    [__init__] fills by itself. *)
Lemma init_names_free (metadata : gmap string PyVal) :
  keyword_clash Variable_params metadata = false →
  metadata !! "_trace_state" = None → metadata !! "raw_value" = None →
  Forall (λ name, metadata !! name = None) init_names.
Proof.
  intros Hclash%keyword_clash_false Hts Hraw.
  unfold Variable_params in Hclash. revert Hclash. rewrite !Forall_cons.
  intros (_ & _ & H1 & H2 & H3 & H4 & H5 & _).
  unfold init_names. by repeat constructor.
Qed.

Lemma Variable__init___prefix w cls value s g c a r metadata :
  keyword_clash Variable_params metadata = false →
  let l := fresh (dom (heap w)) in
  let attrs :=
    init_vars (PyTraceState (current_trace w))
      (match value with inr value => vm_raw_value value | inl value => value end)
      (with_class_hook class_vars cls "on_get_value"
         (hooks_tuple g ++ from_value vm_get_value_hooks [] value))
      (with_class_hook class_vars cls "on_set_value"
         (hooks_tuple s ++ from_value vm_set_value_hooks [] value))
      (with_class_hook class_vars cls "on_create_value"
         (hooks_tuple c ++ from_value vm_create_value_hooks [] value))
      (with_class_hook class_vars cls "on_add_axis"
         (hooks_tuple a ++ from_value vm_add_axis_hooks [] value))
      (with_class_hook class_vars cls "on_remove_axis"
         (hooks_tuple r ++ from_value vm_remove_axis_hooks [] value))
      (dict_update metadata (from_value vm_metadata ∅ value)) in
  Variable__init__ hook_sem class_vars cls value s g c a r metadata w =
    (let* raw := getattr l "raw_value" in
     let* raw := create_value hook_sem l raw in
     _setattr hook_sem l "raw_value" raw ;;
     ret l) (set_heap (insert l (OVariable (MkVar cls attrs))) w).
Proof.
  intros Hclash l attrs. unfold Variable__init__. rewrite Hclash.
  unfold bind at 1. unfold TraceState_new at 1.
  unfold bind at 1. unfold alloc at 1. fold l.
  rewrite setattr_at by (done || apply lookup_insert_eq).
  do 5 (rewrite setattr_at
          by (done || (rewrite !lookup_insert_ne by done; apply lookup_insert_eq))).
  unfold bind at 1. unfold get_variable at 1. simpl heap.
  rewrite lookup_insert_eq.
  unfold bind at 1. unfold set_vars at 1.
  unfold bind at 1. unfold get_variable at 1. simpl heap.
  rewrite lookup_insert_eq. unfold modify_heap. rewrite set_heap_insert_twice.
  cbn [var_type var_vars].
  assert (∀ hooks proj, match value with
                        | inr value => add_value_hooks hooks (proj value)
                        | inl _ => hooks
                        end = hooks ++ from_value proj [] value) as Hhooks.
  { intros hooks proj. destruct value; simpl; [by rewrite app_nil_r|].
    apply add_value_hooks_app. }
  rewrite !Hhooks.
  assert (match value with
          | inr value => dict_update metadata (vm_metadata value)
          | inl _ => metadata
          end = dict_update metadata (from_value vm_metadata ∅ value)) as ->.
  { destruct value; simpl; [by rewrite dict_update_nothing|done]. }
  reflexivity.
Qed.


Lemma init_vars_own ts raw g s c a r metadata :
  Forall (λ name, metadata !! name = None) init_names →
  init_vars ts raw g s c a r metadata !! "_trace_state" = Some ts ∧
  init_vars ts raw g s c a r metadata !! "raw_value" = Some raw ∧
  init_vars ts raw g s c a r metadata !! "get_value_hooks" = Some (PyHooks g) ∧
  init_vars ts raw g s c a r metadata !! "set_value_hooks" = Some (PyHooks s) ∧
  init_vars ts raw g s c a r metadata !! "create_value_hooks" = Some (PyHooks c) ∧
  init_vars ts raw g s c a r metadata !! "add_axis_hooks" = Some (PyHooks a) ∧
  init_vars ts raw g s c a r metadata !! "remove_axis_hooks" = Some (PyHooks r).
Proof.
  unfold init_names. rewrite !Forall_cons. intros (H1 & H2 & H3 & H4 & H5 & H6 & H7 & _).
  unfold init_vars, dict_update.
  repeat split; (rewrite lookup_union_r by done);
    (rewrite ?lookup_insert_ne by done); apply lookup_insert_eq.
Qed.

Lemma init_vars_metadata ts raw g s c a r metadata name x :
  metadata !! name = Some x →
  init_vars ts raw g s c a r metadata !! name = Some x.
Proof. intros H. unfold init_vars, dict_update. by apply lookup_union_Some_l. Qed.

Lemma Variable__init___suffix w l cls attrs raw hooks :
  attrs !! "_trace_state" = Some (PyTraceState (current_trace w)) →
  attrs !! "raw_value" = Some raw →
  attrs !! "create_value_hooks" = Some (PyHooks hooks) →
  (let* raw := getattr l "raw_value" in
   let* raw := create_value hook_sem l raw in
   _setattr hook_sem l "raw_value" raw ;;
   ret l) (set_heap (insert l (OVariable (MkVar cls attrs))) w) =
  match run_hooks hook_sem hooks (MkVar cls attrs) raw with
  | inr raw' =>
      (inr l, set_heap (insert l (OVariable
                 (MkVar cls (<["raw_value" := raw']> attrs)))) w)
  | inl e => (inl e, set_heap (insert l (OVariable (MkVar cls attrs))) w)
  end.
Proof.
  intros Hts Hraw Hhooks.
  unfold bind at 1. unfold getattr at 1, bind at 1, get_variable at 1.
  simpl heap. rewrite lookup_insert_eq. cbn [var_vars]. rewrite Hraw.
  unfold ret at 1.
  unfold bind at 1. unfold create_value at 1.
  unfold bind at 1. unfold getattr at 1, bind at 1, get_variable at 1.
  simpl heap. rewrite lookup_insert_eq. cbn [var_vars]. rewrite Hhooks.
  unfold ret at 1. unfold bind at 1. unfold as_hooks, ret at 1.
  unfold bind at 1. unfold get_variable at 1.
  simpl heap. rewrite lookup_insert_eq. unfold lift.
  destruct (run_hooks hook_sem hooks (MkVar cls attrs) raw) as [e|raw']; [done|].
  by rewrite setattr_at.
Qed.

(** X1: a constructor call whose metadata names a parameter ([self],
    [value] or a hook keyword given besides) raises [TypeError] and
    makes nothing.  Any other call with a plain value allocates a new
    instance and never fails with a trace error.  Its hook tuples are
    the given ones with the [on_*] method of the class in front, its
    other attributes are the metadata, and its [raw_value] is the
    create hooks applied in order to the given value; the get and set
    hooks are stored, not run.  If a create hook raises, the constructor
    raises that error. *)
Theorem construction_runs_create_hooks w cls val s g c a r metadata :
  (keyword_clash Variable_params metadata = true →
     Variable__init__ hook_sem class_vars cls (inl val) s g c a r metadata w =
       (inl (TypeError "got multiple values for argument"), w)) ∧
  (keyword_clash Variable_params metadata = false →
   metadata !! "_trace_state" = None → metadata !! "raw_value" = None →
   let l := fresh (dom (heap w)) in
   let create_value_hooks :=
     with_class_hook class_vars cls "on_create_value" (hooks_tuple c) in
   let attrs :=
     init_vars (PyTraceState (current_trace w)) val
       (with_class_hook class_vars cls "on_get_value" (hooks_tuple g))
       (with_class_hook class_vars cls "on_set_value" (hooks_tuple s))
       create_value_hooks
       (with_class_hook class_vars cls "on_add_axis" (hooks_tuple a))
       (with_class_hook class_vars cls "on_remove_axis" (hooks_tuple r))
       metadata in
   (l ∉ dom (heap w)) ∧
   (∀ name x, metadata !! name = Some x → attrs !! name = Some x) ∧
   Variable__init__ hook_sem class_vars cls (inl val) s g c a r metadata w =
     match run_hooks hook_sem create_value_hooks (MkVar cls attrs) val with
     | inr raw =>
         (inr l, set_heap (insert l (OVariable
                    (MkVar cls (<["raw_value" := raw]> attrs)))) w)
     | inl e => (inl e, set_heap (insert l (OVariable (MkVar cls attrs))) w)
     end).
Proof.
  split; [apply Variable__init___clash|].
  intros Hclash Hts0 Hraw0 l create_value_hooks attrs.
  pose proof (init_names_free metadata Hclash Hts0 Hraw0) as Hmd.
  split; [apply is_fresh|]. split.
  { intros name x. apply init_vars_metadata. }
  rewrite Variable__init___prefix by done. simpl from_value.
  rewrite !app_nil_r, dict_update_nothing. fold create_value_hooks attrs l.
  destruct (init_vars_own (PyTraceState (current_trace w)) val
    (with_class_hook class_vars cls "on_get_value" (hooks_tuple g))
    (with_class_hook class_vars cls "on_set_value" (hooks_tuple s))
    create_value_hooks
    (with_class_hook class_vars cls "on_add_axis" (hooks_tuple a))
    (with_class_hook class_vars cls "on_remove_axis" (hooks_tuple r))
    metadata Hmd) as (Hts & Hraw & _ & _ & Hc & _).
  by apply Variable__init___suffix.
Qed.


Lemma Variable__init___suffix_inv w l cls attrs l' w' :
  (let* raw := getattr l "raw_value" in
   let* raw := create_value hook_sem l raw in
   _setattr hook_sem l "raw_value" raw ;;
   ret l) (set_heap (insert l (OVariable (MkVar cls attrs))) w) = (inr l', w') →
  l' = l ∧
  ∃ raw, w' = set_heap (insert l (OVariable
                (MkVar cls (<["raw_value" := raw]> attrs)))) w.
Proof.
  unfold bind at 1. unfold getattr at 1, bind at 1, get_variable at 1.
  simpl heap. rewrite lookup_insert_eq. cbn [var_vars].
  destruct (attrs !! "raw_value") as [raw|]; [|done].
  unfold ret at 1.
  unfold bind at 1. unfold create_value at 1.
  unfold bind at 1. unfold getattr at 1, bind at 1, get_variable at 1.
  simpl heap. rewrite lookup_insert_eq. cbn [var_vars].
  destruct (attrs !! "create_value_hooks") as [hooks|]; [|done].
  unfold ret at 1. unfold bind at 1.
  destruct hooks as [| | |hooks| |]; try done.
  unfold as_hooks, ret at 1.
  unfold bind at 1. unfold get_variable at 1.
  simpl heap. rewrite lookup_insert_eq. unfold lift.
  destruct (run_hooks hook_sem hooks (MkVar cls attrs) raw) as [e|raw']; [done|].
  unfold bind at 1. rewrite _setattr_entry by done. unfold setattr_entry.
  unfold bind at 1. unfold getattr at 1, bind at 1, get_variable at 1.
  simpl heap. rewrite lookup_insert_eq. cbn [var_vars].
  destruct (attrs !! "_trace_state") as [ts|]; [|done].
  unfold ret at 1. unfold bind at 1.
  destruct ts as [| | | |t|]; try done.
  unfold is_valid. simpl current_trace.
  case_bool_decide; [|done]. cbn [negb].
  unfold vars_setitem, set_vars, bind, get_variable, modify_heap, ret.
  unfold set_heap. simpl. repeat (rewrite lookup_insert_eq; simpl).
  rewrite ?insert_insert_eq.
  intros [= <- <-]. split; [done|]. by exists raw'.
Qed.


Lemma with_metadata_run {Args : Type} (initializer : Args → M PyVal) args
    s g c a r metadata w :
  with_metadata initializer s g c a r metadata args w =
    if keyword_clash with_metadata_params metadata
    then (inl (TypeError "got multiple values for argument"), w)
    else
      match initializer args w with
      | (inr raw, w1) =>
          (inr (MkMetadata raw (hooks_tuple s) (hooks_tuple g) (hooks_tuple c)
                  (hooks_tuple a) (hooks_tuple r) metadata), w1)
      | (inl e, w1) => (inl e, w1)
      end.
Proof.
  unfold with_metadata. destruct (keyword_clash with_metadata_params metadata); [done|].
  rewrite !truthy_hooks_tuple. unfold bind.
  by destruct (initializer args w) as [[e|raw] w1].
Qed.

(** X2: [with_metadata] with metadata that names one of its parameters
    raises [TypeError] before the initializer runs, and so does the
    constructor, after it, when its own metadata names one of its
    parameters.  Otherwise a Variable built from the [VariableMetadata]
    that a [with_metadata] initializer returns runs the hooks given to
    the constructor before those given to [with_metadata] (the class's
    own [on_*] method before both), and takes its attributes from both
    metadata, those of [with_metadata] winning where the names clash. *)
Theorem with_metadata_precedence {Args : Type} (initializer : Args → M PyVal) args
    w raw w1 cls s g c a r metadata s' g' c' a' r' metadata' :
  initializer args w = (inr raw, w1) →
  let construct :=
    let* value := with_metadata initializer s' g' c' a' r' metadata' args in
    Variable__init__ hook_sem class_vars cls (inr value) s g c a r metadata in
  (keyword_clash with_metadata_params metadata' = true →
     construct w = (inl (TypeError "got multiple values for argument"), w)) ∧
  (keyword_clash with_metadata_params metadata' = false →
   keyword_clash Variable_params metadata = true →
     construct w = (inl (TypeError "got multiple values for argument"), w1)) ∧
  (keyword_clash with_metadata_params metadata' = false →
   keyword_clash Variable_params metadata = false →
   Forall (λ name, dict_update metadata metadata' !! name = None) init_names →
   let l := fresh (dom (heap w1)) in
   let create_value_hooks :=
     with_class_hook class_vars cls "on_create_value"
       (hooks_tuple c ++ hooks_tuple c') in
   let attrs :=
     init_vars (PyTraceState (current_trace w1)) raw
       (with_class_hook class_vars cls "on_get_value" (hooks_tuple g ++ hooks_tuple g'))
       (with_class_hook class_vars cls "on_set_value" (hooks_tuple s ++ hooks_tuple s'))
       create_value_hooks
       (with_class_hook class_vars cls "on_add_axis" (hooks_tuple a ++ hooks_tuple a'))
       (with_class_hook class_vars cls "on_remove_axis" (hooks_tuple r ++ hooks_tuple r'))
       (dict_update metadata metadata') in
   (∀ name x, metadata' !! name = Some x → attrs !! name = Some x) ∧
   (∀ name x, metadata' !! name = None → metadata !! name = Some x →
      attrs !! name = Some x) ∧
   construct w =
     match run_hooks hook_sem create_value_hooks (MkVar cls attrs) raw with
     | inr raw' =>
         (inr l, set_heap (insert l (OVariable
                    (MkVar cls (<["raw_value" := raw']> attrs)))) w1)
     | inl e => (inl e, set_heap (insert l (OVariable (MkVar cls attrs))) w1)
     end).
Proof.
  intros Hinit construct. split; [|split].
  - intros Hclash'. unfold construct. unfold bind at 1.
    by rewrite with_metadata_run, Hclash'.
  - intros Hclash' Hclash. unfold construct. unfold bind at 1.
    rewrite with_metadata_run, Hclash', Hinit.
    by apply Variable__init___clash.
  - intros Hclash' Hclash Hmd l create_value_hooks attrs. split; [|split].
    + intros name x Hx. apply init_vars_metadata.
      unfold dict_update. by apply lookup_union_Some_l.
    + intros name x Hnone Hx. apply init_vars_metadata.
      unfold dict_update. rewrite lookup_union_r; done.
    + unfold construct. unfold bind at 1.
      rewrite with_metadata_run, Hclash', Hinit.
      rewrite Variable__init___prefix by done. simpl from_value. cbn [vm_raw_value].
      fold create_value_hooks attrs l.
      destruct (init_vars_own (PyTraceState (current_trace w1)) raw
        (with_class_hook class_vars cls "on_get_value" (hooks_tuple g ++ hooks_tuple g'))
        (with_class_hook class_vars cls "on_set_value" (hooks_tuple s ++ hooks_tuple s'))
        create_value_hooks
        (with_class_hook class_vars cls "on_add_axis" (hooks_tuple a ++ hooks_tuple a'))
        (with_class_hook class_vars cls "on_remove_axis" (hooks_tuple r ++ hooks_tuple r'))
        (dict_update metadata metadata') Hmd) as (Hts & Hraw & _ & _ & Hc & _).
      by apply Variable__init___suffix.
Qed.

(** X3: whenever the construction of a Variable from a
    [with_partitioning] initializer returns, the new Variable carries
    the given [sharding] and [mesh] as attributes, whatever metadata the
    constructor was given besides. *)
Theorem with_partitioning_annotates {Args : Type} (initializer : Args → M PyVal) args
    w cls sharding mesh s g c a r metadata s' g' c' a' r' metadata' l w' :
  (let* value := with_partitioning initializer sharding mesh
                   s' g' c' a' r' metadata' args in
   Variable__init__ hook_sem class_vars cls (inr value) s g c a r metadata) w
    = (inr l, w') →
  ∃ v, heap w' !! l = Some (OVariable v) ∧ var_type v = cls ∧
       var_vars v !! "sharding" = Some sharding ∧
       var_vars v !! "mesh" = Some mesh.
Proof.
  unfold bind at 1. unfold with_partitioning.
  destruct (keyword_clash with_partitioning_params metadata'); [done|].
  rewrite with_metadata_run.
  destruct (keyword_clash with_metadata_params _); [done|].
  destruct (initializer args w) as [[e|raw] w1]; [done|].
  intros Hrun. pose proof (Variable__init___returns _ _ _ _ _ _ _ _ _ _ _ Hrun) as Hclash.
  rewrite Variable__init___prefix in Hrun by done. simpl from_value in Hrun.
  apply Variable__init___suffix_inv in Hrun as (-> & raw' & ->).
  eexists. split; [simpl; apply lookup_insert_eq|]. split; [done|].
  cbn [var_vars]. split.
  - rewrite lookup_insert_ne by done. apply init_vars_metadata.
    unfold dict_update. apply lookup_union_Some_l. apply lookup_insert_eq.
  - rewrite lookup_insert_ne by done. apply init_vars_metadata.
    unfold dict_update. apply lookup_union_Some_l.
    rewrite lookup_insert_ne by done. apply lookup_insert_eq.
Qed.

(** X4: [cls.state(value, **metadata)] with metadata that names a
    parameter of [state] ([cls], [value]) or of the constructor ([self])
    raises [TypeError] and makes nothing.  Otherwise it builds a
    Variable and snapshots it: the snapshot has the class as its type,
    the create hooks applied to the value as its value, and the five
    hook tuples next to the given metadata as its metadata. *)
Theorem Variable_state_snapshot w cls val s g c a r metadata raw :
  (keyword_clash state_params metadata = true ∨
   keyword_clash Variable_params metadata = true →
     Variable_state hook_sem class_vars cls (inl val) s g c a r metadata w =
       (inl (TypeError "got multiple values for argument"), w)) ∧
  (keyword_clash state_params metadata = false →
   keyword_clash Variable_params metadata = false →
   keyword_clash VariableState_params metadata = false →
   metadata !! "_trace_state" = None → metadata !! "raw_value" = None →
   let create_value_hooks :=
     with_class_hook class_vars cls "on_create_value" (hooks_tuple c) in
   let attrs :=
     init_vars (PyTraceState (current_trace w)) val
       (with_class_hook class_vars cls "on_get_value" (hooks_tuple g))
       (with_class_hook class_vars cls "on_set_value" (hooks_tuple s))
       create_value_hooks
       (with_class_hook class_vars cls "on_add_axis" (hooks_tuple a))
       (with_class_hook class_vars cls "on_remove_axis" (hooks_tuple r))
       metadata in
   run_hooks hook_sem create_value_hooks (MkVar cls attrs) val = inr raw →
   ∃ variable_state w',
     Variable_state hook_sem class_vars cls (inl val) s g c a r metadata w =
       (inr variable_state, w') ∧
     vs_type variable_state = cls ∧
     vs_value variable_state = raw ∧
     (∀ name, name ≠ "raw_value" → name ≠ "_trace_state" →
        vs_metadata variable_state !! name = attrs !! name) ∧
     vs_metadata variable_state !! "raw_value" = None ∧
     vs_metadata variable_state !! "_trace_state" = None).
Proof.
  split.
  { intros Hbad. unfold Variable_state.
    destruct (keyword_clash state_params metadata); [done|].
    destruct Hbad as [?|Hclash]; [done|].
    unfold bind. by rewrite Variable__init___clash. }
  intros Hstate Hinit Hclash Hts0 Hraw0 create_value_hooks attrs Hrun.
  pose proof (init_names_free metadata Hinit Hts0 Hraw0) as Hmd.
  destruct (init_vars_own (PyTraceState (current_trace w)) val
    (with_class_hook class_vars cls "on_get_value" (hooks_tuple g))
    (with_class_hook class_vars cls "on_set_value" (hooks_tuple s))
    create_value_hooks
    (with_class_hook class_vars cls "on_add_axis" (hooks_tuple a))
    (with_class_hook class_vars cls "on_remove_axis" (hooks_tuple r))
    metadata Hmd) as (Hts & Hraw & _ & _ & Hc & _).
  fold attrs in Hts, Hraw, Hc.
  eexists (MkState cls raw (delete "_trace_state" (delete "raw_value"
             (<["raw_value" := raw]> attrs)))), _.
  split; [|split; [done|split; [done|split; [|split]]]].
  - unfold Variable_state. rewrite Hstate. unfold bind at 1.
    rewrite Variable__init___prefix by done. simpl from_value.
    rewrite !app_nil_r, dict_update_nothing. fold create_value_hooks attrs.
    rewrite (Variable__init___suffix _ _ _ _ val create_value_hooks) by done.
    rewrite Hrun.
    rewrite (to_state_run _ (MkVar cls (<["raw_value" := raw]> attrs)) raw).
    + cbn [var_vars var_type].
      assert (keyword_clash VariableState_params (<["raw_value" := raw]> attrs)
              = false) as ->; [|reflexivity].
      apply keyword_clash_false. apply keyword_clash_false in Hclash.
      unfold VariableState_params in *. revert Hclash. rewrite !Forall_cons.
      intros (H1 & H2 & H3 & _). unfold attrs, init_vars, dict_update.
      repeat split; try done;
        rewrite lookup_insert_ne by done; rewrite lookup_union_r by done;
        rewrite !lookup_insert_ne by done; apply lookup_empty.
    + simpl. apply lookup_insert_eq.
    + simpl. apply lookup_insert_eq.
    + simpl. rewrite lookup_insert_ne by done. eauto.
  - intros name H1 H2. simpl.
    rewrite !lookup_delete_ne by done. by rewrite lookup_insert_ne.
  - simpl. rewrite lookup_delete_ne by done. apply lookup_delete_eq.
  - simpl. apply lookup_delete_eq.
Qed.

End construction.

(** ** Copies and snapshots *)

Lemma to_state_no_raw l v w :
  heap w !! l = Some (OVariable v) →
  var_vars v !! "raw_value" = None →
  to_state l w = (inl (KeyError "raw_value"), w).
Proof. intros Hv Hraw. by py_run. Qed.

(** X5: [v.copy()] returns a new instance of [v]'s type with [v]'s
    attributes and a trace state of its own, made now; [v] is left as it
    is.  The copy can therefore be mutated even when [v] is stale: an
    attribute assigned to it is stored, and an assignment of [.value]
    passes the trace check and reaches the setter, which stores what
    the set hooks make of a value that is not a Variable. *)
Theorem copy_is_fresh_and_mutable hook_sem w self v :
  heap w !! self = Some (OVariable v) →
  let l := fresh (dom (heap w)) in
  let v' := MkVar (var_type v)
              (<["_trace_state" := PyTraceState (current_trace w)]> (var_vars v)) in
  let w' := set_heap (insert l (OVariable v')) w in
  copy self w = (inr l, w') ∧
  (l ∉ dom (heap w)) ∧ l ≠ self ∧
  heap w' !! self = Some (OVariable v) ∧
  (∀ name val, name ≠ "value" →
     __setattr__ hook_sem l name val w' =
       (inr tt, set_heap (insert l (OVariable
          (MkVar (var_type v) (<[name := val]> (var_vars v'))))) w')) ∧
  (∀ val, __setattr__ hook_sem l "value" val w' = value_setter hook_sem l val w') ∧
  (∀ val hs, var_vars v !! "set_value_hooks" = Some (PyHooks hs) →
     is_Variable w' val = false →
     __setattr__ hook_sem l "value" val w' =
       match run_hooks hook_sem hs v' val with
       | inr val' =>
           (inr tt, set_heap (insert l (OVariable
              (MkVar (var_type v) (<["raw_value" := val']> (var_vars v'))))) w')
       | inl e => (inl e, w')
       end).
Proof.
  intros Hv l v' w'.
  assert (l ∉ dom (heap w)) as Hfresh by apply is_fresh.
  assert (l ≠ self) as Hne.
  { intros ->. apply Hfresh, elem_of_dom. eauto. }
  assert (heap w' !! l = Some (OVariable v')) as Hl.
  { simpl. apply lookup_insert_eq. }
  assert (var_vars v' !! "_trace_state" = Some (PyTraceState (current_trace w')))
    as Hts.
  { simpl. apply lookup_insert_eq. }
  split; [|split; [done|split; [done|split; [|split; [|split]]]]].
  - py_run. by rewrite dict_update_empty.
  - simpl. by rewrite lookup_insert_ne.
  - intros name val Hname. by apply (_setattr_valid hook_sem w' l v').
  - intros val. by apply (_setattr_value hook_sem w' l v').
  - intros val hs Hhs Hnv. unfold __setattr__.
    rewrite (_setattr_value hook_sem w' l v') by done.
    apply (value_setter_run hook_sem w' l v' hs val); try done.
    simpl. by rewrite lookup_insert_ne.
Qed.

(** X6: [type(v).from_metadata(v.raw_value, v.get_metadata())] does
    what [v.copy()] does, for every Variable that has a [raw_value] and
    a trace state, whatever its other attributes are called. *)
Theorem from_metadata_of_get_metadata_is_copy w self v :
  heap w !! self = Some (OVariable v) →
  is_Some (var_vars v !! "raw_value") →
  is_Some (var_vars v !! "_trace_state") →
  (let* metadata := get_metadata self in
   let* raw := getattr self "raw_value" in
   from_metadata (var_type v) raw metadata) w = copy self w.
Proof.
  intros Hv [raw Hraw] [ts Hts]. py_run.
  rewrite lookup_delete_ne by done. py_run.
  rewrite !dict_update_empty, !dict_update_insert, dict_update_nothing.
  do 5 f_equal. apply map_eq. intros k.
  destruct (decide (k = "_trace_state")) as [->|Hk1].
  { by rewrite !lookup_insert_eq. }
  rewrite !(lookup_insert_ne _ "_trace_state") by done.
  destruct (decide (k = "raw_value")) as [->|Hk2].
  { rewrite lookup_insert_eq. congruence. }
  rewrite lookup_insert_ne by done. by rewrite !lookup_delete_ne.
Qed.

(** X7: restoring the state [v.__getstate__()] into a blank instance of
    [v]'s type with [__setstate__] gives a new object with exactly [v]'s
    attributes, its trace state included: restored from a stale
    Variable, it is stale as well.  [__setstate__] itself never checks
    the trace: on an existing instance, stale or not, it merges the
    state into the attributes. *)
Theorem setstate_restores_getstate hook_sem w self v :
  heap w !! self = Some (OVariable v) →
  let l := fresh (dom (heap w)) in
  let w' := set_heap (insert l (OVariable v)) w in
  (let* state := __getstate__ self in
   let* obj := object_new (var_type v) in
   __setstate__ obj state ;;
   ret obj) w = (inr l, w') ∧
  l ≠ self ∧
  (stale w v →
     ∀ name val, _setattr hook_sem l name val w' = (inl TraceContextError, w')) ∧
  (∀ state, __setstate__ self state w =
     (inr tt, set_heap (insert self (OVariable
        (MkVar (var_type v) (dict_update (var_vars v) state)))) w)).
Proof.
  intros Hv l w'.
  assert (l ≠ self) as Hne.
  { intros Heq. apply (is_fresh (dom (heap w))). fold l. rewrite Heq.
    apply elem_of_dom. eauto. }
  split; [|split; [done|split]].
  - unfold __getstate__, object_new, __setstate__. py_run.
    unfold set_heap. simpl. repeat (rewrite lookup_insert_eq; simpl).
    rewrite insert_insert_eq, dict_update_empty. by destruct v.
  - intros Hstale name val. apply (_setattr_stale hook_sem w' l v); [|done].
    simpl. apply lookup_insert_eq.
  - intros state. unfold __setstate__. by py_run.
Qed.

Lemma update_from_state_at l v ts s w :
  heap w !! l = Some (OVariable v) →
  var_vars v !! "_trace_state" = Some ts →
  update_from_state l s w =
    (inr tt, set_heap (insert l (OVariable (MkVar (var_type v)
       (<["_trace_state" := ts]> (<["raw_value" := vs_value s]> (vs_metadata s)))))) w).
Proof.
  intros Hv Hts. py_run.
  by rewrite !dict_update_insert, dict_update_empty, dict_update_nothing.
Qed.

Lemma snapshot_metadata_back (metadata : gmap string PyVal) ts raw :
  metadata !! "raw_value" = None →
  metadata !! "_trace_state" = None →
  delete "_trace_state" (delete "raw_value"
    (<["_trace_state" := ts]> (<["raw_value" := raw]> metadata))) = metadata.
Proof.
  intros Hraw Hts. apply map_eq. intros k.
  destruct (decide (k = "_trace_state")) as [->|Hk1].
  { by rewrite lookup_delete_eq. }
  rewrite lookup_delete_ne by done.
  destruct (decide (k = "raw_value")) as [->|Hk2].
  { by rewrite lookup_delete_eq. }
  rewrite lookup_delete_ne by done. by rewrite !lookup_insert_ne.
Qed.

Lemma keyword_clash_snapshot (metadata : gmap string PyVal) ts raw :
  keyword_clash VariableState_params
    (<["_trace_state" := ts]> (<["raw_value" := raw]> metadata)) =
  keyword_clash VariableState_params metadata.
Proof.
  unfold keyword_clash, VariableState_params. simpl.
  by rewrite !lookup_insert_ne.
Qed.

(** X8: after [v.update_from_state(s)], [v.to_state()] gives back the
    value and the metadata of [s], under [v]'s own type: the type tag
    of the snapshot is neither checked nor taken over. *)
Theorem update_from_state_then_to_state w self v s :
  heap w !! self = Some (OVariable v) →
  is_Some (var_vars v !! "_trace_state") →
  keyword_clash VariableState_params (vs_metadata s) = false →
  vs_metadata s !! "raw_value" = None →
  vs_metadata s !! "_trace_state" = None →
  ∃ w', (update_from_state self s ;; to_state self) w =
          (inr (MkState (var_type v) (vs_value s) (vs_metadata s)), w').
Proof.
  intros Hv [ts Hts] Hclash Hraw Hnots. eexists.
  unfold bind at 1. rewrite (update_from_state_at _ v ts) by done.
  rewrite (to_state_run _ (MkVar (var_type v)
    (<["_trace_state" := ts]> (<["raw_value" := vs_value s]> (vs_metadata s))))
    (vs_value s)).
  - cbn [var_vars var_type]. rewrite keyword_clash_snapshot, Hclash.
    by rewrite snapshot_metadata_back.
  - simpl. apply lookup_insert_eq.
  - simpl. rewrite lookup_insert_ne by done. apply lookup_insert_eq.
  - simpl. rewrite lookup_insert_eq. eauto.
Qed.

(** X9: [s.to_variable().to_state()] is [s] again, for every snapshot
    whose metadata could have been passed to the constructor and names
    neither [raw_value] nor [_trace_state]. *)
Theorem to_variable_then_to_state w s :
  keyword_clash VariableState_params (vs_metadata s) = false →
  vs_metadata s !! "raw_value" = None →
  vs_metadata s !! "_trace_state" = None →
  ∃ w', (let* v := to_variable s in to_state v) w = (inr s, w').
Proof.
  intros Hclash Hraw Hts. eexists.
  unfold bind at 1. unfold to_variable, bind at 1, TraceState_new at 1, alloc.
  unfold VariableState_get_metadata.
  rewrite !dict_update_insert, dict_update_nothing.
  rewrite (to_state_run _ (MkVar (vs_type s)
    (<["_trace_state" := PyTraceState (current_trace w)]>
       (<["raw_value" := vs_value s]> (vs_metadata s))))
    (vs_value s)).
  - cbn [var_vars var_type]. rewrite keyword_clash_snapshot, Hclash.
    rewrite snapshot_metadata_back by done. by destruct s.
  - simpl. apply lookup_insert_eq.
  - simpl. rewrite lookup_insert_ne by done. apply lookup_insert_eq.
  - simpl. rewrite lookup_insert_eq. eauto.
Qed.

Lemma copy_from_at w a b va vb tsa tsb :
  heap w !! a = Some (OVariable va) →
  heap w !! b = Some (OVariable vb) →
  a ≠ b →
  var_type va = var_type vb →
  var_vars va !! "_trace_state" = Some tsa →
  var_vars vb !! "_trace_state" = Some tsb →
  copy_from a b w =
    (inr tt, set_heap (insert a (OVariable (MkVar (var_type va)
       (<["_trace_state" := tsa]> (var_vars vb))))) w).
Proof.
  intros Ha Hb Hne Hty Hta Htb. py_run.
  rewrite bool_decide_eq_true_2 by done. simpl.
  rewrite bool_decide_eq_false_2 by done. py_run.
  rewrite dict_update_insert, dict_update_empty, dict_update_nothing.
  by rewrite insert_delete_eq.
Qed.

(** X10: after [a.copy_from(b)] between Variables of one type,
    [a.to_state()] returns what [b.to_state()] returns, be it the
    snapshot or the error: the two differ in their trace state only,
    which a snapshot does not hold. *)
Theorem copy_from_then_same_snapshot w a b va vb :
  heap w !! a = Some (OVariable va) →
  heap w !! b = Some (OVariable vb) →
  var_type va = var_type vb →
  is_Some (var_vars va !! "_trace_state") →
  is_Some (var_vars vb !! "_trace_state") →
  ((copy_from a b ;; to_state a) w).1 = (to_state b w).1.
Proof.
  intros Ha Hb Hty [tsa Hta] [tsb Htb].
  destruct (decide (a = b)) as [->|Hne].
  { unfold bind at 1.
    assert (copy_from b b w = (inr tt, w)) as ->; [|done].
    py_run. rewrite bool_decide_eq_true_2 by done. simpl.
    by rewrite bool_decide_eq_true_2. }
  unfold bind at 1. rewrite (copy_from_at w a b va vb tsa tsb) by done.
  set (w1 := set_heap _ w).
  assert (heap w1 !! a = Some (OVariable (MkVar (var_type va)
            (<["_trace_state" := tsa]> (var_vars vb))))) as Ha1.
  { unfold w1. simpl. apply lookup_insert_eq. }
  destruct (var_vars vb !! "raw_value") as [raw|] eqn:Hraw.
  - rewrite (to_state_run a _ raw w1 Ha1);
      [|simpl; by rewrite lookup_insert_ne|simpl; rewrite lookup_insert_eq; eauto].
    rewrite (to_state_run b vb raw w Hb Hraw) by eauto.
    cbn [var_vars var_type fst].
    assert (keyword_clash VariableState_params
              (<["_trace_state" := tsa]> (var_vars vb)) =
            keyword_clash VariableState_params (var_vars vb)) as ->.
    { unfold keyword_clash, VariableState_params. simpl.
      by rewrite !lookup_insert_ne. }
    destruct (keyword_clash VariableState_params (var_vars vb)); [done|].
    rewrite Hty. do 2 f_equal. apply map_eq. intros k.
    destruct (decide (k = "_trace_state")) as [->|Hk1].
    { by rewrite !lookup_delete_eq. }
    rewrite !(lookup_delete_ne _ "_trace_state") by done.
    destruct (decide (k = "raw_value")) as [->|Hk2].
    { by rewrite !lookup_delete_eq. }
    rewrite !lookup_delete_ne by done. by rewrite lookup_insert_ne.
  - rewrite (to_state_no_raw a _ w1 Ha1) by (simpl; by rewrite lookup_insert_ne).
    by rewrite (to_state_no_raw b vb w Hb).
Qed.

(** ** [VariableState] as a pytree *)

Lemma py_dict_foldl (items : list (string * PyVal)) (d : gmap string PyVal) :
  foldl (λ d item, <[item.1 := item.2]> d) d items =
  list_to_map (reverse items) ∪ d.
Proof.
  revert d. induction items as [|[k x] items IH]; intros d; simpl.
  - by rewrite (left_id_L ∅ (∪)).
  - rewrite IH, reverse_cons, list_to_map_app. simpl.
    rewrite <- (assoc_L (∪)). f_equal.
    rewrite insert_empty. by rewrite <- insert_union_singleton_l.
Qed.

Lemma py_dict_items (d : gmap string PyVal) : py_dict (map_to_list d) = d.
Proof.
  unfold py_dict. rewrite py_dict_foldl, (right_id_L ∅ (∪)).
  rewrite <- (list_to_map_to_list d) at 2.
  apply list_to_map_proper.
  - rewrite fmap_reverse, reverse_Permutation. apply NoDup_fst_map_to_list.
  - apply reverse_Permutation.
Qed.

(** X11: a VariableState flattens to one child, its value, and a
    static part, its type and metadata items; unflattening the static
    part with the same child rebuilds the snapshot, and with another
    child gives what [replace] gives: the same type and metadata around
    the new value.  This holds for every snapshot whose metadata could
    have been passed to the constructor. *)
Theorem VariableState_pytree_round_trip (x : VariableState) w :
  keyword_clash VariableState_params (vs_metadata x) = false →
  (_variable_state_flatten x false).1 = [Unkeyed (vs_value x)] ∧
  (_variable_state_flatten x true).1 = [Keyed "value" (vs_value x)] ∧
  (_variable_state_flatten x true).2 = (_variable_state_flatten x false).2 ∧
  _variable_state_unflatten (_variable_state_flatten x false).2 (vs_value x, []) w
    = (inr x, w) ∧
  ∀ val,
    _variable_state_unflatten (_variable_state_flatten x false).2 (val, []) w
      = VariableState_replace x val w ∧
    VariableState_replace x val w
      = (inr (MkState (vs_type x) val (vs_metadata x)), w).
Proof.
  intros Hclash. split; [done|]. split; [done|]. split; [done|].
  unfold _variable_state_unflatten, _variable_state_flatten,
    VariableState_replace, VariableState_get_metadata. simpl.
  rewrite py_dict_items. unfold VariableState_init. rewrite Hclash.
  split; [by destruct x|]. intros val. by split.
Qed.

(** ** [split_flat_state] *)

Section split_flat_state_properties.

Context {P V : Type}.
Implicit Types (predicates : list (P → V → bool)) (flat_state : list (P * V)).

Lemma first_match_shift predicates i path value :
  first_match predicates i path value =
  (λ j, i + j) <$> first_match predicates 0 path value.
Proof.
  revert i. induction predicates as [|predicate rest IH]; intros i; simpl; [done|].
  destruct (predicate path value); simpl.
  - f_equal. lia.
  - rewrite (IH (S i)), (IH 1).
    destruct (first_match rest 0 path value); simpl; [|done]. f_equal. lia.
Qed.

Lemma first_match_Some predicates i entry :
  first_match predicates 0 entry.1 entry.2 = Some i ↔
  first_accepting predicates i entry.
Proof.
  unfold first_accepting. destruct entry as [path value]. simpl.
  revert i. induction predicates as [|predicate rest IH]; intros i; simpl.
  - split; [done|]. by intros (? & ? & _).
  - destruct (predicate path value) eqn:Hp.
    + split.
      * intros [= <-]. exists predicate. split; [done|]. split; [done|]. lia.
      * intros (q & Hq & Hacc & Hearlier). destruct i as [|i]; [done|].
        specialize (Hearlier 0 predicate). simpl in Hearlier.
        rewrite Hearlier in Hp; [done|lia|done].
    + rewrite first_match_shift. split.
      * destruct (first_match rest 0 path value) as [j|] eqn:Hj; [|done].
        simpl. intros [= <-].
        destruct (proj1 (IH j) eq_refl) as (q & Hq & Hacc & Hearlier).
        exists q. split; [done|]. split; [done|].
        intros [|k] earlier Hk; simpl; [by intros [= <-]|].
        apply Hearlier. lia.
      * intros (q & Hq & Hacc & Hearlier). destruct i as [|i].
        { simpl in Hq. simplify_eq. congruence. }
        simpl in Hq.
        assert (first_match rest 0 path value = Some i) as ->; [|done].
        apply IH. exists q. split; [done|]. split; [done|].
        intros j earlier Hj Hlook. apply (Hearlier (S j)); [lia|done].
Qed.

Lemma first_match_None predicates path value :
  first_match predicates 0 path value = None ↔
  Forall (λ predicate, predicate path value = false) predicates.
Proof.
  induction predicates as [|predicate rest IH]; simpl.
  - split; [constructor|done].
  - rewrite Forall_cons. destruct (predicate path value).
    + split; [done|]. by intros [? _].
    + rewrite first_match_shift, <- IH.
      destruct (first_match rest 0 path value); simpl; split; try done.
      by intros [_ ?].
Qed.

Lemma first_match_lt predicates path value i :
  first_match predicates 0 path value = Some i → i < length predicates.
Proof.
  intros H. apply (first_match_Some predicates i (path, value)) in H
    as (q & Hq & _).
  by apply lookup_lt_Some in Hq.
Qed.

Lemma split_loop_raises predicates flat_state flat_states :
  Exists (λ entry, Forall (λ predicate, predicate entry.1 entry.2 = false) predicates)
    flat_state →
  split_loop predicates flat_state flat_states =
    inl (ValueError "Non-exhaustive filters, got a non-empty remainder").
Proof.
  revert flat_states.
  induction flat_state as [|[path value] rest IH]; intros flat_states;
    rewrite ?Exists_nil, ?Exists_cons; [done|].
  intros Hex. simpl.
  destruct (first_match predicates 0 path value) as [i|] eqn:Hm; [|done].
  apply IH. destruct Hex as [Hhere|Hlater]; [|done].
  apply first_match_None in Hhere. simpl in Hhere. congruence.
Qed.

Lemma split_loop_returns predicates flat_state flat_states :
  Forall (λ entry, Exists (λ predicate, predicate entry.1 entry.2 = true) predicates)
    flat_state →
  ∃ groups, split_loop predicates flat_state flat_states = inr groups.
Proof.
  revert flat_states.
  induction flat_state as [|[path value] rest IH]; intros flat_states.
  { intros _. by eexists. }
  rewrite Forall_cons. intros [Hhere Hrest]. simpl.
  destruct (first_match predicates 0 path value) as [i|] eqn:Hm; [by apply IH|].
  apply first_match_None in Hm. simpl in Hhere.
  apply Exists_exists in Hhere as (q & Hq & Htrue).
  rewrite Forall_forall in Hm. rewrite (Hm q Hq) in Htrue. done.
Qed.

(** X12: [split_flat_state] returns exactly when every entry is
    accepted by some predicate, and raises the non-exhaustive-filters
    [ValueError] as soon as one entry is accepted by none: there is no
    list for a remainder.  In particular it raises for any non-empty
    input when no filter is given, and returns one empty list per
    predicate on an empty input. *)
Theorem split_flat_state_exhaustive flat_state predicates :
  (Forall (λ entry, Exists (λ predicate, predicate entry.1 entry.2 = true) predicates)
     flat_state →
   ∃ groups, split_flat_state flat_state predicates = inr groups) ∧
  (Exists (λ entry, Forall (λ predicate, predicate entry.1 entry.2 = false) predicates)
     flat_state →
   split_flat_state flat_state predicates =
     inl (ValueError "Non-exhaustive filters, got a non-empty remainder")) ∧
  (flat_state ≠ [] →
   split_flat_state flat_state [] =
     inl (ValueError "Non-exhaustive filters, got a non-empty remainder")) ∧
  split_flat_state [] predicates = inr (replicate (length predicates) []).
Proof.
  split; [|split; [|split]].
  - apply split_loop_returns.
  - apply split_loop_raises.
  - intros Hne. apply split_loop_raises.
    destruct flat_state as [|entry rest]; [done|].
    apply Exists_cons_hd. constructor.
  - done.
Qed.

Lemma split_loop_groups predicates flat_state : ∀ flat_states groups,
  split_loop predicates flat_state flat_states = inr groups →
  length groups = length flat_states ∧
  ∀ i l, flat_states !! i = Some l →
    groups !! i = Some (l ++ filter (λ entry,
      first_match predicates 0 entry.1 entry.2 = Some i) flat_state).
Proof.
  induction flat_state as [|[path value] rest IH]; intros flat_states groups; simpl.
  { intros [= <-]. split; [done|]. intros i l Hl. by rewrite app_nil_r. }
  destruct (first_match predicates 0 path value) as [j|] eqn:Hm; [|done].
  intros Hrun. apply IH in Hrun as [Hlen Hgroups].
  rewrite length_alter in Hlen. split; [done|].
  intros i l Hl. destruct (decide (i = j)) as [->|Hne].
  - rewrite (Hgroups j (l ++ [(path, value)])).
    + rewrite filter_cons_True by done. by rewrite <- app_assoc.
    + rewrite list_lookup_alter, decide_True, Hl by done. reflexivity.
  - rewrite (Hgroups i l).
    + rewrite filter_cons_False; [done|]. simpl. congruence.
    + by rewrite list_lookup_alter_ne.
Qed.

(** X13: when [split_flat_state] returns, it returns one list per
    predicate, and list [i] holds, in the order of the input, exactly
    the entries for which predicate [i] is the first one that accepts:
    an entry that several predicates accept goes to the first of them
    only. *)
Theorem split_flat_state_first_match flat_state predicates groups :
  split_flat_state flat_state predicates = inr groups →
  length groups = length predicates ∧
  (∀ i, i < length predicates →
     groups !! i = Some (filter (λ entry,
       first_match predicates 0 entry.1 entry.2 = Some i) flat_state)) ∧
  (∀ i entry, first_match predicates 0 entry.1 entry.2 = Some i ↔
     first_accepting predicates i entry).
Proof.
  intros Hrun. apply split_loop_groups in Hrun as [Hlen Hgroups].
  rewrite length_replicate in Hlen. split; [done|]. split.
  - intros i Hi. rewrite (Hgroups i []); [done|].
    by apply lookup_replicate_2.
  - intros i entry. apply first_match_Some.
Qed.

Lemma concat_alter_snoc {A} (x : A) (ls : list (list A)) j :
  j < length ls →
  concat (alter (λ l, l ++ [x]) j ls) ≡ₚ x :: concat ls.
Proof.
  revert j. induction ls as [|l ls IH]; intros j Hj; simpl in Hj; [lia|].
  destruct j as [|j].
  - change ((l ++ [x]) ++ concat ls ≡ₚ x :: (l ++ concat ls)).
    rewrite <- app_assoc. simpl. by rewrite <- Permutation_middle.
  - change (l ++ concat (alter (λ l, l ++ [x]) j ls) ≡ₚ x :: (l ++ concat ls)).
    rewrite IH by lia. by rewrite <- Permutation_middle.
Qed.

Lemma split_loop_permutation predicates flat_state : ∀ flat_states groups,
  length flat_states = length predicates →
  split_loop predicates flat_state flat_states = inr groups →
  concat groups ≡ₚ concat flat_states ++ flat_state.
Proof.
  induction flat_state as [|[path value] rest IH]; intros flat_states groups Hlen; simpl.
  { intros [= <-]. by rewrite app_nil_r. }
  destruct (first_match predicates 0 path value) as [j|] eqn:Hm; [|done].
  intros Hrun. apply IH in Hrun; [|by rewrite length_alter].
  rewrite Hrun, concat_alter_snoc.
  - by rewrite <- Permutation_middle.
  - rewrite Hlen. by eapply first_match_lt.
Qed.

(** X14: when [split_flat_state] returns, the lists it returns hold
    together the entries of the input, each one once: nothing is lost
    and nothing is put in two lists. *)
Theorem split_flat_state_permutation flat_state predicates groups :
  split_flat_state flat_state predicates = inr groups →
  concat groups ≡ₚ flat_state.
Proof.
  intros Hrun. apply split_loop_permutation in Hrun.
  - rewrite Hrun. clear Hrun.
    assert (concat (replicate (length predicates) ([] : list (P * V))) = []) as ->;
      [|done].
    induction (length predicates); simpl; done.
  - apply length_replicate.
Qed.

End split_flat_state_properties.

(** ** Programs over the API *)

Lemma effect_after_readonly {A B} (c : M A) (k : A → M B) w :
  readonly c → (∀ a, effect w (k a w).2) → effect w (bind c k w).2.
Proof.
  intros Hc Hk. unfold bind. specialize (Hc w).
  destruct (c w) as [[e|a] w1]; simpl in *; subst; [by apply unchanged|apply Hk].
Qed.

Lemma effect_before_readonly {A B} (c : M A) (k : A → M B) w :
  effect w (c w).2 → (∀ a, readonly (k a)) → effect w (bind c k w).2.
Proof.
  intros Hc Hk. unfold bind.
  destruct (c w) as [[e|a] w1]; simpl in *; [done|]. by rewrite Hk.
Qed.

Lemma effect_discard {A} (c : M A) w : effect w (c w).2 → effect w (discard c w).2.
Proof. intros Hc. apply effect_before_readonly; [done|]. intros a. apply readonly_ret. Qed.

Lemma readonly_TraceState_new : readonly TraceState_new.
Proof. done. Qed.

Lemma readonly_get_world : readonly get_world.
Proof. done. Qed.

Lemma readonly_lift {A} (r : Exception + A) : readonly (lift r).
Proof. done. Qed.

Lemma readonly_as_hooks x : readonly (as_hooks x).
Proof. unfold as_hooks. by destruct x. Qed.

Lemma readonly_get_metadata l : readonly (get_metadata l).
Proof.
  unfold get_metadata.
  repeat first
    [ apply readonly_get_variable
    | apply readonly_dict_del
    | apply readonly_ret
    | apply readonly_bind; [|intros ?] ].
Qed.

Lemma readonly_getstate l : readonly (__getstate__ l).
Proof.
  apply readonly_bind; [apply readonly_get_variable|]. intros v. apply readonly_ret.
Qed.

Lemma complete_var_insert v name val :
  complete_var v → complete_var (MkVar (var_type v) (<[name := val]> (var_vars v))).
Proof.
  intros [H1 H2]. split; simpl; apply lookup_insert_is_Some';  by right.
Qed.

Lemma complete_var_update v cls kwargs :
  complete_var v → complete_var (MkVar cls (dict_update (var_vars v) kwargs)).
Proof.
  intros [H1 H2]. unfold dict_update.
  split; simpl; apply lookup_union_is_Some; by right.
Qed.

Lemma complete_var_snapshot cls (metadata : gmap string PyVal) ts raw :
  complete_var (MkVar cls
    (dict_update metadata (<["_trace_state" := ts]> (<["raw_value" := raw]> ∅)))).
Proof.
  unfold dict_update. split; simpl; apply lookup_union_is_Some; left.
  - rewrite lookup_insert_ne by done. rewrite lookup_insert_eq. eauto.
  - rewrite lookup_insert_eq. eauto.
Qed.

Lemma setattr_entry_world self name val w :
  (setattr_entry self name val w).2 = w ∨
  ∃ v, heap w !! self = Some (OVariable v) ∧
       var_vars v !! "_trace_state" = Some (PyTraceState (current_trace w)) ∧
       (setattr_entry self name val w).2 =
         set_heap (insert self (OVariable
           (MkVar (var_type v) (<[name := val]> (var_vars v))))) w.
Proof.
  destruct (heap w !! self) as [[v| |]|] eqn:Hv; try (left; by py_run).
  destruct (var_vars v !! "_trace_state") as [[| | | |t|]|] eqn:Hts;
    try (left; by py_run).
  destruct (decide (t = current_trace w)) as [->|Hne].
  - right. exists v. split; [done|]. split; [done|].
    by rewrite (setattr_entry_valid w self v).
  - left. rewrite (setattr_entry_stale w self v); [done..|]. by exists t.
Qed.

Lemma effect_setattr_entry self name val w :
  effect w (setattr_entry self name val w).2.
Proof.
  destruct (setattr_entry_world self name val w) as [->|(v & Hv & Hts & ->)].
  - by apply unchanged.
  - eapply (updated w _ self v); [done..| |].
    + by right.
    + intros Hc. apply complete_var_insert. by apply (Hc self).
Qed.

Section effects.

Variable hook_sem : HookId → VarObj → PyVal → Exception + PyVal.
Variable class_vars : VarType → string → option HookId.

Lemma readonly_value l : readonly (value hook_sem l).
Proof.
  unfold value.
  apply readonly_bind; [apply readonly_getattr|]. intros val.
  apply readonly_bind; [apply readonly_getattr|]. intros hooks.
  apply readonly_bind; [apply readonly_as_hooks|]. intros hs.
  destruct hs; [apply readonly_ret|].
  apply readonly_bind; [apply readonly_get_variable|]. intros v. apply readonly_lift.
Qed.

Lemma readonly_create_value l val : readonly (create_value hook_sem l val).
Proof.
  unfold create_value.
  apply readonly_bind; [apply readonly_getattr|]. intros hooks.
  apply readonly_bind; [apply readonly_as_hooks|]. intros hs.
  apply readonly_bind; [apply readonly_get_variable|]. intros v. apply readonly_lift.
Qed.

Lemma effect_value_setter self val w :
  effect w (value_setter hook_sem self val w).2.
Proof.
  unfold value_setter.
  apply effect_after_readonly; [apply readonly_get_world|]. intros w0.
  destruct (is_Variable w0 val); [by apply unchanged|].
  apply effect_after_readonly; [apply readonly_getattr|]. intros hooks.
  apply effect_after_readonly; [apply readonly_as_hooks|]. intros hs.
  apply effect_after_readonly.
  - destruct hs; [apply readonly_ret|].
    apply readonly_bind; [apply readonly_get_variable|]. intros v.
    apply readonly_lift.
  - intros val'. apply effect_setattr_entry.
Qed.

Lemma effect__setattr self name val w :
  effect w (_setattr hook_sem self name val w).2.
Proof.
  destruct (decide (name = "value")) as [->|Hname].
  2:{ rewrite _setattr_entry by done. apply effect_setattr_entry. }
  destruct (heap w !! self) as [[v| |]|] eqn:Hv;
    try (apply unchanged; unfold _setattr, getattr, bind, get_variable;
         by rewrite Hv).
  destruct (var_vars v !! "_trace_state") as [[| | | |t|]|] eqn:Hts;
    try (apply unchanged;
         unfold _setattr, getattr, bind, get_variable, ret, is_valid;
         by rewrite Hv, Hts).
  destruct (decide (t = current_trace w)) as [->|Hne].
  - rewrite (_setattr_value hook_sem w self v) by done. apply effect_value_setter.
  - apply unchanged. rewrite (_setattr_stale hook_sem w self v); [done..|].
    by exists t.
Qed.

Lemma effect_copy_from self other w : effect w (copy_from self other w).2.
Proof.
  destruct (heap w !! self) as [[s| |]|] eqn:Hs; try (apply unchanged; by py_run).
  destruct (heap w !! other) as [[o| |]|] eqn:Ho; try (apply unchanged; by py_run).
  destruct (decide (var_type s = var_type o)) as [Hty|Hty].
  2:{ apply unchanged. py_run. by rewrite bool_decide_eq_false_2. }
  destruct (decide (self = other)) as [->|Hne].
  { apply unchanged. py_run. rewrite bool_decide_eq_true_2 by done. simpl.
    by rewrite bool_decide_eq_true_2. }
  destruct (var_vars s !! "_trace_state") as [tss|] eqn:Htss.
  2:{ apply unchanged. py_run. rewrite bool_decide_eq_true_2 by done. simpl.
      rewrite bool_decide_eq_false_2 by done. by py_run. }
  destruct (var_vars o !! "_trace_state") as [tso|] eqn:Htso.
  2:{ apply unchanged. py_run. rewrite bool_decide_eq_true_2 by done. simpl.
      rewrite bool_decide_eq_false_2 by done. by py_run. }
  rewrite (copy_from_at w self other s o tss tso) by done.
  eapply (updated w _ self s); [done..| | |].
  - done.
  - left. simpl. by rewrite lookup_insert_eq.
  - intros Hc. destruct (Hc other o Ho) as [Hraw _]. split; simpl.
    + by rewrite lookup_insert_ne.
    + rewrite lookup_insert_eq. eauto.
Qed.

Lemma effect_update_from_state self s w :
  effect w (update_from_state self s w).2.
Proof.
  destruct (heap w !! self) as [[v| |]|] eqn:Hv; try (apply unchanged; by py_run).
  destruct (var_vars v !! "_trace_state") as [ts|] eqn:Hts.
  2:{ apply unchanged. by py_run. }
  rewrite (update_from_state_at self v ts s w) by done.
  eapply (updated w _ self v); [done..| | |].
  - done.
  - left. simpl. by rewrite lookup_insert_eq.
  - intros _. split; simpl.
    + rewrite lookup_insert_ne by done. rewrite lookup_insert_eq. eauto.
    + rewrite lookup_insert_eq. eauto.
Qed.

Lemma effect_alloc cls attrs w :
  (complete w → complete_var (MkVar cls attrs)) →
  effect w (alloc (OVariable (MkVar cls attrs)) w).2.
Proof.
  intros Hc. eapply (created w _ (fresh (dom (heap w)))); [apply is_fresh|done..].
Qed.

Lemma effect_replace depth : ∀ self val kwargs w,
  effect w (replace depth self val kwargs w).2.
Proof.
  induction depth as [|depth IH]; intros self val0 kwargs0 w; [by apply unchanged|].
  cbn [replace]. unfold bind at 1. unfold lift.
  destruct (replace_bind val0 kwargs0) as [e|[val kwargs]]; [by apply unchanged|].
  cbv zeta. unfold bind at 1. unfold get_variable at 1.
  destruct (heap w !! self) as [[s| |]|] eqn:Hs; try by apply unchanged.
  unfold bind at 1. unfold get_world at 1.
  assert (effect w (alloc (OVariable (MkVar (var_type s)
            (dict_update ∅ (dict_update (var_vars s) (replace_kwargs val kwargs))))) w).2)
    as Hfresh.
  { apply effect_alloc. intros Hc. rewrite dict_update_empty.
    apply complete_var_update. by apply (Hc self). }
  destruct (replace_kwargs val kwargs !! "raw_value") as [[| | | | |other]|]; try done.
  destruct (heap w !! other) as [[o| |]|]; try done.
  destruct (bool_decide (var_type s = var_type o)); simpl; [|by apply unchanged].
  destruct (bool_decide (delete "raw_value" (replace_kwargs val kwargs) = ∅)); simpl.
  - by apply unchanged.
  - apply IH.
Qed.

Lemma effect_from_metadata cls val attributes w :
  effect w (from_metadata cls val attributes w).2.
Proof.
  unfold from_metadata. unfold bind, TraceState_new.
  apply effect_alloc. intros _. rewrite dict_update_empty.
  apply complete_var_snapshot.
Qed.

Lemma effect_to_variable s w : effect w (to_variable s w).2.
Proof.
  unfold to_variable. unfold bind, TraceState_new.
  apply effect_alloc. intros _. apply complete_var_snapshot.
Qed.

Lemma effect_copy self w : effect w (copy self w).2.
Proof.
  unfold copy. unfold bind at 1. unfold get_variable at 1.
  destruct (heap w !! self) as [[s| |]|] eqn:Hs; try by apply unchanged.
  unfold bind, TraceState_new.
  apply effect_alloc. intros Hc. rewrite dict_update_empty.
  apply (complete_var_insert s "_trace_state"). by apply (Hc self).
Qed.

Lemma init_vars_complete cls ts raw g s c a r metadata :
  complete_var (MkVar cls (init_vars ts raw g s c a r metadata)).
Proof.
  unfold init_vars, dict_update.
  split; simpl; apply lookup_union_is_Some; right.
  - rewrite !lookup_insert_ne by done. rewrite lookup_insert_eq. eauto.
  - rewrite !lookup_insert_ne by done. rewrite lookup_insert_eq. eauto.
Qed.

Lemma effect_Variable__init__ cls value s g c a r metadata w :
  effect w (Variable__init__ hook_sem class_vars cls value s g c a r metadata w).2.
Proof.
  destruct (keyword_clash Variable_params metadata) eqn:Hclash.
  { rewrite Variable__init___clash by done. by apply unchanged. }
  rewrite Variable__init___prefix by done.
  set (l := fresh (dom (heap w))). set (attrs := init_vars _ _ _ _ _ _ _ _).
  set (w1 := set_heap (insert l (OVariable (MkVar cls attrs))) w).
  assert (∀ w2,
    w2 = w1 ∨ (∃ raw, w2 = set_heap (insert l (OVariable
                        (MkVar cls (<["raw_value" := raw]> attrs)))) w) →
    effect w w2) as Hfinal.
  { intros w2 [->|[raw ->]].
    - eapply (created w _ l); [apply is_fresh|done|].
      intros _. apply init_vars_complete.
    - eapply (created w _ l); [apply is_fresh|done|].
      intros _. apply (complete_var_insert (MkVar cls attrs)), init_vars_complete. }
  apply Hfinal. unfold bind.
  pose proof (readonly_getattr l "raw_value" w1) as Hro.
  destruct (getattr l "raw_value" w1) as [[e|raw] w2]; simpl in Hro; subst w2;
    [by left|].
  pose proof (readonly_create_value l raw w1) as Hro.
  destruct (create_value hook_sem l raw w1) as [[e|raw'] w2]; simpl in Hro; subst w2;
    [by left|].
  rewrite _setattr_entry by done.
  destruct (setattr_entry_world l "raw_value" raw' w1) as [Hw|(v & Hv & _ & Hw)].
  - destruct (setattr_entry l "raw_value" raw' w1) as [[e|[]] w2]; simpl in *; subst;
      by left.
  - unfold w1 in Hv. simpl in Hv. rewrite lookup_insert_eq in Hv.
    injection Hv as <-. cbn [var_type var_vars] in Hw.
    unfold w1 in Hw at 2. rewrite set_heap_insert_twice in Hw.
    destruct (setattr_entry l "raw_value" raw' w1) as [[e|[]] w2]; simpl in *; subst;
      right; by exists raw'.
Qed.

Lemma run_call_effect c w : effect w (run_call hook_sem class_vars c w).2.
Proof.
  destruct c; cbn [run_call].
  - apply effect_discard, effect_Variable__init__.
  - apply effect__setattr.
  - apply effect_discard, unchanged, readonly_value.
  - apply effect__setattr.
  - apply effect_discard, unchanged, readonly_create_value.
  - apply effect_discard, unchanged, readonly_get_metadata.
  - apply effect_copy_from.
  - apply effect_update_from_state.
  - apply effect_discard, effect_replace.
  - apply effect_discard, effect_from_metadata.
  - apply effect_discard, effect_copy.
  - apply effect_discard, unchanged, readonly_to_state.
  - apply effect_discard. unfold Variable_state.
    destruct (keyword_clash state_params metadata); [by apply unchanged|].
    apply effect_before_readonly; [apply effect_Variable__init__|].
    intros l. apply readonly_to_state.
  - apply effect_discard, effect_to_variable.
  - apply effect_discard, unchanged, readonly_getstate.
Qed.

Lemma effect_trace w w' : effect w w' → current_trace w' = current_trace w.
Proof. by intros [->|l v' _ -> _|l v v' _ -> _ _ _]. Qed.

Lemma effect_stale w w' l v :
  effect w w' →
  heap w !! l = Some (OVariable v) → stale w v →
  ∃ v', heap w' !! l = Some (OVariable v') ∧
        var_type v' = var_type v ∧
        var_vars v' !! "_trace_state" = var_vars v !! "_trace_state".
Proof.
  intros Heff Hv (t & Ht & Hne).
  destruct Heff as [->|l1 v1 Hfresh -> _|l1 v1 v1' Hv1 -> Hty Hts _].
  - by exists v.
  - exists v. split; [|done]. simpl. rewrite lookup_insert_ne; [done|].
    intros ->. apply Hfresh, elem_of_dom. eauto.
  - destruct (decide (l1 = l)) as [->|Hl].
    + simplify_eq. exists v1'. split; [simpl; apply lookup_insert_eq|].
      split; [done|]. destruct Hts as [Hts|Hts]; [done|]. congruence.
    + exists v. split; [|done]. simpl. by rewrite lookup_insert_ne.
Qed.

(** X15: no program over the API revives a stale Variable.  Whatever
    calls are made, on whatever receivers and arguments, and whichever
    of them raise, a Variable whose trace state has expired is still
    there afterwards, of the same type, with the same expired trace
    state. *)
Theorem stale_stays_stale calls : ∀ w l v,
  heap w !! l = Some (OVariable v) → stale w v →
  let w' := run_calls hook_sem class_vars calls w in
  current_trace w' = current_trace w ∧
  ∃ v', heap w' !! l = Some (OVariable v') ∧ stale w' v' ∧
        var_type v' = var_type v ∧
        var_vars v' !! "_trace_state" = var_vars v !! "_trace_state".
Proof.
  induction calls as [|c calls IH]; intros w l v Hv Hstale; simpl.
  { split; [done|]. by exists v. }
  pose proof (run_call_effect c w) as Heff.
  destruct (effect_stale _ _ l v Heff Hv Hstale) as (v1 & Hv1 & Hty1 & Hts1).
  pose proof (effect_trace _ _ Heff) as Htr.
  assert (stale (run_call hook_sem class_vars c w).2 v1) as Hstale1.
  { destruct Hstale as (t & Ht & Hne). exists t. rewrite Hts1, Htr. done. }
  destruct (IH _ l v1 Hv1 Hstale1) as (Htr' & v' & Hv' & Hstale' & Hty' & Hts').
  split; [congruence|]. exists v'. repeat split; try done; congruence.
Qed.





End effects.

(** * flax/nnx/spmd.py *)

Lemma replicate_snoc {A} n (x : A) : replicate n x ++ [x] = x :: replicate n x.
Proof. induction n as [|n IH]; simpl; [done|]. by rewrite IH. Qed.

Lemma pad_replicate index (sharding : list PyVal) :
  spmd.pad index sharding =
  sharding ++ replicate (Z.to_nat (index - Z.of_nat (length sharding))) PyNone.
Proof.
  unfold spmd.pad. induction (Z.to_nat _) as [|n IH]; simpl.
  - by rewrite app_nil_r.
  - rewrite IH, <- app_assoc. f_equal. apply replicate_snoc.
Qed.

Lemma pad_length index (sharding : list PyVal) :
  (0 ≤ index)%Z →
  Z.to_nat index ≤ length (spmd.pad index sharding).
Proof. intros Hi. rewrite pad_replicate, length_app, length_replicate. lia. Qed.

Lemma pad_short index (sharding : list PyVal) :
  (index ≤ Z.of_nat (length sharding))%Z → spmd.pad index sharding = sharding.
Proof.
  intros Hi. rewrite pad_replicate.
  replace (Z.to_nat (index - Z.of_nat (length sharding))) with 0 by lia.
  apply app_nil_r.
Qed.

Lemma list_insert_in_range {A} index (x : A) (l : list A) :
  (0 ≤ index)%Z → Z.to_nat index ≤ length l →
  spmd.list_insert index x l =
  take (Z.to_nat index) l ++ x :: drop (Z.to_nat index) l.
Proof.
  intros H0 Hlen. unfold spmd.list_insert. cbv zeta.
  assert ((index <? 0)%Z = false) as Hneg by (apply Z.ltb_ge; lia).
  rewrite !Hneg.
  assert ((Z.of_nat (length l) <? index)%Z = false) as ->; [|done].
  apply Z.ltb_ge. lia.
Qed.

Lemma list_pop_middle {A} index (x : A) (l1 l2 : list A) :
  (0 ≤ index)%Z → Z.to_nat index = length l1 →
  spmd.list_pop index (l1 ++ x :: l2) = Some (x, l1 ++ l2).
Proof.
  intros H0 Hlen. unfold spmd.list_pop. cbv zeta.
  assert ((index <? 0)%Z = false) as Hneg by (apply Z.ltb_ge; lia).
  rewrite !Hneg.
  assert ((Z.of_nat (length (l1 ++ x :: l2)) <=? index)%Z = false) as ->.
  { apply Z.leb_gt. rewrite length_app. simpl. lia. }
  simpl. rewrite Hlen, list_lookup_middle by done. by rewrite delete_middle.
Qed.

Lemma list_pop_insert {A} index (x : A) (l : list A) :
  (0 ≤ index)%Z → Z.to_nat index ≤ length l →
  spmd.list_pop index (spmd.list_insert index x l) = Some (x, l).
Proof.
  intros H0 Hlen. rewrite list_insert_in_range by done.
  rewrite list_pop_middle; [by rewrite take_drop|done|].
  rewrite length_take. lia.
Qed.

Lemma imap_items (items : list PyVal) :
  (imap (λ i x, (KInt i, x)) items).*2 = items.
Proof.
  rewrite fmap_imap. simpl.
  induction items as [|x items IH]; [done|].
  simpl. f_equal. rewrite <- IH at 2. by apply imap_ext.
Qed.

Section spmd_properties.

Variable hook_sem : HookId → VarObj → PyVal → Exception + PyVal.
Variable axis_hook_sem : HookId → loc → Z → PyVal → spmd.Spmd unit.

Lemma py_list_items depth w sharding names :
  spmd.items_of w sharding = Some names →
  spmd.py_list hook_sem (S depth) sharding w = (inr names, w).
Proof.
  unfold spmd.items_of. simpl. unfold bind, get_world.
  destruct sharding as [| | | | |l]; try done.
  destruct (heap w !! l) as [[| |tag children]|]; try done.
  case_bool_decide; [|done]. by intros [= <-].
Qed.

Lemma items_of_new_tuple w t items :
  heap w !! t = Some (ONode "tuple" (imap (λ i x, (KInt i, x)) items)) →
  spmd.items_of w (PyRef t) = Some items.
Proof.
  intros Ht. unfold spmd.items_of. rewrite Ht.
  rewrite bool_decide_eq_true_2 by (by left). by rewrite imap_items.
Qed.

Lemma resharded_sharding w l s items :
  heap w !! l = Some (OVariableState s) →
  spmd.sharding_of (resharded w l s items) (PyRef l) = Some items.
Proof.
  intros Hl. unfold spmd.sharding_of, resharded. simpl.
  rewrite lookup_insert_eq. unfold spmd.state_attr. simpl.
  rewrite lookup_insert_eq.
  apply items_of_new_tuple. simpl.
  assert (fresh (dom (heap w)) ≠ l) as Hne.
  { intros Heq. apply (is_fresh (dom (heap w))). rewrite Heq.
    apply elem_of_dom. eauto. }
  rewrite lookup_insert_ne by done. apply lookup_insert_eq.
Qed.

Lemma _add_axis_sharded depth w l s sharding names axis_name index hooks :
  heap w !! l = Some (OVariableState s) →
  spmd.state_attr s "sharding" = Some sharding →
  sharding ≠ PyNone →
  axis_name ≠ PyNone →
  spmd.items_of w sharding = Some names →
  spmd.state_attr s "add_axis_hooks" = Some (PyHooks hooks) →
  spmd._add_axis hook_sem axis_hook_sem (S depth) axis_name index (PyRef l) w =
    spmd.Sbind (spmd.run_axis_hooks axis_hook_sem hooks l index axis_name)
      (λ _, spmd.Sret (PyRef l))
      (resharded w l s (spmd.list_insert index axis_name (spmd.pad index names))).
Proof.
  intros Hl Hsh Hnone Hname Hitems Hhooks.
  assert (fresh (dom (heap w)) ≠ l) as Hne.
  { intros Heq. apply (is_fresh (dom (heap w))). rewrite Heq.
    apply elem_of_dom. eauto. }
  unfold spmd._add_axis.
  unfold spmd.Sbind at 1. unfold spmd.run at 1, get_world at 1.
  rewrite Hl, Hsh.
  rewrite (bool_decide_eq_false_2 (sharding = PyNone)) by done.
  rewrite (bool_decide_eq_false_2 (axis_name = PyNone)) by done.
  unfold spmd.Sbind at 1. unfold spmd.Sbind at 1.
  unfold spmd.run at 1. rewrite (py_list_items depth w sharding names Hitems).
  unfold spmd.Sbind at 1. unfold spmd.run at 1.
  unfold spmd.new_tuple, bind at 1, alloc at 1, ret at 1.
  unfold spmd.run at 1. unfold spmd.state_setattr, bind at 1, get_world at 1.
  cbn [heap set_heap]. rewrite lookup_insert_ne by done. rewrite Hl.
  unfold modify_heap.
  unfold spmd.VariableState_add_axis.
  unfold spmd.Sbind at 1. unfold spmd.Sbind at 1.
  unfold spmd.state_hooks, spmd.run at 1, bind at 1, get_world at 1.
  cbn [heap set_heap]. rewrite lookup_insert_eq.
  unfold spmd.state_attr in *. cbn [vs_metadata].
  rewrite lookup_insert_ne by done. rewrite Hhooks.
  unfold as_hooks, ret.
  reflexivity.
Qed.

Lemma _remove_axis_sharded depth w l s sharding names rest axis_name index hooks :
  heap w !! l = Some (OVariableState s) →
  spmd.state_attr s "sharding" = Some sharding →
  sharding ≠ PyNone →
  axis_name ≠ PyNone →
  spmd.items_of w sharding = Some names →
  spmd.list_pop index names = Some (axis_name, rest) →
  spmd.state_attr s "remove_axis_hooks" = Some (PyHooks hooks) →
  spmd._remove_axis hook_sem axis_hook_sem (S depth) axis_name index (PyRef l) w =
    spmd.Sbind (spmd.run_axis_hooks axis_hook_sem hooks l index axis_name)
      (λ _, spmd.Sret (PyRef l))
      (resharded w l s rest).
Proof.
  intros Hl Hsh Hnone Hname Hitems Hpop Hhooks.
  assert (fresh (dom (heap w)) ≠ l) as Hne.
  { intros Heq. apply (is_fresh (dom (heap w))). rewrite Heq.
    apply elem_of_dom. eauto. }
  unfold spmd._remove_axis.
  unfold spmd.Sbind at 1. unfold spmd.run at 1, get_world at 1.
  rewrite Hl, Hsh.
  rewrite (bool_decide_eq_false_2 (sharding = PyNone)) by done.
  rewrite (bool_decide_eq_false_2 (axis_name = PyNone)) by done.
  unfold spmd.Sbind at 1. unfold spmd.Sbind at 1.
  unfold spmd.run at 1. rewrite (py_list_items depth w sharding names Hitems).
  rewrite Hpop. rewrite bool_decide_eq_true_2 by done.
  unfold spmd.Sbind at 1. unfold spmd.run at 1.
  unfold spmd.new_tuple, bind at 1, alloc at 1, ret at 1.
  unfold spmd.run at 1. unfold spmd.state_setattr, bind at 1, get_world at 1.
  cbn [heap set_heap]. rewrite lookup_insert_ne by done. rewrite Hl.
  unfold modify_heap.
  unfold spmd.VariableState_remove_axis.
  unfold spmd.Sbind at 1. unfold spmd.Sbind at 1.
  unfold spmd.state_hooks, spmd.run at 1, bind at 1, get_world at 1.
  cbn [heap set_heap]. rewrite lookup_insert_eq.
  unfold spmd.state_attr in *. cbn [vs_metadata].
  rewrite lookup_insert_ne by done. rewrite Hhooks.
  unfold as_hooks, ret.
  reflexivity.
Qed.

Lemma tree_map_one (f : PyVal → spmd.Spmd PyVal) x w :
  spmd.tree_map f [x] w =
    match f x w with
    | (inl e, w') => (inl e, w')
    | (inr y, w') => (inr [y], w')
    end.
Proof. simpl. unfold spmd.Sbind. by destruct (f x w) as [[e|y] w']. Qed.

Lemma _get_partition_name_Some (params : gmap string PyVal) name :
  params !! "partition_name" = Some name →
  spmd._get_partition_name params = name.
Proof. intros H. unfold spmd._get_partition_name, spmd.PARTITION_NAME. by rewrite H. Qed.

(** X18: on a VariableState whose [sharding] is a tuple of axis names,
    [add_axis] with a partition name in [params] first replaces the
    sharding by a new tuple, the old names padded with [None] up to
    [index] with the partition name inserted by [list.insert], and then
    runs the registered add-axis hooks in order.  For an index that is
    not negative the name stands at position [index] and every old name
    keeps its order. *)
Theorem add_axis_inserts_axis depth w l s sharding names name index params hooks :
  heap w !! l = Some (OVariableState s) →
  spmd.state_attr s "sharding" = Some sharding →
  spmd.items_of w sharding = Some names →
  params !! "partition_name" = Some name →
  name ≠ PyNone →
  spmd.state_attr s "add_axis_hooks" = Some (PyHooks hooks) →
  let sharding' := spmd.list_insert index name (spmd.pad index names) in
  ∃ w',
    spmd.add_axis hook_sem axis_hook_sem (S depth) [PyRef l] index params w =
      spmd.Sbind (spmd.run_axis_hooks axis_hook_sem hooks l index name)
        (λ _, spmd.Sret [PyRef l]) w' ∧
    (hooks = [] →
       spmd.add_axis hook_sem axis_hook_sem (S depth) [PyRef l] index params w =
         (inr [PyRef l], w')) ∧
    spmd.sharding_of w' (PyRef l) = Some sharding' ∧
    ((0 ≤ index)%Z →
       let i := Z.to_nat index in
       let padded := names ++ replicate (i - length names) PyNone in
       sharding' = take i padded ++ name :: drop i padded ∧
       sharding' !! i = Some name ∧
       length sharding' = S (length names `max` i)).
Proof.
  intros Hl Hsh Hitems Hname Hnone Hhooks sharding'.
  assert (sharding ≠ PyNone) as Hsharded.
  { intros ->. done. }
  assert (spmd.add_axis hook_sem axis_hook_sem (S depth) [PyRef l] index params w =
      spmd.Sbind (spmd.run_axis_hooks axis_hook_sem hooks l index name)
        (λ _, spmd.Sret [PyRef l]) (resharded w l s sharding')) as Hrun.
  { unfold spmd.add_axis. rewrite tree_map_one.
    rewrite (_get_partition_name_Some params name Hname).
    rewrite (_add_axis_sharded depth w l s sharding names name index hooks) by done.
    fold sharding'. unfold spmd.Sbind.
    by destruct (spmd.run_axis_hooks axis_hook_sem hooks l index name
                   (resharded w l s sharding')) as [[e|[]] w']. }
  exists (resharded w l s sharding'). split; [done|]. split; [|split].
  - intros ->. by rewrite Hrun.
  - by apply resharded_sharding.
  - intros Hi i padded.
    assert (spmd.pad index names = padded) as Hpad.
    { rewrite pad_replicate. unfold padded. do 2 f_equal. lia. }
    assert (i ≤ length padded) as Hlen.
    { unfold padded. rewrite length_app, length_replicate. lia. }
    unfold sharding'. rewrite Hpad.
    rewrite list_insert_in_range by done. fold i.
    split; [done|]. split.
    + apply list_lookup_middle. rewrite length_take. lia.
    + rewrite length_app, length_take. simpl. rewrite length_drop.
      unfold padded. rewrite length_app, length_replicate. lia.
Qed.

Lemma resharded_state w l s items :
  heap (resharded w l s items) !! l =
    Some (OVariableState (MkState (vs_type s) (vs_value s)
      (<["sharding" := PyRef (fresh (dom (heap w)))]> (vs_metadata s)))).
Proof. unfold resharded. simpl. apply lookup_insert_eq. Qed.

Lemma resharded_items w l s items :
  heap w !! l = Some (OVariableState s) →
  spmd.items_of (resharded w l s items) (PyRef (fresh (dom (heap w)))) = Some items.
Proof.
  intros Hl. apply items_of_new_tuple. unfold resharded. simpl.
  assert (fresh (dom (heap w)) ≠ l) as Hne.
  { intros Heq. apply (is_fresh (dom (heap w))). rewrite Heq.
    apply elem_of_dom. eauto. }
  rewrite lookup_insert_ne by done. apply lookup_insert_eq.
Qed.

(** X19: [remove_axis] undoes [add_axis].  For an index that is not
    negative, adding an axis and removing it again at the same index
    with the same partition name leaves the sharding padded with [None]
    up to [index], hence as it was whenever [index] is at most the
    number of its names.  (No axis hook is registered.) *)
Theorem remove_axis_undoes_add_axis depth w l s sharding names name index params :
  heap w !! l = Some (OVariableState s) →
  spmd.state_attr s "sharding" = Some sharding →
  spmd.items_of w sharding = Some names →
  params !! "partition_name" = Some name →
  name ≠ PyNone →
  spmd.state_attr s "add_axis_hooks" = Some (PyHooks []) →
  spmd.state_attr s "remove_axis_hooks" = Some (PyHooks []) →
  (0 ≤ index)%Z →
  ∃ w'',
    spmd.Sbind
      (spmd.add_axis hook_sem axis_hook_sem (S depth) [PyRef l] index params)
      (λ tree, spmd.remove_axis hook_sem axis_hook_sem (S depth) tree index params) w
      = (inr [PyRef l], w'') ∧
    spmd.sharding_of w'' (PyRef l) = Some (spmd.pad index names) ∧
    ((index ≤ Z.of_nat (length names))%Z →
       spmd.sharding_of w'' (PyRef l) = Some names).
Proof.
  intros Hl Hsh Hitems Hname Hnone Hadd Hremove Hi.
  assert (sharding ≠ PyNone) as Hsharded.
  { intros ->. done. }
  set (sharding' := spmd.list_insert index name (spmd.pad index names)).
  set (w' := resharded w l s sharding').
  set (s' := MkState (vs_type s) (vs_value s)
               (<["sharding" := PyRef (fresh (dom (heap w)))]> (vs_metadata s))).
  assert (heap w' !! l = Some (OVariableState s')) as Hl' by apply resharded_state.
  exists (resharded w' l s' (spmd.pad index names)).
  assert (spmd.Sbind
      (spmd.add_axis hook_sem axis_hook_sem (S depth) [PyRef l] index params)
      (λ tree, spmd.remove_axis hook_sem axis_hook_sem (S depth) tree index params) w
      = (inr [PyRef l], resharded w' l s' (spmd.pad index names))) as Hrun.
  { unfold spmd.Sbind at 1. unfold spmd.add_axis. rewrite tree_map_one.
    rewrite (_get_partition_name_Some params name Hname).
    rewrite (_add_axis_sharded depth w l s sharding names name index []) by done.
    simpl. fold sharding' w'.
    unfold spmd.remove_axis. rewrite tree_map_one.
    rewrite (_get_partition_name_Some params name Hname).
    rewrite (_remove_axis_sharded depth w' l s'
               (PyRef (fresh (dom (heap w)))) sharding' (spmd.pad index names)
               name index []); try done.
    - unfold spmd.state_attr, s'. simpl. apply lookup_insert_eq.
    - by apply resharded_items.
    - apply list_pop_insert; [done|]. by apply pad_length.
    - unfold spmd.state_attr, s'. simpl. by rewrite lookup_insert_ne. }
  split; [done|]. split.
  - by apply resharded_sharding.
  - intros Hshort. rewrite <- (pad_short index names) at 2 by done.
    by apply resharded_sharding.
Qed.

Lemma _add_axis_other depth axis_name index x w :
  is_VariableState w x = false →
  spmd._add_axis hook_sem axis_hook_sem depth axis_name index x w = (inr x, w).
Proof.
  unfold is_VariableState, spmd._add_axis, spmd.Sbind, spmd.run, get_world.
  destruct x as [| | | | |l]; try done.
  by destruct (heap w !! l) as [[| |]|].
Qed.

Lemma _remove_axis_other depth axis_name index x w :
  is_VariableState w x = false →
  spmd._remove_axis hook_sem axis_hook_sem depth axis_name index x w = (inr x, w).
Proof.
  unfold is_VariableState, spmd._remove_axis, spmd.Sbind, spmd.run, get_world.
  destruct x as [| | | | |l]; try done.
  by destruct (heap w !! l) as [[| |]|].
Qed.

Lemma tree_map_id (f : PyVal → spmd.Spmd PyVal) tree w :
  Forall (λ x, f x w = (inr x, w)) tree →
  spmd.tree_map f tree w = (inr tree, w).
Proof.
  induction tree as [|x tree IH]; [done|].
  rewrite Forall_cons. intros [Hx Htree]. simpl.
  unfold spmd.Sbind at 1. rewrite Hx.
  unfold spmd.Sbind at 1. by rewrite IH.
Qed.

(** X20: leaves that are not VariableStates pass through [add_axis] and
    [remove_axis] untouched, and so does a VariableState without
    sharding (no [sharding] attribute, or [None]) that has no axis hook
    registered: the tree comes back as it was and the world is not
    changed, with or without a partition name in [params]. *)
Theorem axis_functions_skip_unsharded_leaves depth w index params :
  (∀ tree, Forall (λ x, is_VariableState w x = false) tree →
     spmd.add_axis hook_sem axis_hook_sem depth tree index params w = (inr tree, w) ∧
     spmd.remove_axis hook_sem axis_hook_sem depth tree index params w = (inr tree, w)) ∧
  (∀ l s, heap w !! l = Some (OVariableState s) →
     spmd.state_attr s "sharding" = None ∨ spmd.state_attr s "sharding" = Some PyNone →
     (spmd.state_attr s "add_axis_hooks" = Some (PyHooks []) →
        spmd.add_axis hook_sem axis_hook_sem depth [PyRef l] index params w
          = (inr [PyRef l], w)) ∧
     (spmd.state_attr s "remove_axis_hooks" = Some (PyHooks []) →
        spmd.remove_axis hook_sem axis_hook_sem depth [PyRef l] index params w
          = (inr [PyRef l], w))).
Proof.
  split.
  - intros tree Htree. split; apply tree_map_id; eapply Forall_impl; try exact Htree;
      intros x Hx; simpl; [by apply _add_axis_other|by apply _remove_axis_other].
  - intros l s Hl Hsh. split; intros Hhooks.
    + unfold spmd.add_axis. rewrite tree_map_one.
      unfold spmd._add_axis.
      unfold spmd.Sbind at 1. unfold spmd.run at 1, get_world at 1. rewrite Hl.
      assert (∀ w0, match spmd.state_attr s "sharding" with
              | Some sharding =>
                  if bool_decide (sharding = PyNone) then spmd.Sret tt
                  else if bool_decide (spmd._get_partition_name params = PyNone)
                  then spmd.Sraise (spmd.AxisNameMissingError sharding)
                  else
                    spmd.Sbind (spmd.run (spmd.py_list hook_sem depth sharding))
                      (λ sharding,
                         spmd.Sbind (spmd.run (spmd.new_tuple
                           (spmd.list_insert index (spmd._get_partition_name params)
                              (spmd.pad index sharding))))
                           (λ sharding, spmd.run (spmd.state_setattr l "sharding" sharding)))
              | None => spmd.Sret tt
              end w0 = (inr tt, w0)) as Hskip.
      { intros w0. destruct Hsh as [->| ->]; [done|].
        by rewrite bool_decide_eq_true_2. }
      unfold spmd.Sbind at 1. rewrite Hskip.
      unfold spmd.VariableState_add_axis.
      unfold spmd.Sbind at 1. unfold spmd.Sbind at 1.
      unfold spmd.state_hooks, spmd.run at 1, bind at 1, get_world at 1.
      rewrite Hl, Hhooks. reflexivity.
    + unfold spmd.remove_axis. rewrite tree_map_one.
      unfold spmd._remove_axis.
      unfold spmd.Sbind at 1. unfold spmd.run at 1, get_world at 1. rewrite Hl.
      unfold spmd.Sbind at 1.
      destruct Hsh as [Hsh|Hsh]; rewrite Hsh;
        [|rewrite bool_decide_eq_true_2 by done];
        unfold spmd.Sret at 1;
        unfold spmd.VariableState_remove_axis;
        unfold spmd.Sbind at 1; unfold spmd.Sbind at 1;
        unfold spmd.state_hooks, spmd.run at 1, bind at 1, get_world at 1;
        rewrite Hl, Hhooks; reflexivity.
Qed.

Lemma _remove_axis_fails depth w l s sharding names axis_name index :
  heap w !! l = Some (OVariableState s) →
  spmd.state_attr s "sharding" = Some sharding →
  sharding ≠ PyNone →
  axis_name ≠ PyNone →
  spmd.items_of w sharding = Some names →
  (spmd.list_pop index names = None →
     spmd._remove_axis hook_sem axis_hook_sem (S depth) axis_name index (PyRef l) w =
       (inl (spmd.IndexError (spmd.pop_error names)), w)) ∧
  (∀ other rest, spmd.list_pop index names = Some (other, rest) → other ≠ axis_name →
     spmd._remove_axis hook_sem axis_hook_sem (S depth) axis_name index (PyRef l) w =
       (inl spmd.AssertionError, w)).
Proof.
  intros Hl Hsh Hnone Hname Hitems.
  assert (∀ popped,
    spmd.list_pop index names = popped →
    match popped with
    | Some (other, _) => other ≠ axis_name
    | None => True
    end →
    spmd._remove_axis hook_sem axis_hook_sem (S depth) axis_name index (PyRef l) w =
      (inl (match popped with
            | Some _ => spmd.AssertionError
            | None => spmd.IndexError (spmd.pop_error names)
            end), w)) as Hgen.
  { intros popped Hpop Hother. unfold spmd._remove_axis.
    unfold spmd.Sbind at 1. unfold spmd.run at 1, get_world at 1.
    rewrite Hl, Hsh.
    rewrite (bool_decide_eq_false_2 (sharding = PyNone)) by done.
    rewrite (bool_decide_eq_false_2 (axis_name = PyNone)) by done.
    unfold spmd.Sbind at 1. unfold spmd.Sbind at 1.
    unfold spmd.run at 1. rewrite (py_list_items depth w sharding names Hitems).
    rewrite Hpop. destruct popped as [[other rest]|]; [|done].
    by rewrite bool_decide_eq_false_2. }
  split.
  - intros Hpop. by apply (Hgen None).
  - intros other rest Hpop Hother. by apply (Hgen (Some (other, rest))).
Qed.

Lemma _add_axis_without_hooks depth w l s sharding names axis_name index :
  heap w !! l = Some (OVariableState s) →
  spmd.state_attr s "sharding" = Some sharding →
  sharding ≠ PyNone →
  axis_name ≠ PyNone →
  spmd.items_of w sharding = Some names →
  spmd.state_attr s "add_axis_hooks" = None →
  spmd._add_axis hook_sem axis_hook_sem (S depth) axis_name index (PyRef l) w =
    (inl (spmd.Raised (AttributeError "add_axis_hooks")),
     resharded w l s (spmd.list_insert index axis_name (spmd.pad index names))).
Proof.
  intros Hl Hsh Hnone Hname Hitems Hhooks.
  assert (fresh (dom (heap w)) ≠ l) as Hne.
  { intros Heq. apply (is_fresh (dom (heap w))). rewrite Heq.
    apply elem_of_dom. eauto. }
  unfold spmd._add_axis.
  unfold spmd.Sbind at 1. unfold spmd.run at 1, get_world at 1.
  rewrite Hl, Hsh.
  rewrite (bool_decide_eq_false_2 (sharding = PyNone)) by done.
  rewrite (bool_decide_eq_false_2 (axis_name = PyNone)) by done.
  unfold spmd.Sbind at 1. unfold spmd.Sbind at 1.
  unfold spmd.run at 1. rewrite (py_list_items depth w sharding names Hitems).
  unfold spmd.Sbind at 1. unfold spmd.run at 1.
  unfold spmd.new_tuple, bind at 1, alloc at 1, ret at 1.
  unfold spmd.run at 1. unfold spmd.state_setattr, bind at 1, get_world at 1.
  cbn [heap set_heap]. rewrite lookup_insert_ne by done. rewrite Hl.
  unfold modify_heap.
  unfold spmd.VariableState_add_axis.
  unfold spmd.Sbind at 1. unfold spmd.Sbind at 1.
  unfold spmd.state_hooks, spmd.run at 1, bind at 1, get_world at 1.
  cbn [heap set_heap]. rewrite lookup_insert_eq.
  unfold spmd.state_attr in *. cbn [vs_metadata].
  rewrite lookup_insert_ne by done. rewrite Hhooks.
  reflexivity.
Qed.

(** X21: what the axis functions raise on a sharded VariableState.
    Without a partition name in [params] (no entry, or [None]) both
    raise [AxisNameMissingError] and change nothing.  [remove_axis]
    raises [IndexError] when [index] is out of range for the sharding
    and fails its assertion when the name at [index] is not the
    partition name, again changing nothing.  On a VariableState that
    has no [add_axis_hooks] attribute, [add_axis] raises
    [AttributeError] only after it has replaced the sharding. *)
Theorem axis_errors depth w l s sharding index :
  heap w !! l = Some (OVariableState s) →
  spmd.state_attr s "sharding" = Some sharding →
  sharding ≠ PyNone →
  (∀ params,
     params !! "partition_name" = None ∨ params !! "partition_name" = Some PyNone →
     spmd.add_axis hook_sem axis_hook_sem depth [PyRef l] index params w =
       (inl (spmd.AxisNameMissingError sharding), w) ∧
     spmd.remove_axis hook_sem axis_hook_sem depth [PyRef l] index params w =
       (inl (spmd.AxisNameMissingError sharding), w)) ∧
  (∀ params name names,
     params !! "partition_name" = Some name → name ≠ PyNone →
     spmd.items_of w sharding = Some names →
     (spmd.list_pop index names = None →
        spmd.remove_axis hook_sem axis_hook_sem (S depth) [PyRef l] index params w =
          (inl (spmd.IndexError (spmd.pop_error names)), w)) ∧
     (∀ other rest, spmd.list_pop index names = Some (other, rest) → other ≠ name →
        spmd.remove_axis hook_sem axis_hook_sem (S depth) [PyRef l] index params w =
          (inl spmd.AssertionError, w)) ∧
     (spmd.state_attr s "add_axis_hooks" = None →
        spmd.add_axis hook_sem axis_hook_sem (S depth) [PyRef l] index params w =
          (inl (spmd.Raised (AttributeError "add_axis_hooks")),
           resharded w l s (spmd.list_insert index name (spmd.pad index names))))).
Proof.
  intros Hl Hsh Hnone. split.
  - intros params Hparams.
    assert (spmd._get_partition_name params = PyNone) as Hname.
    { unfold spmd._get_partition_name, spmd.PARTITION_NAME.
      by destruct Hparams as [->| ->]. }
    unfold spmd.add_axis, spmd.remove_axis. rewrite !tree_map_one, Hname.
    unfold spmd._add_axis, spmd._remove_axis.
    unfold spmd.Sbind, spmd.run, get_world. rewrite Hl, Hsh.
    rewrite (bool_decide_eq_false_2 (sharding = PyNone)) by done.
    by rewrite (bool_decide_eq_true_2 (PyNone = PyNone)).
  - intros params name names Hparams Hname Hitems.
    unfold spmd.add_axis, spmd.remove_axis. rewrite !tree_map_one.
    rewrite (_get_partition_name_Some params name Hparams).
    destruct (_remove_axis_fails depth w l s sharding names name index)
      as [Hindex Hassert]; try done.
    split; [|split].
    + intros Hpop. by rewrite Hindex.
    + intros other rest Hpop Hother. by rewrite (Hassert other rest).
    + intros Hhooks.
      by rewrite (_add_axis_without_hooks depth w l s sharding names name index).
Qed.

Lemma list_pop_after_negative_insert {A} index (x other : A) (l : list A) :
  (index < 0)%Z → (- index ≤ Z.of_nat (length l))%Z →
  l !! Z.to_nat (Z.of_nat (length l) + index) = Some other →
  spmd.list_insert index x l =
    take (Z.to_nat (Z.of_nat (length l) + index)) l ++
    x :: drop (Z.to_nat (Z.of_nat (length l) + index)) l ∧
  ∃ rest, spmd.list_pop index (spmd.list_insert index x l) = Some (other, rest).
Proof.
  intros Hneg Hlen Hother.
  set (p := Z.to_nat (Z.of_nat (length l) + index)) in *.
  assert (p < length l) as Hp by (by apply lookup_lt_Some in Hother).
  assert (spmd.list_insert index x l = take p l ++ x :: drop p l) as Hins.
  { unfold spmd.list_insert. cbv zeta.
    assert ((index <? 0)%Z = true) as -> by (apply Z.ltb_lt; lia).
    assert ((index + Z.of_nat (length l) <? 0)%Z = false) as ->
      by (apply Z.ltb_ge; lia).
    assert ((Z.of_nat (length l) <? index + Z.of_nat (length l))%Z = false) as ->
      by (apply Z.ltb_ge; lia).
    replace (Z.to_nat (index + Z.of_nat (length l))) with p by lia. done. }
  split; [done|]. rewrite Hins.
  assert (length (take p l ++ x :: drop p l) = S (length l)) as Hlen'.
  { rewrite length_app, length_take. simpl. rewrite length_drop. lia. }
  unfold spmd.list_pop. cbv zeta. rewrite Hlen'.
  assert ((index <? 0)%Z = true) as -> by (apply Z.ltb_lt; lia).
  assert ((index + Z.of_nat (S (length l)) <? 0)%Z = false) as ->
    by (apply Z.ltb_ge; lia).
  assert ((Z.of_nat (S (length l)) <=? index + Z.of_nat (S (length l)))%Z = false) as ->
    by (apply Z.leb_gt; lia).
  simpl.
  replace (Z.to_nat (index + Z.of_nat (S (length l)))) with (S p) by lia.
  assert ((take p l ++ x :: drop p l) !! S p = Some other) as ->.
  { rewrite lookup_app_r by (rewrite length_take; lia).
    rewrite length_take. replace (S p - p `min` length l) with 1 by lia.
    simpl. rewrite lookup_drop. by rewrite Nat.add_0_r. }
  by eexists.
Qed.

(** X22: with a negative index [remove_axis] does not undo [add_axis].
    [list.insert] puts the partition name before the element the
    negative index denotes, and [list.pop] at the same index then takes
    out that element, not the name: unless the two are equal, the
    assertion of [remove_axis] fails. *)
Theorem negative_index_is_not_undone depth w l s sharding names name other index params :
  heap w !! l = Some (OVariableState s) →
  spmd.state_attr s "sharding" = Some sharding →
  spmd.items_of w sharding = Some names →
  params !! "partition_name" = Some name →
  name ≠ PyNone →
  spmd.state_attr s "add_axis_hooks" = Some (PyHooks []) →
  (index < 0)%Z → (- index ≤ Z.of_nat (length names))%Z →
  names !! Z.to_nat (Z.of_nat (length names) + index) = Some other →
  other ≠ name →
  let p := Z.to_nat (Z.of_nat (length names) + index) in
  ∃ w',
    spmd.add_axis hook_sem axis_hook_sem (S depth) [PyRef l] index params w =
      (inr [PyRef l], w') ∧
    spmd.sharding_of w' (PyRef l) = Some (take p names ++ name :: drop p names) ∧
    spmd.remove_axis hook_sem axis_hook_sem (S depth) [PyRef l] index params w' =
      (inl spmd.AssertionError, w').
Proof.
  intros Hl Hsh Hitems Hname Hnone Hadd Hneg Hlen Hother Hne p.
  assert (sharding ≠ PyNone) as Hsharded.
  { intros ->. done. }
  destruct (list_pop_after_negative_insert index name other names Hneg Hlen Hother)
    as [Hins [rest Hpop]]. fold p in Hins.
  set (sharding' := spmd.list_insert index name (spmd.pad index names)).
  assert (sharding' = take p names ++ name :: drop p names) as Hsharding'.
  { unfold sharding'. rewrite pad_short by lia. done. }
  set (w' := resharded w l s sharding').
  set (s' := MkState (vs_type s) (vs_value s)
               (<["sharding" := PyRef (fresh (dom (heap w)))]> (vs_metadata s))).
  exists w'. split; [|split].
  - unfold spmd.add_axis. rewrite tree_map_one.
    rewrite (_get_partition_name_Some params name Hname).
    by rewrite (_add_axis_sharded depth w l s sharding names name index []).
  - rewrite <- Hsharding'. by apply resharded_sharding.
  - unfold spmd.remove_axis. rewrite tree_map_one.
    rewrite (_get_partition_name_Some params name Hname).
    destruct (_remove_axis_fails depth w' l s' (PyRef (fresh (dom (heap w))))
                sharding' name index) as [_ Hassert]; try done.
    + apply resharded_state.
    + unfold spmd.state_attr, s'. simpl. apply lookup_insert_eq.
    + by apply resharded_items.
    + rewrite (Hassert other rest); [done| |done].
      unfold sharding'. by rewrite pad_short by lia.
Qed.


Variable class_vars : VarType → string → option HookId.


End spmd_properties.

(** ** Reading back an assigned value *)

(** X24: reading [.value] after assigning it returns the get hooks
    applied to what the set hooks made of the assigned value, the get
    hooks seeing the Variable as the assignment left it.  Without hooks
    it is the assigned value.  (In a valid trace the assignment
    [self.value = val] is the call of the setter.) *)
Theorem value_read_after_write hook_sem w self v val set_hooks get_hooks raw :
  heap w !! self = Some (OVariable v) →
  var_vars v !! "_trace_state" = Some (PyTraceState (current_trace w)) →
  var_vars v !! "set_value_hooks" = Some (PyHooks set_hooks) →
  var_vars v !! "get_value_hooks" = Some (PyHooks get_hooks) →
  is_Variable w val = false →
  run_hooks hook_sem set_hooks v val = inr raw →
  let v' := MkVar (var_type v) (<["raw_value" := raw]> (var_vars v)) in
  let w' := set_heap (insert self (OVariable v')) w in
  (value_setter hook_sem self val ;; value hook_sem self) w =
    (run_hooks hook_sem get_hooks v' raw, w') ∧
  (set_hooks = [] → get_hooks = [] →
     (value_setter hook_sem self val ;; value hook_sem self) w = (inr val, w')) ∧
  (__setattr__ hook_sem self "value" val ;; value hook_sem self) w =
    (value_setter hook_sem self val ;; value hook_sem self) w.
Proof.
  intros Hv Hts Hset Hget Hnv Hrun v' w'.
  assert ((value_setter hook_sem self val ;; value hook_sem self) w =
    (run_hooks hook_sem get_hooks v' raw, w')) as Heq.
  { unfold bind at 1.
    assert (value_setter hook_sem self val w = (inr tt, w')) as ->.
    { unfold value_setter.
      unfold bind at 1. unfold get_world at 1. rewrite Hnv.
      unfold bind at 1. unfold getattr, bind at 1, get_variable at 1.
      rewrite Hv, Hset. unfold ret at 1. unfold bind at 1.
      unfold as_hooks, ret at 1. unfold bind at 1.
      assert (match set_hooks with
              | [] => ret val
              | _ :: _ => let* v0 := get_variable self in
                          lift (run_hooks hook_sem set_hooks v0 val)
              end w = (run_hooks hook_sem set_hooks v val, w)) as ->.
      { destruct set_hooks; [by simpl in Hrun; simplify_eq|].
        unfold bind, get_variable, lift. by rewrite Hv. }
      rewrite Hrun. by apply setattr_entry_valid. }
    unfold value.
    unfold bind at 1. unfold getattr at 1, bind at 1, get_variable at 1.
    unfold w', v'. cbn [heap set_heap]. rewrite lookup_insert_eq.
    cbn [var_vars]. rewrite lookup_insert_eq. unfold ret at 1.
    unfold bind at 1. unfold getattr at 1, bind at 1, get_variable at 1.
    cbn [heap set_heap]. rewrite lookup_insert_eq.
    cbn [var_vars]. rewrite lookup_insert_ne by done. rewrite Hget.
    unfold ret at 1. unfold bind at 1. unfold as_hooks, ret at 1.
    destruct get_hooks; [done|].
    unfold bind, get_variable, lift. cbn [heap set_heap].
    by rewrite lookup_insert_eq. }
  split; [done|]. split.
  - intros -> ->. rewrite Heq. simpl in *. by simplify_eq.
  - unfold bind, __setattr__. by rewrite (_setattr_value hook_sem w self v).
Qed.

(** ** Scenarios *)

Lemma construction_runs_create_hooks_witness :
  (doubled_variable world0).1 = inr 0 ∧
  (getattr 0 "raw_value" (doubled_variable world0).2).1 = inr (PyInt 7) ∧
  (getattr 0 "create_value_hooks" (doubled_variable world0).2).1 = inr (PyHooks [1; 0]) ∧
  Variable__init__ sample_hooks doubled_class TParam (inl (PyInt 1))
    (Sequence []) (Sequence []) (Sequence []) (Sequence []) (Sequence [])
    (<["value" := PyInt 2]> ∅) world0 =
    (inl (TypeError "got multiple values for argument"), world0).
Proof.
  destruct (construction_runs_create_hooks sample_hooks doubled_class world0 TDoubled
              (PyInt 3) (Sequence []) (Sequence []) (Callable 0) (Sequence [])
              (Sequence []) ∅) as [_ Hok].
  destruct Hok as (_ & _ & Hrun); [vm_compute; reflexivity|reflexivity..|].
  destruct (construction_runs_create_hooks sample_hooks doubled_class world0 TParam
              (PyInt 1) (Sequence []) (Sequence []) (Sequence []) (Sequence [])
              (Sequence []) (<["value" := PyInt 2]> ∅)) as [Hclash _].
  unfold doubled_variable. rewrite Hrun.
  split; [vm_compute; reflexivity|]. split; [vm_compute; reflexivity|].
  split; [vm_compute; reflexivity|]. apply Hclash. vm_compute. reflexivity.
Defined.

Lemma with_metadata_precedence_witness :
  (annotated_variable world0).1 = inr 0 ∧
  (getattr 0 "get_value_hooks" (annotated_variable world0).2).1 = inr (PyHooks [0; 1]) ∧
  (getattr 0 "k" (annotated_variable world0).2).1 = inr (PyInt 2) ∧
  (getattr 0 "j" (annotated_variable world0).2).1 = inr (PyInt 3).
Proof.
  destruct (with_metadata_precedence sample_hooks no_class_hooks zeros tt
              world0 (PyInt 0) world0 TParam
              (Sequence []) (Callable 0) (Sequence []) (Sequence []) (Sequence [])
              (<["k" := PyInt 1]> (<["j" := PyInt 3]> ∅))
              (Sequence []) (Sequence [1]) (Sequence []) (Sequence []) (Sequence [])
              (<["k" := PyInt 2]> ∅)) as (_ & _ & Hok).
  - reflexivity.
  - destruct Hok as (_ & _ & Hrun).
    + vm_compute. reflexivity.
    + vm_compute. reflexivity.
    + unfold init_names. repeat (apply List.Forall_cons; [vm_compute; reflexivity|]).
      apply List.Forall_nil.
    + unfold annotated_variable. rewrite Hrun. repeat split; vm_compute; reflexivity.
Defined.

Lemma with_partitioning_annotates_witness :
  ∃ v, heap (partitioned_variable world0).2 !! 0 = Some (OVariable v) ∧
       var_type v = TParam ∧
       var_vars v !! "sharding" = Some (PyStr "data") ∧
       var_vars v !! "mesh" = Some PyNone.
Proof.
  apply (with_partitioning_annotates no_hooks no_class_hooks zeros tt world0 TParam
           (PyStr "data") PyNone
           (Sequence []) (Sequence []) (Sequence []) (Sequence []) (Sequence []) ∅
           (Sequence []) (Sequence []) (Sequence []) (Sequence []) (Sequence []) ∅).
  vm_compute. reflexivity.
Defined.

Lemma Variable_state_snapshot_witness :
  (∃ variable_state w',
     doubled_state world0 = (inr variable_state, w') ∧
     vs_type variable_state = TDoubled ∧
     vs_value variable_state = PyInt 7 ∧
     vs_metadata variable_state !! "create_value_hooks" = Some (PyHooks [1; 0])) ∧
  Variable_state sample_hooks doubled_class TParam (inl (PyInt 1))
    (Sequence []) (Sequence []) (Sequence []) (Sequence []) (Sequence [])
    (<["cls" := PyInt 3]> ∅) world0 =
    (inl (TypeError "got multiple values for argument"), world0).
Proof.
  split.
  - destruct (Variable_state_snapshot sample_hooks doubled_class world0 TDoubled
                (PyInt 3) (Sequence []) (Sequence []) (Callable 0) (Sequence [])
                (Sequence []) ∅ (PyInt 7)) as [_ Hok].
    destruct Hok as (variable_state & w' & Hrun & Hty & Hval & Hmd & _);
      [vm_compute; reflexivity..|].
    exists variable_state, w'. split; [exact Hrun|]. split; [exact Hty|].
    split; [exact Hval|]. rewrite Hmd by discriminate. vm_compute. reflexivity.
  - destruct (Variable_state_snapshot sample_hooks doubled_class world0 TParam
                (PyInt 1) (Sequence []) (Sequence []) (Sequence []) (Sequence [])
                (Sequence []) (<["cls" := PyInt 3]> ∅) (PyInt 1)) as [Hclash _].
    apply Hclash. left. vm_compute. reflexivity.
Defined.

Lemma copy_is_fresh_and_mutable_witness :
  (copy 0 stale_world).1 = inr 2 ∧
  heap (copy 0 stale_world).2 !! 0 = Some (OVariable (var_at stale_world 0)) ∧
  (__setattr__ no_hooks 0 "raw_value" (PyInt 5) (copy 0 stale_world).2).1 =
    inl TraceContextError ∧
  (∀ name val, name ≠ "value" →
     (__setattr__ no_hooks 2 name val (copy 0 stale_world).2).1 = inr tt) ∧
  ((__setattr__ no_hooks 2 "value" (PyInt 7) ;; getattr 2 "raw_value")
     (copy 0 stale_world).2).1 = inr (PyInt 7).
Proof.
  destruct (copy_is_fresh_and_mutable no_hooks stale_world 0 (var_at stale_world 0))
    as (Hrun & _ & _ & Hkept & Hmutable & _).
  - vm_compute. reflexivity.
  - rewrite Hrun. split; [vm_compute; reflexivity|]. split; [exact Hkept|].
    split; [vm_compute; reflexivity|]. split.
    + intros name val Hname. unfold snd. by rewrite Hmutable.
    + vm_compute. reflexivity.
Defined.

Lemma from_metadata_of_get_metadata_is_copy_witness :
  (let* metadata := get_metadata 0 in
   let* raw := getattr 0 "raw_value" in
   from_metadata TParam raw metadata) two_params = copy 0 two_params.
Proof.
  apply (from_metadata_of_get_metadata_is_copy two_params 0 (var_at two_params 0)).
  - vm_compute. reflexivity.
  - exists (PyInt 1). vm_compute. reflexivity.
  - exists (PyTraceState 0). vm_compute. reflexivity.
Defined.

Lemma setstate_restores_getstate_witness :
  (let* state := __getstate__ 0 in
   let* obj := object_new TParam in
   __setstate__ obj state ;;
   ret obj) stale_world =
    (inr 2, set_heap (insert 2 (OVariable (var_at stale_world 0))) stale_world) ∧
  ∀ name val,
    _setattr no_hooks 2 name val
      (set_heap (insert 2 (OVariable (var_at stale_world 0))) stale_world) =
    (inl TraceContextError,
     set_heap (insert 2 (OVariable (var_at stale_world 0))) stale_world).
Proof.
  destruct (setstate_restores_getstate no_hooks stale_world 0 (var_at stale_world 0))
    as (Hrun & _ & Hstale & _).
  - vm_compute. reflexivity.
  - split; [exact Hrun|]. apply Hstale.
    exists 0. split; [vm_compute; reflexivity | vm_compute; discriminate].
Defined.

Lemma update_from_state_then_to_state_witness :
  ∃ w', (update_from_state 0 (MkState TBatchStat (PyInt 5) ∅) ;; to_state 0) two_params =
          (inr (MkState TParam (PyInt 5) ∅), w').
Proof.
  apply (update_from_state_then_to_state two_params 0 (var_at two_params 0)
           (MkState TBatchStat (PyInt 5) ∅)).
  - vm_compute. reflexivity.
  - exists (PyTraceState 0). vm_compute. reflexivity.
  - vm_compute. reflexivity.
  - reflexivity.
  - reflexivity.
Defined.

Lemma to_variable_then_to_state_witness :
  ∃ w', (let* v := to_variable (MkState TParam (PyInt 1) (<["k" := PyInt 2]> ∅)) in
         to_state v) world0 =
          (inr (MkState TParam (PyInt 1) (<["k" := PyInt 2]> ∅)), w').
Proof.
  apply (to_variable_then_to_state world0
           (MkState TParam (PyInt 1) (<["k" := PyInt 2]> ∅))).
  - vm_compute. reflexivity.
  - vm_compute. reflexivity.
  - vm_compute. reflexivity.
Defined.

Lemma copy_from_then_same_snapshot_witness :
  ((copy_from 0 1 ;; to_state 0) two_params).1 = (to_state 1 two_params).1.
Proof.
  apply (copy_from_then_same_snapshot two_params 0 1
           (var_at two_params 0) (var_at two_params 1)).
  - vm_compute. reflexivity.
  - vm_compute. reflexivity.
  - vm_compute. reflexivity.
  - exists (PyTraceState 0). vm_compute. reflexivity.
  - exists (PyTraceState 0). vm_compute. reflexivity.
Defined.

Lemma VariableState_pytree_round_trip_witness :
  _variable_state_unflatten
    (_variable_state_flatten (MkState TParam (PyInt 1) (<["k" := PyInt 2]> ∅)) false).2
    (PyInt 1, []) world0 =
    (inr (MkState TParam (PyInt 1) (<["k" := PyInt 2]> ∅)), world0).
Proof.
  destruct (VariableState_pytree_round_trip
              (MkState TParam (PyInt 1) (<["k" := PyInt 2]> ∅)) world0)
    as (_ & _ & _ & Hback & _).
  - vm_compute. reflexivity.
  - exact Hback.
Defined.

Lemma split_flat_state_first_match_witness :
  split_flat_state sample_flat_state sample_predicates =
    inr [[(0, 10); (2, 12)]; [(1, 11)]] ∧
  ∀ i, i < 2 →
    [[(0, 10); (2, 12)]; [(1, 11)]] !! i =
      Some (filter (λ entry, first_match sample_predicates 0 entry.1 entry.2 = Some i)
              sample_flat_state).
Proof.
  split; [vm_compute; reflexivity|].
  destruct (split_flat_state_first_match sample_flat_state sample_predicates
              [[(0, 10); (2, 12)]; [(1, 11)]]) as (_ & Hgroups & _).
  - vm_compute. reflexivity.
  - exact Hgroups.
Defined.

Lemma split_flat_state_permutation_witness :
  [(0, 10); (2, 12); (1, 11)] ≡ₚ sample_flat_state.
Proof.
  apply (split_flat_state_permutation sample_flat_state sample_predicates
           [[(0, 10); (2, 12)]; [(1, 11)]]).
  vm_compute. reflexivity.
Defined.

Lemma stale_stays_stale_witness :
  current_trace (run_calls no_hooks no_class_hooks sample_calls stale_world) = 1 ∧
  ∃ v', heap (run_calls no_hooks no_class_hooks sample_calls stale_world) !! 0 =
          Some (OVariable v') ∧
        stale (run_calls no_hooks no_class_hooks sample_calls stale_world) v' ∧
        var_type v' = TParam ∧
        var_vars v' !! "_trace_state" = Some (PyTraceState 0).
Proof.
  apply (stale_stays_stale no_hooks no_class_hooks sample_calls stale_world 0
           (var_at stale_world 0)).
  - vm_compute. reflexivity.
  - exists 0. split; [vm_compute; reflexivity | vm_compute; discriminate].
Defined.


Lemma add_axis_inserts_axis_witness :
  ∃ w',
    spmd.add_axis no_hooks no_axis_hooks 1 [PyRef 1] 1 layers sharded_world =
      (inr [PyRef 1], w') ∧
    spmd.sharding_of w' (PyRef 1) = Some [PyStr "a"; PyStr "layers"; PyStr "b"].
Proof.
  destruct (add_axis_inserts_axis no_hooks no_axis_hooks 0 sharded_world 1
              sharded_state (PyRef 0) [PyStr "a"; PyStr "b"] (PyStr "layers")
              1 layers []) as (w' & _ & Hrun & Hsharding & _).
  - vm_compute. reflexivity.
  - reflexivity.
  - vm_compute. reflexivity.
  - reflexivity.
  - discriminate.
  - reflexivity.
  - exists w'. split; [by apply Hrun|exact Hsharding].
Defined.

Lemma remove_axis_undoes_add_axis_witness :
  ∃ w'',
    spmd.Sbind (spmd.add_axis no_hooks no_axis_hooks 1 [PyRef 1] 1 layers)
      (λ tree, spmd.remove_axis no_hooks no_axis_hooks 1 tree 1 layers) sharded_world
      = (inr [PyRef 1], w'') ∧
    spmd.sharding_of w'' (PyRef 1) = Some [PyStr "a"; PyStr "b"].
Proof.
  destruct (remove_axis_undoes_add_axis no_hooks no_axis_hooks 0 sharded_world 1
              sharded_state (PyRef 0) [PyStr "a"; PyStr "b"] (PyStr "layers")
              1 layers) as (w'' & Hrun & _ & Hsame).
  - vm_compute. reflexivity.
  - reflexivity.
  - vm_compute. reflexivity.
  - reflexivity.
  - discriminate.
  - reflexivity.
  - reflexivity.
  - lia.
  - exists w''. split; [exact Hrun|]. apply Hsame. simpl. lia.
Defined.

Lemma axis_errors_witness :
  spmd.add_axis no_hooks no_axis_hooks 1 [PyRef 1] 1 ∅ sharded_world =
    (inl (spmd.AxisNameMissingError (PyRef 0)), sharded_world) ∧
  spmd.remove_axis no_hooks no_axis_hooks 1 [PyRef 1] 5 layers sharded_world =
    (inl (spmd.IndexError "pop index out of range"), sharded_world) ∧
  spmd.remove_axis no_hooks no_axis_hooks 1 [PyRef 1] 1 layers sharded_world =
    (inl spmd.AssertionError, sharded_world).
Proof.
  split; [|split].
  - destruct (axis_errors no_hooks no_axis_hooks 1 sharded_world 1 sharded_state
                (PyRef 0) 1) as [Hmissing _].
    + vm_compute. reflexivity.
    + reflexivity.
    + discriminate.
    + apply (Hmissing ∅). by left.
  - destruct (axis_errors no_hooks no_axis_hooks 0 sharded_world 1 sharded_state
                (PyRef 0) 5) as [_ Hremove].
    + vm_compute. reflexivity.
    + reflexivity.
    + discriminate.
    + destruct (Hremove layers (PyStr "layers") [PyStr "a"; PyStr "b"])
        as (Hindex & _ & _).
      * reflexivity.
      * discriminate.
      * vm_compute. reflexivity.
      * apply Hindex. reflexivity.
  - destruct (axis_errors no_hooks no_axis_hooks 0 sharded_world 1 sharded_state
                (PyRef 0) 1) as [_ Hremove].
    + vm_compute. reflexivity.
    + reflexivity.
    + discriminate.
    + destruct (Hremove layers (PyStr "layers") [PyStr "a"; PyStr "b"])
        as (_ & Hassert & _).
      * reflexivity.
      * discriminate.
      * vm_compute. reflexivity.
      * apply (Hassert (PyStr "b") [PyStr "a"]); [reflexivity|discriminate].
Defined.

Lemma negative_index_is_not_undone_witness :
  ∃ w',
    spmd.add_axis no_hooks no_axis_hooks 1 [PyRef 1] (-1) layers sharded_world =
      (inr [PyRef 1], w') ∧
    spmd.sharding_of w' (PyRef 1) = Some [PyStr "a"; PyStr "layers"; PyStr "b"] ∧
    spmd.remove_axis no_hooks no_axis_hooks 1 [PyRef 1] (-1) layers w' =
      (inl spmd.AssertionError, w').
Proof.
  apply (negative_index_is_not_undone no_hooks no_axis_hooks 0 sharded_world 1
           sharded_state (PyRef 0) [PyStr "a"; PyStr "b"] (PyStr "layers")
           (PyStr "b") (-1) layers).
  - vm_compute. reflexivity.
  - reflexivity.
  - vm_compute. reflexivity.
  - reflexivity.
  - discriminate.
  - reflexivity.
  - lia.
  - simpl. lia.
  - reflexivity.
  - discriminate.
Defined.


Lemma value_read_after_write_witness :
  ((value_setter sample_hooks 0 (PyInt 5) ;; value sample_hooks 0) hooked_world).1 =
    inr (PyInt 24).
Proof.
  destruct (value_read_after_write sample_hooks hooked_world 0 (var_at hooked_world 0)
              (PyInt 5) [1; 0] [0; 1] (PyInt 11)) as [Hrun _].
  - vm_compute. reflexivity.
  - vm_compute. reflexivity.
  - vm_compute. reflexivity.
  - vm_compute. reflexivity.
  - reflexivity.
  - vm_compute. reflexivity.
  - rewrite Hrun. vm_compute. reflexivity.
Defined.
